(** * A proof-of-work ledger: the scripts of [src/intro], embedded and verified

    The development follows the two scripts the specification was written
    from:

    - [src/intro/sufficient_balance.py] (module [SufficientBalance]): blocks
      store their digest in a field, [add_block] rejects insolvent batches;
    - [src/intro/with_cryptographic_proof.py] (module [CryptographicProof]):
      blocks recompute their digest on demand and are sealed by a
      proof-of-work search.

    Python values are embedded as follows.  An [int] is a [Z]; a [str] is a
    [string] whose characters are read as the code points 0..255; a [dict]
    used as a mapping is a [gmap]; a [list] is a [list].  The wall clock
    ([time.time()]) is an input of every operation that reads it, and
    [print] appends a line to an explicit output. *)

From Stdlib Require Import ZArith String Ascii List Bool Lia.
From Stdlib Require Import DecimalString.
From stdpp Require Import base option list strings gmap fin_maps.
Import ListNotations.

Local Open Scope string_scope.
Local Open Scope list_scope.
Local Open Scope Z_scope.

(** ** SHA-256 ([hashlib.sha256]), after FIPS 180-4 *)

Module SHA256.

(** 32-bit words are integers in [0, 2^32); every operation that can leave
    the range is followed by the wrap-around. *)
Definition mask32 : Z := 4294967295.
Definition wrap (x : Z) : Z := Z.land x mask32.
Definition add32 (x y : Z) : Z := wrap (x + y).
Definition rotr (n x : Z) : Z :=
  Z.lor (Z.shiftr x n) (wrap (Z.shiftl x (32 - n))).
Definition not32 (x : Z) : Z := Z.lxor x mask32.

Definition Ch (x y z : Z) : Z := Z.lxor (Z.land x y) (Z.land (not32 x) z).
Definition Maj (x y z : Z) : Z :=
  Z.lxor (Z.lxor (Z.land x y) (Z.land x z)) (Z.land y z).
Definition bigsigma0 (x : Z) : Z :=
  Z.lxor (Z.lxor (rotr 2 x) (rotr 13 x)) (rotr 22 x).
Definition bigsigma1 (x : Z) : Z :=
  Z.lxor (Z.lxor (rotr 6 x) (rotr 11 x)) (rotr 25 x).
Definition smallsigma0 (x : Z) : Z :=
  Z.lxor (Z.lxor (rotr 7 x) (rotr 18 x)) (Z.shiftr x 3).
Definition smallsigma1 (x : Z) : Z :=
  Z.lxor (Z.lxor (rotr 17 x) (rotr 19 x)) (Z.shiftr x 10).

(** The round constants and the initial state are the leading 32 bits of the
    fractional parts of the cube roots, respectively the square roots, of
    the first primes; they are computed from that definition. *)
Fixpoint no_divisor (ps : list Z) (n : Z) : bool :=
  match ps with
  | [] => true
  | p :: ps' => negb (n mod p =? 0) && no_divisor ps' n
  end.

Fixpoint primes_from (fuel : nat) (count : nat) (n : Z) (found : list Z) : list Z :=
  match fuel, count with
  | O, _ | _, O => rev found
  | S fuel', S count' =>
      if no_divisor found n
      then primes_from fuel' count' (n + 1) (n :: found)
      else primes_from fuel' count (n + 1) found
  end.

Definition first_primes (count : nat) : list Z := primes_from 400 count 2 [].

(** Largest [r] in [lo, hi) with [r^3 <= n], by bisection. *)
Fixpoint cube_root_between (fuel : nat) (lo hi n : Z) : Z :=
  match fuel with
  | O => lo
  | S fuel' =>
      if hi - lo <=? 1 then lo
      else let mid := (lo + hi) / 2 in
           if mid * mid * mid <=? n
           then cube_root_between fuel' mid hi n
           else cube_root_between fuel' lo mid n
  end.

Definition frac_cube_root (p : Z) : Z :=
  wrap (cube_root_between 64 0 (2 ^ 36) (p * 2 ^ 96)).
Definition frac_square_root (p : Z) : Z :=
  wrap (Z.sqrt (p * 2 ^ 64)).

Definition K : list Z :=
  Eval vm_compute in List.map frac_cube_root (first_primes 64).
Definition H0 : list Z :=
  Eval vm_compute in List.map frac_square_root (first_primes 8).

(** Padding: the byte 0x80, zero bytes up to 56 modulo 64, then the length
    in bits as a 64-bit big-endian integer. *)
Fixpoint be_bytes (count : nat) (x : Z) : list Z :=
  match count with
  | O => []
  | S count' => be_bytes count' (Z.shiftr x 8) ++ [Z.land x 255]
  end.

Definition pad (msg : list Z) : list Z :=
  let len := Z.of_nat (List.length msg) in
  let zeros := Z.to_nat ((55 - len) mod 64) in
  msg ++ [128] ++ List.repeat 0 zeros ++ be_bytes 8 (8 * len).

Fixpoint be_words (fuel : nat) (bytes : list Z) : list Z :=
  match fuel, bytes with
  | S fuel', b3 :: b2 :: b1 :: b0 :: rest =>
      (Z.shiftl b3 24 + Z.shiftl b2 16 + Z.shiftl b1 8 + b0) :: be_words fuel' rest
  | _, _ => []
  end.

(** The message schedule, most recent word first: with [t] words present,
    position [i] of the list is [W(t-1-i)]. *)
Fixpoint extend_schedule (count : nat) (recent : list Z) : list Z :=
  match count with
  | O => recent
  | S count' =>
      let w := add32 (add32 (smallsigma1 (List.nth 1 recent 0)) (List.nth 6 recent 0))
                     (add32 (smallsigma0 (List.nth 14 recent 0)) (List.nth 15 recent 0)) in
      extend_schedule count' (w :: recent)
  end.

Definition schedule (block : list Z) : list Z :=
  rev (extend_schedule 48 (rev block)).

Record state : Type := State {
  sa : Z; sb : Z; sc : Z; sd : Z; se : Z; sf : Z; sg : Z; sh : Z
}.

Definition round (s : state) (kw : Z * Z) : state :=
  let t1 := add32 (add32 (add32 (sh s) (bigsigma1 (se s)))
                         (add32 (Ch (se s) (sf s) (sg s)) (fst kw))) (snd kw) in
  let t2 := add32 (bigsigma0 (sa s)) (Maj (sa s) (sb s) (sc s)) in
  State (add32 t1 t2) (sa s) (sb s) (sc s) (add32 (sd s) t1) (se s) (sf s) (sg s).

Definition compress (s : state) (block : list Z) : state :=
  let r := List.fold_left round (List.combine K (schedule block)) s in
  State (add32 (sa s) (sa r)) (add32 (sb s) (sb r)) (add32 (sc s) (sc r))
        (add32 (sd s) (sd r)) (add32 (se s) (se r)) (add32 (sf s) (sf r))
        (add32 (sg s) (sg r)) (add32 (sh s) (sh r)).

Fixpoint blocks_of (fuel : nat) (words : list Z) : list (list Z) :=
  match fuel, words with
  | O, _ | _, [] => []
  | S fuel', _ => List.firstn 16 words :: blocks_of fuel' (List.skipn 16 words)
  end.

Definition initial_state : state :=
  State (List.nth 0 H0 0) (List.nth 1 H0 0) (List.nth 2 H0 0) (List.nth 3 H0 0)
        (List.nth 4 H0 0) (List.nth 5 H0 0) (List.nth 6 H0 0) (List.nth 7 H0 0).

Definition digest_state (msg : list Z) : state :=
  let bytes := pad msg in
  let words := be_words (List.length bytes) bytes in
  List.fold_left compress (blocks_of (List.length words) words) initial_state.

(** Lower-case hexadecimal, as [hexdigest] prints it. *)
Definition hex_digit (x : Z) : ascii :=
  if x <? 10 then ascii_of_nat (Z.to_nat (48 + x))
  else ascii_of_nat (Z.to_nat (87 + x)).

Fixpoint hex_of (digits : nat) (x : Z) (tail : string) : string :=
  match digits with
  | O => tail
  | S digits' => hex_of digits' (Z.shiftr x 4) (String (hex_digit (Z.land x 15)) tail)
  end.

Definition hex_of_state (s : state) : string :=
  hex_of 8 (sa s) (hex_of 8 (sb s) (hex_of 8 (sc s) (hex_of 8 (sd s)
  (hex_of 8 (se s) (hex_of 8 (sf s) (hex_of 8 (sg s) (hex_of 8 (sh s) EmptyString))))))).

Definition hexdigest (bytes : list Z) : string := hex_of_state (digest_state bytes).

End SHA256.

(** ** The Python primitives the scripts use *)

Module Py.

(** What a call does: it returns, it raises, or (for the unbounded
    proof-of-work search run on a budget of iterations) it is still
    running when the budget is spent. *)
Inductive run (A : Type) : Type :=
| Done (a : A)
| Raised (exn : string)
| OutOfFuel.
Arguments Done {A} a.
Arguments Raised {A} exn.
Arguments OutOfFuel {A}.

Definition bind {A B : Type} (m : run A) (k : A -> run B) : run B :=
  match m with
  | Done a => k a
  | Raised e => Raised e
  | OutOfFuel => OutOfFuel
  end.

(** [l[i]] on a list: a negative index counts from the end. *)
Definition getitem {A : Type} (l : list A) (i : Z) : run A :=
  let n := Z.of_nat (List.length l) in
  let j := if i <? 0 then n + i else i in
  if (0 <=? j) && (j <? n)
  then match List.nth_error l (Z.to_nat j) with
       | Some x => Done x
       | None => Raised "IndexError"
       end
  else Raised "IndexError".

Definition code (c : ascii) : Z := Z.of_nat (nat_of_ascii c).
Definition chr (n : Z) : ascii := ascii_of_nat (Z.to_nat n).

Definition double_quote : ascii := chr 34.
Definition single_quote : ascii := chr 39.
Definition backslash : ascii := chr 92.

(** [str(n)] for an [int]. *)
Definition str_int (n : Z) : string := NilZero.string_of_int (Z.to_int n).

Fixpoint contains (c : ascii) (s : string) : bool :=
  match s with
  | EmptyString => false
  | String c' s' => Ascii.eqb c c' || contains c s'
  end.

Definition hex2 (n : Z) : string := SHA256.hex_of 2 n EmptyString.

(** [str.isprintable] on the code points 0..255. *)
Definition printable (c : ascii) : bool :=
  let n := code c in
  ((32 <=? n) && (n <? 127)) || ((161 <=? n) && negb (n =? 173)).

(** [repr(s)] for a [str]: single quotes, unless the text holds a single
    quote and no double quote. *)
Definition repr_quote (s : string) : ascii :=
  if contains single_quote s && negb (contains double_quote s)
  then double_quote else single_quote.

Definition repr_char (quote c : ascii) : string :=
  if Ascii.eqb c quote || Ascii.eqb c backslash then String backslash (String c EmptyString)
  else if code c =? 9 then String backslash "t"
  else if code c =? 10 then String backslash "n"
  else if code c =? 13 then String backslash "r"
  else if printable c then String c EmptyString
  else String backslash ("x" +:+ hex2 (code c)).

Fixpoint repr_chars (quote : ascii) (s : string) : string :=
  match s with
  | EmptyString => EmptyString
  | String c s' => repr_char quote c +:+ repr_chars quote s'
  end.

Definition repr_str (s : string) : string :=
  let q := repr_quote s in
  String q (repr_chars q s +:+ String q EmptyString).

(** [s.encode('utf-8')] on the code points 0..255. *)
Fixpoint encode_utf8 (s : string) : list Z :=
  match s with
  | EmptyString => []
  | String c s' =>
      let n := code c in
      if n <? 128 then n :: encode_utf8 s'
      else Z.lor 192 (Z.shiftr n 6) :: Z.lor 128 (Z.land n 63) :: encode_utf8 s'
  end.

(** A [str] as [json.dumps] writes it (with [ensure_ascii], the default). *)
Definition json_char (c : ascii) : string :=
  let n := code c in
  if (n =? 34) || (n =? 92) then String backslash (String c EmptyString)
  else if n =? 10 then String backslash "n"
  else if n =? 13 then String backslash "r"
  else if n =? 9 then String backslash "t"
  else if n =? 8 then String backslash "b"
  else if n =? 12 then String backslash "f"
  else if (32 <=? n) && (n <? 127) then String c EmptyString
  else String backslash ("u00" +:+ hex2 n).

Fixpoint json_chars (s : string) : string :=
  match s with
  | EmptyString => EmptyString
  | String c s' => json_char c +:+ json_chars s'
  end.

Definition json_str (s : string) : string :=
  String double_quote (json_chars s +:+ String double_quote EmptyString).

(** [sep.join(parts)]. *)
Fixpoint join (sep : string) (parts : list string) : string :=
  match parts with
  | [] => EmptyString
  | [p] => p
  | p :: rest => p +:+ sep +:+ join sep rest
  end.

(** The slice [s[:n]]: a negative [n] counts from the end. *)
Fixpoint take (n : nat) (s : string) : string :=
  match n, s with
  | S n', String c s' => String c (take n' s')
  | _, _ => EmptyString
  end.

Definition slice_to (s : string) (n : Z) : string :=
  if 0 <=? n then take (Z.to_nat n) s
  else take (Z.to_nat (Z.of_nat (String.length s) + n)) s.

(** [s * n]: empty when [n] is not positive. *)
Fixpoint repeat_str (s : string) (n : nat) : string :=
  match n with
  | O => EmptyString
  | S n' => s +:+ repeat_str s n'
  end.

Definition str_mul (s : string) (n : Z) : string := repeat_str s (Z.to_nat n).

(** [hashlib.sha256(s.encode('utf-8')).hexdigest()]. *)
Definition sha256_hexdigest (s : string) : string :=
  SHA256.hexdigest (encode_utf8 s).

End Py.

Arguments Py.str_int : simpl never.

#[global] Instance run_ret : MRet Py.run := @Py.Done.
#[global] Instance run_bind : MBind Py.run := fun A B k m => Py.bind m k.

(** ** Transactions and the balance dictionary (both scripts)

    [class Transaction] has the same three attributes in both scripts, and
    both build their balances with the same dictionary statements. *)

Record Transaction : Type := mkTransaction {
  from_address : string;
  to_address : string;
  amount : Z
}.

Module Ledger.

(** [balances.get(k, 0)] *)
Definition get (balances : gmap string Z) (k : string) : Z :=
  default 0 (balances !! k).

(** [if k not in balances: balances[k] = 0] *)
Definition ensure (k : string) (balances : gmap string Z) : gmap string Z :=
  match balances !! k with
  | Some _ => balances
  | None => <[k := 0]> balances
  end.

(** [balances[k] += v]; the key is present wherever the scripts run this
    statement, so the read never raises. *)
Definition iadd (k : string) (v : Z) (balances : gmap string Z) : gmap string Z :=
  <[k := get balances k + v]> balances.

(** The four statements that move [amount] from the sender to the
    receiver. *)
Definition transfer (balances : gmap string Z) (transaction : Transaction)
  : gmap string Z :=
  let balances := ensure (from_address transaction) balances in
  let balances := ensure (to_address transaction) balances in
  let balances := iadd (from_address transaction) (- amount transaction) balances in
  iadd (to_address transaction) (amount transaction) balances.

(** The two statements that only credit the receiver. *)
Definition credit (balances : gmap string Z) (transaction : Transaction)
  : gmap string Z :=
  let balances := ensure (to_address transaction) balances in
  iadd (to_address transaction) (amount transaction) balances.

(** The loop of [are_transactions_valid] over an already computed
    [balances]. *)
Fixpoint check_senders (balances : gmap string Z) (transactions : list Transaction)
  : bool :=
  match transactions with
  | [] => true
  | transaction :: rest =>
      if String.eqb (from_address transaction) "System"
      then check_senders balances rest
      else
        let from_balance := get balances (from_address transaction) in
        if from_balance <? amount transaction then false
        else check_senders balances rest
  end.

(** The sum of all balances of the dictionary. *)
Definition total (balances : gmap string Z) : Z :=
  map_fold (fun _ v acc => v + acc) 0 balances.

End Ledger.

(** ** [src/intro/sufficient_balance.py] *)

Module SufficientBalance.

Record Block : Type := mkBlock {
  index : Z;
  previous_hash : string;
  timestamp : Z;
  transactions : list Transaction;
  hash : string
}.

Record Blockchain : Type := mkBlockchain {
  genesis_block : Block;
  blocks : list Block
}.

Section WithDigest.

(** [hashlib.sha256(text.encode('utf-8')).hexdigest()] as a function of
    [text]. The model is stated for any such function; SHA-256 itself is
    [Py.sha256_hexdigest]. *)
Variable sha256_hexdigest : string -> string.

(** [Block(0, "0", int(time.time()), [], "")], the clock read as [now]. *)
Definition create_genesis_block (now : Z) : Block :=
  mkBlock 0 "0" now [] "".

(** [Blockchain()] *)
Definition init (now : Z) : Blockchain :=
  let genesis := create_genesis_block now in
  mkBlockchain genesis [genesis].

(** [str(transaction.__dict__)] *)
Definition str_dict (transaction : Transaction) : string :=
  "{'from_address': " +:+ Py.repr_str (from_address transaction)
  +:+ ", 'to_address': " +:+ Py.repr_str (to_address transaction)
  +:+ ", 'amount': " +:+ Py.str_int (amount transaction) +:+ "}".

Definition calculate_hash (index : Z) (previous_hash : string) (timestamp : Z)
    (transactions : list Transaction) : string :=
  let transaction_data := Py.join "" (List.map str_dict transactions) in
  let value :=
    Py.str_int index +:+ previous_hash +:+ Py.str_int timestamp +:+ transaction_data in
  sha256_hexdigest value.

(** In the pending batch a transaction from ['System'] only credits. *)
Definition pending_step (balances : gmap string Z) (transaction : Transaction)
  : gmap string Z :=
  if String.eqb (from_address transaction) "System"
  then Ledger.credit balances transaction
  else Ledger.transfer balances transaction.

Definition committed_balances (blocks : list Block) : gmap string Z :=
  List.fold_left
    (fun balances block => List.fold_left Ledger.transfer (transactions block) balances)
    blocks ∅.

Definition calculate_balances (self : Blockchain)
    (pending_transactions : option (list Transaction)) : gmap string Z :=
  let balances := committed_balances (blocks self) in
  match pending_transactions with
  | Some ((_ :: _) as pending) => List.fold_left pending_step pending balances
  | _ => balances
  end.

Definition are_transactions_valid (self : Blockchain)
    (transactions : list Transaction) : bool :=
  let balances := calculate_balances self (Some transactions) in
  Ledger.check_senders balances transactions.

(** [add_block] returns [None] on both paths; what tells them apart is the
    line it prints, so the result is the chain after the call and the
    lines printed. *)
Definition add_block (now : Z) (transactions : list Transaction) (self : Blockchain)
  : Py.run (Blockchain * list string) :=
  if negb (are_transactions_valid self transactions)
  then mret (self, ["Invalid transactions"])
  else
    let index := Z.of_nat (List.length (blocks self)) in
    previous ← Py.getitem (blocks self) (index - 1);
    let previous_hash := hash previous in
    let timestamp := now in
    let hash := calculate_hash index previous_hash timestamp transactions in
    let block := mkBlock index previous_hash timestamp transactions hash in
    mret (mkBlockchain (genesis_block self) (blocks self ++ [block]), []).

(** The loop of [is_chain_valid], from position [i]: the position at which
    it returns [False], if it does. *)
Fixpoint first_defect (i : nat) (previous_block : Block) (rest : list Block)
  : option nat :=
  match rest with
  | [] => None
  | current_block :: rest' =>
      if negb (String.eqb (hash current_block)
                 (calculate_hash (index current_block) (previous_hash current_block)
                    (timestamp current_block) (transactions current_block)))
      then Some i
      else if negb (String.eqb (previous_hash current_block) (hash previous_block))
      then Some i
      else first_defect (S i) current_block rest'
  end.

Definition defect (self : Blockchain) : option nat :=
  match blocks self with
  | [] => None
  | first :: rest => first_defect 1 first rest
  end.

Definition is_chain_valid (self : Blockchain) : bool :=
  match defect self with
  | None => true
  | Some _ => false
  end.

(** A script: the calls of [add_block] made on a fresh chain, each with the
    time it reads. *)
Fixpoint add_blocks (calls : list (Z * list Transaction)) (self : Blockchain)
  : Py.run (Blockchain * list string) :=
  match calls with
  | [] => mret (self, [])
  | (now, transactions) :: calls' =>
      '(self', out) ← add_block now transactions self;
      '(self'', out') ← add_blocks calls' self';
      mret (self'', out ++ out')
  end.

(** Tampering: [self.blocks[i].transactions] is given another content. *)
Definition set_transactions (block : Block) (transactions : list Transaction) : Block :=
  mkBlock (index block) (previous_hash block) (timestamp block) transactions (hash block).

Definition tamper (i : nat) (f : list Transaction -> list Transaction)
    (self : Blockchain) : Blockchain :=
  mkBlockchain
    (match i with
     | O => set_transactions (genesis_block self) (f (transactions (genesis_block self)))
     | _ => genesis_block self
     end)
    (alter (fun block => set_transactions block (f (transactions block))) i (blocks self)).

(** Vocabulary of the statements: a chain whose every link passes both
    tests of [is_chain_valid], and the transactions of a chain in order. *)
Definition well_linked (self : Blockchain) : Prop :=
  exists first rest, blocks self = first :: rest /\ first_defect 1 first rest = None.

End WithDigest.

Definition all_transactions (chain : list Block) : list Transaction :=
  List.concat (List.map transactions chain).

End SufficientBalance.

(** ** [src/intro/with_cryptographic_proof.py] *)

Module CryptographicProof.

(** [timestamp] is the float [time()] returned; all the script does with it
    is write it into the text that is hashed, so the field holds that text
    (the float as [json.dumps] prints it). *)
Record Block : Type := mkBlock {
  timestamp : string;
  transactions : list Transaction;
  previous_hash : string;
  proof : Z
}.

Record Blockchain : Type := mkBlockchain {
  blocks : list Block
}.

Section WithDigest.

(** [hashlib.sha256(text.encode()).hexdigest()] as a function of [text];
    SHA-256 itself is [Py.sha256_hexdigest]. *)
Variable sha256_hexdigest : string -> string.

(** [Block(transactions, previous_hash)], the clock read as [now]. *)
Definition new_block (now : string) (transactions : list Transaction)
    (previous_hash : string) : Block :=
  mkBlock now transactions previous_hash 0.

(** [block.proof = n] *)
Definition set_proof (block : Block) (n : Z) : Block :=
  mkBlock (timestamp block) (transactions block) (previous_hash block) n.

(** [json.dumps(tx.to_dict(), sort_keys=True)] *)
Definition dumps_transaction (tx : Transaction) : string :=
  "{" +:+ Py.json_str "amount" +:+ ": " +:+ Py.str_int (amount tx)
  +:+ ", " +:+ Py.json_str "from_address" +:+ ": " +:+ Py.json_str (from_address tx)
  +:+ ", " +:+ Py.json_str "to_address" +:+ ": " +:+ Py.json_str (to_address tx)
  +:+ "}".

(** [json.dumps(block_dict, sort_keys=True)], where [block_dict] is the
    copy of the block's attributes with the transactions replaced by their
    dictionaries. *)
Definition dumps_block (self : Block) : string :=
  "{" +:+ Py.json_str "previous_hash" +:+ ": " +:+ Py.json_str (previous_hash self)
  +:+ ", " +:+ Py.json_str "proof" +:+ ": " +:+ Py.str_int (proof self)
  +:+ ", " +:+ Py.json_str "timestamp" +:+ ": " +:+ timestamp self
  +:+ ", " +:+ Py.json_str "transactions" +:+ ": ["
  +:+ Py.join ", " (List.map dumps_transaction (transactions self)) +:+ "]}".

Definition hash (self : Block) : string :=
  let block_string := dumps_block self in
  sha256_hexdigest block_string.

(** [hash] as a method call on the block object: the digest, and the
    object after the call. The method writes to a copy of the attribute
    dictionary only. *)
Definition call_hash (self : Block) : string * Block :=
  (hash self, self).

(** The test of the proof-of-work loop,
    [block.hash()[:difficulty] == "0" * difficulty]. *)
Definition is_valid (block : Block) (difficulty : Z) : bool :=
  String.eqb (Py.slice_to (hash block) difficulty) (Py.str_mul "0" difficulty).

(** The [while] loop of [proof_of_work], on a budget of iterations: the
    nonce it returns and the block as the loop leaves it. *)
Fixpoint search (fuel : nat) (block : Block) (difficulty : Z) : Py.run (Z * Block) :=
  match fuel with
  | O => Py.OutOfFuel
  | S fuel' =>
      if negb (is_valid block difficulty)
      then search fuel' (set_proof block (proof block + 1)) difficulty
      else mret (proof block, block)
  end.

Definition proof_of_work (fuel : nat) (block : Block) (difficulty : Z)
  : Py.run (Z * Block) :=
  search fuel (set_proof block 0) difficulty.

Definition genesis_transactions : list Transaction :=
  [mkTransaction "System" "Alice" 100; mkTransaction "System" "Bob" 100;
   mkTransaction "System" "Charlie" 100].

(** [genesis_block], sealed at the default difficulty 4. *)
Definition genesis_block (fuel : nat) (now : string) : Py.run Block :=
  let genesis_block := new_block now genesis_transactions "0" in
  '(nonce, genesis_block) ← proof_of_work fuel genesis_block 4;
  mret (set_proof genesis_block nonce).

(** [Blockchain()] *)
Definition init (fuel : nat) (now : string) : Py.run Blockchain :=
  genesis ← genesis_block fuel now;
  mret (mkBlockchain [genesis]).

Definition committed_balances (blocks : list Block) : gmap string Z :=
  List.fold_left
    (fun balances block => List.fold_left Ledger.transfer (transactions block) balances)
    blocks ∅.

Definition calculate_balances (self : Blockchain)
    (pending_transactions : option (list Transaction)) : gmap string Z :=
  let balances := committed_balances (blocks self) in
  match pending_transactions with
  | Some ((_ :: _) as pending) => List.fold_left Ledger.transfer pending balances
  | _ => balances
  end.

Definition are_transactions_valid (self : Blockchain)
    (transactions : list Transaction) : bool :=
  let balances := calculate_balances self (Some transactions) in
  Ledger.check_senders balances transactions.

(** [add_block] with the difficulty it passes to [proof_of_work] as a
    parameter. [now] is the time the new block reads, [elapsed] the text of
    [end - start] in the line printed. *)
Definition add_block_at (difficulty : Z) (fuel : nat) (now elapsed : string)
    (transactions : list Transaction) (self : Blockchain)
  : Py.run (Blockchain * list string) :=
  if negb (are_transactions_valid self transactions)
  then mret (self, ["Invalid transactions"])
  else
    last_block ← Py.getitem (blocks self) (-1);
    let previous_hash := hash last_block in
    let new_block := new_block now transactions previous_hash in
    '(nonce, new_block) ← proof_of_work fuel new_block difficulty;
    let new_block := set_proof new_block nonce in
    mret (mkBlockchain (blocks self ++ [new_block]),
          ["Proof of work solved in " +:+ elapsed +:+ " seconds"]).

(** The script calls [proof_of_work(new_block, difficulty=7)]. *)
Definition add_block : nat -> string -> string -> list Transaction -> Blockchain ->
    Py.run (Blockchain * list string) :=
  add_block_at 7.

(** The loop of [is_chain_valid], from position [i]: the position at which
    it returns [False], if it does. *)
Fixpoint first_defect (i : nat) (previous : Block) (rest : list Block) : option nat :=
  match rest with
  | [] => None
  | current :: rest' =>
      if negb (String.eqb (hash current) (hash current)) then Some i
      else if negb (String.eqb (previous_hash current) (hash previous)) then Some i
      else first_defect (S i) current rest'
  end.

Definition defect (self : Blockchain) : option nat :=
  match blocks self with
  | [] => None
  | first :: rest => first_defect 1 first rest
  end.

Definition is_chain_valid (self : Blockchain) : bool :=
  match defect self with
  | None => true
  | Some _ => false
  end.

(** Tampering: [self.blocks[i].transactions] is given another content. *)
Definition set_transactions (block : Block) (transactions : list Transaction) : Block :=
  mkBlock (timestamp block) transactions (previous_hash block) (proof block).

Definition tamper (i : nat) (f : list Transaction -> list Transaction)
    (self : Blockchain) : Blockchain :=
  mkBlockchain
    (alter (fun block => set_transactions block (f (transactions block))) i (blocks self)).

(** A script: the calls of [add_block] made on a chain, each with the
    difficulty, the iteration budget and the clock readings of the call. *)
Record Call : Type := mkCall {
  call_difficulty : Z;
  call_fuel : nat;
  call_now : string;
  call_elapsed : string;
  call_transactions : list Transaction
}.

Fixpoint add_blocks (calls : list Call) (self : Blockchain)
  : Py.run (Blockchain * list string) :=
  match calls with
  | [] => mret (self, [])
  | c :: calls' =>
      '(self', out) ← add_block_at (call_difficulty c) (call_fuel c) (call_now c)
                         (call_elapsed c) (call_transactions c) self;
      '(self'', out') ← add_blocks calls' self';
      mret (self'', out ++ out')
  end.

(** Vocabulary of the statements: a chain whose every link passes the
    tests of [is_chain_valid], and the transactions of a chain in order. *)
Definition well_linked (self : Blockchain) : Prop :=
  exists first rest, blocks self = first :: rest /\ first_defect 1 first rest = None.

End WithDigest.

Definition all_transactions (chain : list Block) : list Transaction :=
  List.concat (List.map transactions chain).

End CryptographicProof.

(** Tampering with one transaction: [transactions[j].amount = v]. *)
Definition set_amount (j : nat) (v : Z) (transactions : list Transaction)
  : list Transaction :=
  alter (fun t => mkTransaction (from_address t) (to_address t) v) j transactions.

Definition demo_mint : list Transaction :=
  [mkTransaction "System" "Alice" 100; mkTransaction "System" "Bob" 100;
   mkTransaction "System" "Charlie" 100].
Definition demo_block1 : list Transaction :=
  [mkTransaction "Alice" "Bob" 50; mkTransaction "Bob" "Charlie" 25].
Definition demo_block2 : list Transaction :=
  [mkTransaction "Charlie" "Alice" 10; mkTransaction "Alice" "Bob" 5].

(** ** The runs of the two scripts

    The closed examples run the scripts with SHA-256 itself, at fixed clock
    readings. *)

(** [sufficient_balance.py], lines 112-119. *)
Definition sb_start : SufficientBalance.Blockchain := SufficientBalance.init 1700000000.

Definition sb_funded : SufficientBalance.Blockchain :=
  Eval vm_compute in
    match SufficientBalance.add_block Py.sha256_hexdigest 1700000001 demo_mint sb_start with
    | Py.Done (chain, _) => chain
    | _ => sb_start
    end.

Definition sb_after_block1 : SufficientBalance.Blockchain :=
  Eval vm_compute in
    match SufficientBalance.add_block Py.sha256_hexdigest 1700000002 demo_block1 sb_funded with
    | Py.Done (chain, _) => chain
    | _ => sb_start
    end.

Definition sb_after_block2 : SufficientBalance.Blockchain :=
  Eval vm_compute in
    match SufficientBalance.add_block Py.sha256_hexdigest 1700000003 demo_block2
            sb_after_block1 with
    | Py.Done (chain, _) => chain
    | _ => sb_start
    end.

(** [with_cryptographic_proof.py], lines 128-132, at clock readings for which
    the searches end after 17, 32 and 5 increments. *)
Definition pow_calls : list CryptographicProof.Call :=
  [CryptographicProof.mkCall 7 40 "1700007925.6339998" "251.8" demo_block1;
   CryptographicProof.mkCall 7 40 "1700017341.146" "97.3" demo_block2].

Definition pow_start : CryptographicProof.Blockchain :=
  Eval vm_compute in
    match CryptographicProof.init Py.sha256_hexdigest 40 "1700000000.929" with
    | Py.Done chain => chain
    | _ => CryptographicProof.mkBlockchain []
    end.

Definition pow_chain : CryptographicProof.Blockchain :=
  Eval vm_compute in
    match CryptographicProof.add_blocks Py.sha256_hexdigest pow_calls pow_start with
    | Py.Done (chain, _) => chain
    | _ => CryptographicProof.mkBlockchain []
    end.

(** The block the proof-of-work constructor seals, and the script's chain
    split at its last block. *)
Definition pow_candidate : CryptographicProof.Block :=
  CryptographicProof.new_block "1700000000.929" CryptographicProof.genesis_transactions "0".

Definition pow_front : list CryptographicProof.Block :=
  Eval vm_compute in List.firstn 2 (CryptographicProof.blocks pow_chain).

Definition pow_last : CryptographicProof.Block :=
  Eval vm_compute in List.last (CryptographicProof.blocks pow_chain) pow_candidate.

(** Two batches on which the solvency check and a step-by-step check
    disagree. *)
Definition spends_received : list Transaction :=
  [mkTransaction "Alice" "Bob" 50; mkTransaction "Bob" "Charlie" 140].


(** ** Vocabulary of the statements *)

(** What [a] sends and what it receives in a list of transactions. *)
Fixpoint sent (a : string) (transactions : list Transaction) : Z :=
  match transactions with
  | [] => 0
  | t :: rest =>
      (if String.eqb (from_address t) a then amount t else 0) + sent a rest
  end.

Fixpoint received (a : string) (transactions : list Transaction) : Z :=
  match transactions with
  | [] => 0
  | t :: rest =>
      (if String.eqb (to_address t) a then amount t else 0) + received a rest
  end.

(** What the pending loop of [sufficient_balance.py] debits: the sentinel
    sends nothing there. *)
Definition pending_sent (a : string) (pending : list Transaction) : Z :=
  if String.eqb a "System" then 0 else sent a pending.


(** A text of lower-case hexadecimal digits. *)
Definition is_hex_char (c : ascii) : bool :=
  let n := Py.code c in ((48 <=? n) && (n <=? 57)) || ((97 <=? n) && (n <=? 102)).

Fixpoint is_hex_string (s : string) : bool :=
  match s with
  | EmptyString => true
  | String c s' => is_hex_char c && is_hex_string s'
  end.

(** [a] is the sender or the receiver of some transaction of the list. *)
Fixpoint mentioned (a : string) (transactions : list Transaction) : bool :=
  match transactions with
  | [] => false
  | t :: rest =>
      String.eqb (from_address t) a || String.eqb (to_address t) a || mentioned a rest
  end.

(** Rewriting a block of [sufficient_balance.py] consistently: new
    transactions, and the stored digest recomputed from the block's fields
    ([block.transactions = ...; block.hash = calculate_hash(...)]). *)
Definition rewrite_block (sha256_hexdigest : string -> string)
    (block : SufficientBalance.Block) (transactions : list Transaction)
  : SufficientBalance.Block :=
  SufficientBalance.mkBlock (SufficientBalance.index block)
    (SufficientBalance.previous_hash block) (SufficientBalance.timestamp block)
    transactions
    (SufficientBalance.calculate_hash sha256_hexdigest (SufficientBalance.index block)
       (SufficientBalance.previous_hash block) (SufficientBalance.timestamp block)
       transactions).

(** Every amount of the batch is at least 0. *)
Definition amounts_nonnegative (batch : list Transaction) : Prop :=
  Forall (fun t => 0 <= amount t) batch.

(** ** The balance dictionary *)

Section LedgerFacts.
Import Ledger.
Implicit Types (balances : gmap string Z) (k a : string) (v : Z).

Lemma get_insert balances k v a :
  get (<[k := v]> balances) a = if String.eqb k a then v else get balances a.
Proof.
  unfold get. destruct (String.eqb_spec k a) as [->|Hne].
  - by rewrite lookup_insert_eq.
  - by rewrite lookup_insert_ne.
Qed.

Lemma get_ensure balances k a : get (ensure k balances) a = get balances a.
Proof.
  unfold ensure. destruct (balances !! k) eqn:Hk; [done|].
  rewrite get_insert. destruct (String.eqb_spec k a) as [<-|]; [|done].
  unfold get. by rewrite Hk.
Qed.

Lemma get_iadd balances k v a :
  get (iadd k v balances) a = get balances a + (if String.eqb k a then v else 0).
Proof.
  unfold iadd. rewrite get_insert.
  destruct (String.eqb_spec k a) as [<-|]; lia.
Qed.

Lemma get_transfer balances t a :
  get (transfer balances t) a =
  get balances a
  - (if String.eqb (from_address t) a then amount t else 0)
  + (if String.eqb (to_address t) a then amount t else 0).
Proof.
  unfold transfer. rewrite !get_iadd, !get_ensure.
  destruct (String.eqb _ a), (String.eqb _ a); lia.
Qed.

Lemma get_credit balances t a :
  get (credit balances t) a =
  get balances a + (if String.eqb (to_address t) a then amount t else 0).
Proof. unfold credit. by rewrite get_iadd, get_ensure. Qed.

Lemma get_replay transactions balances a :
  get (List.fold_left transfer transactions balances) a =
  get balances a + received a transactions - sent a transactions.
Proof.
  revert balances. induction transactions as [|t rest IH]; intros balances; simpl.
  - lia.
  - rewrite IH, get_transfer. lia.
Qed.

Lemma total_insert balances k v :
  total (<[k := v]> balances) = total balances - get balances k + v.
Proof.
  unfold total, get.
  assert (Hcomm : forall (m : gmap string Z) (j1 j2 : string) (z1 z2 y : Z),
    j1 <> j2 -> m !! j1 = Some z1 -> m !! j2 = Some z2 ->
    z1 + (z2 + y) = z2 + (z1 + y)) by (intros; lia).
  destruct (balances !! k) as [old|] eqn:Hk; simpl.
  - rewrite <- insert_delete_eq.
    rewrite map_fold_insert_L; [|by apply Hcomm|by rewrite lookup_delete_eq].
    rewrite (map_fold_delete_L _ _ k old balances); [lia|by apply Hcomm|done].
  - rewrite map_fold_insert_L; [lia|by apply Hcomm|done].
Qed.

Lemma total_ensure balances k : total (ensure k balances) = total balances.
Proof.
  unfold ensure. destruct (balances !! k) eqn:Hk; [done|].
  rewrite total_insert. unfold get. rewrite Hk. simpl. lia.
Qed.

Lemma total_iadd balances k v : total (iadd k v balances) = total balances + v.
Proof. unfold iadd. rewrite total_insert. lia. Qed.

Lemma total_transfer balances t : total (transfer balances t) = total balances.
Proof. unfold transfer. rewrite !total_iadd, !total_ensure. lia. Qed.

Lemma total_replay transactions balances :
  total (List.fold_left transfer transactions balances) = total balances.
Proof.
  revert balances. induction transactions as [|t rest IH]; intros balances; simpl.
  - done.
  - by rewrite IH, total_transfer.
Qed.

Lemma total_empty : total ∅ = 0.
Proof. unfold total. by rewrite map_fold_empty. Qed.

End LedgerFacts.

(** ** Python list indexing *)

Lemma getitem_last_index {A : Type} (l : list A) (x : A) :
  Py.getitem (l ++ [x]) (Z.of_nat (List.length (l ++ [x])) - 1) = Py.Done x.
Proof.
  unfold Py.getitem. rewrite length_app. simpl.
  replace (Z.of_nat (List.length l + 1) - 1) with (Z.of_nat (List.length l)) by lia.
  destruct (Z.ltb_spec (Z.of_nat (List.length l)) 0) as [?|_]; [lia|].
  destruct (Z.leb_spec 0 (Z.of_nat (List.length l))) as [_|?]; [|lia].
  destruct (Z.ltb_spec (Z.of_nat (List.length l)) (Z.of_nat (List.length l + 1))) as [_|?]; [|lia].
  simpl. rewrite Nat2Z.id.
  rewrite nth_error_app2 by lia. by rewrite Nat.sub_diag.
Qed.

Lemma getitem_minus_one {A : Type} (l : list A) (x : A) :
  Py.getitem (l ++ [x]) (-1) = Py.Done x.
Proof.
  unfold Py.getitem. rewrite length_app. simpl.
  replace (Z.of_nat (List.length l + 1) + -1) with (Z.of_nat (List.length l)) by lia.
  destruct (Z.leb_spec 0 (Z.of_nat (List.length l))) as [_|?]; [|lia].
  destruct (Z.ltb_spec (Z.of_nat (List.length l)) (Z.of_nat (List.length l + 1))) as [_|?]; [|lia].
  simpl. rewrite Nat2Z.id.
  rewrite nth_error_app2 by lia. by rewrite Nat.sub_diag.
Qed.

Lemma nonempty_snoc {A : Type} (l : list A) :
  l <> [] -> exists front x, l = front ++ [x].
Proof.
  intros Hne. destruct (exists_last Hne) as (front & x & ->). eauto.
Qed.

Lemma last_nonempty_default {A : Type} (x : A) (l : list A) (d d' : A) :
  List.last (x :: l) d = List.last (x :: l) d'.
Proof.
  revert x. induction l as [|y l IH]; intros x; [reflexivity|].
  change (List.last (y :: l) d = List.last (y :: l) d'). apply IH.
Qed.

(** ** [sufficient_balance.py]: structure of the chain and of the balances *)

Module SufficientBalanceFacts.
Import SufficientBalance.

Section WithDigest.
Variable sha256_hexdigest : string -> string.
Local Abbreviation calculate_hash := (calculate_hash sha256_hexdigest).
Local Abbreviation add_block := (add_block sha256_hexdigest).
Local Abbreviation add_blocks := (add_blocks sha256_hexdigest).
Local Abbreviation first_defect := (first_defect sha256_hexdigest).
Local Abbreviation defect := (defect sha256_hexdigest).
Local Abbreviation is_chain_valid := (is_chain_valid sha256_hexdigest).
Local Abbreviation well_linked := (well_linked sha256_hexdigest).

Lemma fold_blocks_replay chain balances :
  List.fold_left
    (fun balances block => List.fold_left Ledger.transfer (transactions block) balances)
    chain balances
  = List.fold_left Ledger.transfer (all_transactions chain) balances.
Proof.
  revert balances. induction chain as [|b chain IH]; intros balances; [done|].
  unfold all_transactions in *. simpl. by rewrite IH, fold_left_app.
Qed.

Lemma committed_balances_replay chain :
  committed_balances chain = List.fold_left Ledger.transfer (all_transactions chain) ∅.
Proof. apply fold_blocks_replay. Qed.

Lemma get_committed chain a :
  Ledger.get (committed_balances chain) a
  = received a (all_transactions chain) - sent a (all_transactions chain).
Proof.
  rewrite committed_balances_replay, get_replay.
  unfold Ledger.get. rewrite lookup_empty. simpl. lia.
Qed.

Lemma get_pending_step balances t a :
  Ledger.get (pending_step balances t) a =
  Ledger.get balances a
  - (if String.eqb (from_address t) "System" then 0
     else if String.eqb (from_address t) a then amount t else 0)
  + (if String.eqb (to_address t) a then amount t else 0).
Proof.
  unfold pending_step. destruct (String.eqb (from_address t) "System").
  - rewrite get_credit. lia.
  - by rewrite get_transfer.
Qed.

Lemma get_pending pending balances a :
  Ledger.get (List.fold_left pending_step pending balances) a =
  Ledger.get balances a + received a pending - pending_sent a pending.
Proof.
  unfold pending_sent.
  revert balances. induction pending as [|t rest IH]; intros balances; simpl.
  - destruct (String.eqb a "System"); lia.
  - rewrite IH, get_pending_step.
    destruct (String.eqb_spec a "System") as [Ha|Ha].
    + destruct (String.eqb_spec (from_address t) "System") as [Hs|Hs]; [lia|].
      destruct (String.eqb_spec (from_address t) a) as [Hf|Hf]; [congruence|lia].
    + destruct (String.eqb_spec (from_address t) "System") as [Hs|Hs]; [|lia].
      destruct (String.eqb_spec (from_address t) a) as [Hf|Hf]; [congruence|lia].
Qed.

Lemma calculate_balances_pending self pending :
  calculate_balances self (Some pending)
  = List.fold_left pending_step pending (calculate_balances self None).
Proof. unfold calculate_balances. destruct pending; reflexivity. Qed.

Lemma get_calculate_balances self pending a :
  Ledger.get (calculate_balances self (Some pending)) a =
  Ledger.get (calculate_balances self None) a
  + received a pending - pending_sent a pending.
Proof. by rewrite calculate_balances_pending, get_pending. Qed.

Lemma add_block_rejected now transactions self :
  are_transactions_valid self transactions = false ->
  add_block now transactions self = Py.Done (self, ["Invalid transactions"]).
Proof. intros Hv. unfold add_block. by rewrite Hv. Qed.

Lemma add_block_accepted now transactions self front last_block :
  are_transactions_valid self transactions = true ->
  blocks self = front ++ [last_block] ->
  add_block now transactions self =
  Py.Done
    (mkBlockchain (genesis_block self)
       (blocks self ++
        [mkBlock (Z.of_nat (List.length (blocks self))) (hash last_block) now transactions
           (calculate_hash (Z.of_nat (List.length (blocks self))) (hash last_block) now
              transactions)]), []).
Proof.
  intros Hv Hb. destruct self as [genesis chain]. simpl in Hb. subst chain.
  unfold add_block. rewrite Hv. simpl blocks. simpl negb. cbv iota.
  by rewrite getitem_last_index.
Qed.

Lemma first_defect_snoc i previous rest block :
  first_defect i previous rest = None ->
  hash block = calculate_hash (index block) (previous_hash block) (timestamp block)
                 (transactions block) ->
  previous_hash block = hash (List.last rest previous) ->
  first_defect i previous (rest ++ [block]) = None.
Proof.
  revert i previous. induction rest as [|b rest IH]; intros i previous Hd Hh Hp; simpl in *.
  - rewrite <- Hh, <- Hp, !String.eqb_refl. done.
  - destruct (negb _); [done|]. destruct (negb _); [done|].
    apply IH; [assumption|assumption|]. rewrite Hp.
    destruct rest as [|r rest']; [reflexivity|]. f_equal. apply last_nonempty_default.
Qed.

Lemma well_linked_init now : well_linked (init now).
Proof. exists (create_genesis_block now), []. done. Qed.

Lemma well_linked_nonempty self :
  well_linked self -> exists front last_block, blocks self = front ++ [last_block].
Proof.
  intros (first & rest & Hb & _). apply nonempty_snoc. by rewrite Hb.
Qed.

Lemma add_block_well_linked now transactions self :
  well_linked self ->
  exists self' out,
    add_block now transactions self = Py.Done (self', out) /\ well_linked self'.
Proof.
  intros Hwl.
  destruct (are_transactions_valid self transactions) eqn:Hv.
  - destruct (well_linked_nonempty _ Hwl) as (front & last_block & Hb).
    eexists _, _. split; [by apply (add_block_accepted _ _ _ front last_block)|].
    destruct Hwl as (first & rest & Hfr & Hd).
    exists first, (rest ++ [mkBlock (Z.of_nat (List.length (blocks self))) (hash last_block)
                              now transactions
                              (calculate_hash (Z.of_nat (List.length (blocks self)))
                                 (hash last_block) now transactions)]).
    simpl. split; [by rewrite Hfr|].
    apply first_defect_snoc; [done|done|]. simpl.
    f_equal. rewrite Hfr in Hb.
    change (first :: rest) with ([first] ++ rest) in Hb.
    destruct rest as [|r rest'] using rev_ind.
    + simpl in *. destruct front as [|? [|? ?]]; simpl in Hb; congruence.
    + rewrite last_last. rewrite app_assoc in Hb.
      apply app_inj_tail in Hb. by destruct Hb.
  - eexists _, _. split; [by apply add_block_rejected|done].
Qed.

Lemma add_blocks_well_linked calls self :
  well_linked self ->
  exists self' out, add_blocks calls self = Py.Done (self', out) /\ well_linked self'.
Proof.
  revert self. induction calls as [|[now transactions] calls IH]; intros self Hwl.
  - exists self, []. done.
  - destruct (add_block_well_linked now transactions self Hwl) as (s1 & o1 & H1 & Hw1).
    destruct (IH s1 Hw1) as (s2 & o2 & H2 & Hw2).
    exists s2, (o1 ++ o2). split; [|done].
    simpl. rewrite H1. simpl. rewrite H2. done.
Qed.

Lemma well_linked_valid self : well_linked self -> is_chain_valid self = true.
Proof.
  intros (first & rest & Hb & Hd). unfold is_chain_valid, defect. by rewrite Hb, Hd.
Qed.

(** In this script the stored digest gives a tampered block away at its
    own position, as long as the digest of the new content differs. *)
Lemma first_defect_alter f i previous rest k block :
  first_defect i previous rest = None ->
  rest !! k = Some block ->
  calculate_hash (index block) (previous_hash block) (timestamp block)
    (f (transactions block)) <> hash block ->
  first_defect i previous
    (alter (fun b => set_transactions b (f (transactions b))) k rest)
  = Some (i + k)%nat.
Proof.
  revert i previous k. induction rest as [|b rest IH]; intros i previous k Hd Hk Hne.
  - done.
  - destruct k as [|k]; simpl in Hk.
    + injection Hk as ->. simpl.
      destruct (String.eqb_spec (hash block)
                  (calculate_hash (index block) (previous_hash block) (timestamp block)
                     (f (transactions block)))) as [Heq|_]; [congruence|].
      simpl. f_equal. lia.
    + simpl in Hd |- *.
      destruct (negb _); [done|]. destruct (negb _); [done|].
      transitivity (Some (S i + k)%nat); [exact (IH (S i) b k Hd Hk Hne)|].
      f_equal. lia.
Qed.

Lemma tamper_detected_at_index f self k block :
  well_linked self ->
  blocks self !! S k = Some block ->
  calculate_hash (index block) (previous_hash block) (timestamp block)
    (f (transactions block)) <> hash block ->
  defect (tamper (S k) f self) = Some (S k).
Proof.
  intros (first & rest & Hb & Hd) Hk Hne. unfold SufficientBalance.defect, tamper. simpl.
  rewrite Hb in Hk |- *. simpl in Hk.
  exact (first_defect_alter f 1 first rest k block Hd Hk Hne).
Qed.

End WithDigest.

End SufficientBalanceFacts.

(** ** [with_cryptographic_proof.py]: the search and the chain *)

Lemma take_zeros (n : nat) (s : string) :
  String.eqb (Py.take n s) (Py.repeat_str "0" n) = true <->
  forall i : nat, (i < n)%nat -> String.get i s = Some "0"%char.
Proof.
  revert s. induction n as [|n IH]; intros s.
  - split; [intros _ i Hi; lia|reflexivity].
  - destruct s as [|c s].
    + split; [discriminate|]. intros H. specialize (H O ltac:(lia)). discriminate.
    + change (Py.take (S n) (String c s)) with (String c (Py.take n s)).
      change (Py.repeat_str "0" (S n)) with (String "0"%char (Py.repeat_str "0" n)).
      rewrite String.eqb_eq. split.
      * intros Heq. injection Heq as -> Heq.
        apply (proj2 (String.eqb_eq _ _)) in Heq. pose proof (proj1 (IH s) Heq) as Hall.
        intros [|i] Hi; [reflexivity|]. simpl. apply Hall. lia.
      * intros H. f_equal.
        -- specialize (H O ltac:(lia)). simpl in H. congruence.
        -- apply String.eqb_eq. apply (proj2 (IH s)). intros i Hi. apply (H (S i)). lia.
Qed.

Module CryptographicProofFacts.
Import CryptographicProof.

Section WithDigest.
Variable sha256_hexdigest : string -> string.
Local Abbreviation hash := (hash sha256_hexdigest).
Local Abbreviation is_valid := (is_valid sha256_hexdigest).
Local Abbreviation search := (search sha256_hexdigest).
Local Abbreviation proof_of_work := (proof_of_work sha256_hexdigest).
Local Abbreviation genesis_block := (genesis_block sha256_hexdigest).
Local Abbreviation init := (init sha256_hexdigest).
Local Abbreviation add_block_at := (add_block_at sha256_hexdigest).
Local Abbreviation add_block := (add_block sha256_hexdigest).
Local Abbreviation add_blocks := (add_blocks sha256_hexdigest).
Local Abbreviation first_defect := (first_defect sha256_hexdigest).
Local Abbreviation defect := (defect sha256_hexdigest).
Local Abbreviation is_chain_valid := (is_chain_valid sha256_hexdigest).
Local Abbreviation well_linked := (well_linked sha256_hexdigest).

Lemma set_proof_same block : set_proof block (proof block) = block.
Proof. by destruct block. Qed.

Lemma set_proof_twice block n m : set_proof (set_proof block n) m = set_proof block m.
Proof. done. Qed.

Lemma is_valid_zero block : is_valid block 0 = true.
Proof. unfold is_valid. simpl. destruct (hash block); reflexivity. Qed.

Lemma is_valid_leading_zeros block difficulty :
  0 <= difficulty ->
  is_valid block difficulty = true <->
  forall i : nat, Z.of_nat i < difficulty -> String.get i (hash block) = Some "0"%char.
Proof.
  intros Hd. unfold is_valid, Py.slice_to, Py.str_mul.
  destruct (Z.leb_spec 0 difficulty) as [_|?]; [|lia].
  rewrite take_zeros. split; intros H i Hi; apply H; lia.
Qed.

(** The loop returns the first nonce, counting from the one installed, at
    which the test holds, and leaves it installed. *)
Lemma search_sound fuel block difficulty nonce block' :
  search fuel block difficulty = Py.Done (nonce, block') ->
  block' = set_proof block nonce /\
  is_valid block' difficulty = true /\
  proof block <= nonce < proof block + Z.of_nat fuel /\
  forall m, proof block <= m < nonce -> is_valid (set_proof block m) difficulty = false.
Proof.
  revert block. induction fuel as [|fuel IH]; intros block Hs; [discriminate|].
  simpl in Hs. destruct (is_valid block difficulty) eqn:Hv; simpl in Hs.
  - injection Hs as <- <-. rewrite set_proof_same.
    repeat split; [done|lia|lia|]. intros m Hm. lia.
  - apply IH in Hs as (Hb & Hv' & Hrange & Hleast). simpl in *.
    repeat split; [done|done|lia|lia|].
    intros m Hm. destruct (Z.eq_dec m (proof block)) as [->|Hne].
    + by rewrite set_proof_same.
    + apply (Hleast m). lia.
Qed.

(** The loop returns as soon as some nonce within the budget passes the
    test. *)
Lemma search_complete fuel block difficulty n :
  proof block <= n < proof block + Z.of_nat fuel ->
  is_valid (set_proof block n) difficulty = true ->
  exists nonce,
    search fuel block difficulty = Py.Done (nonce, set_proof block nonce) /\ nonce <= n.
Proof.
  revert block. induction fuel as [|fuel IH]; intros block Hn Hv; [lia|].
  simpl. destruct (is_valid block difficulty) eqn:Hb; simpl.
  - exists (proof block). rewrite set_proof_same. split; [done|lia].
  - destruct (Z.eq_dec n (proof block)) as [->|Hne].
    + rewrite set_proof_same in Hv. congruence.
    + destruct (IH (set_proof block (proof block + 1))) as (nonce & Hs & Hle).
      * simpl. lia.
      * done.
      * exists nonce. by rewrite Hs.
Qed.

Lemma proof_of_work_sound fuel block difficulty nonce block' :
  proof_of_work fuel block difficulty = Py.Done (nonce, block') ->
  block' = set_proof block nonce /\
  is_valid block' difficulty = true /\
  0 <= nonce < Z.of_nat fuel /\
  forall m, 0 <= m < nonce -> is_valid (set_proof block m) difficulty = false.
Proof.
  intros Hs. apply search_sound in Hs as (Hb & Hv & Hrange & Hleast). simpl in *.
  repeat split; [done|done|lia|lia|]. intros m Hm. by apply Hleast.
Qed.

Lemma proof_of_work_complete fuel block difficulty n :
  0 <= n < Z.of_nat fuel ->
  is_valid (set_proof block n) difficulty = true ->
  exists nonce,
    proof_of_work fuel block difficulty = Py.Done (nonce, set_proof block nonce) /\
    nonce <= n.
Proof.
  intros Hn Hv. unfold proof_of_work.
  destruct (search_complete fuel (set_proof block 0) difficulty n) as (nonce & Hs & Hle);
    [simpl; lia|done|].
  exists nonce. by rewrite Hs.
Qed.

Lemma pow_first_defect_snoc i previous rest block :
  first_defect i previous rest = None ->
  previous_hash block = hash (List.last rest previous) ->
  first_defect i previous (rest ++ [block]) = None.
Proof.
  revert i previous. induction rest as [|b rest IH]; intros i previous Hd Hp; simpl in *.
  - rewrite <- Hp, !String.eqb_refl. done.
  - destruct (negb _); [done|]. destruct (negb _); [done|].
    apply IH; [assumption|]. rewrite Hp.
    destruct rest as [|r rest']; [reflexivity|]. f_equal. apply last_nonempty_default.
Qed.

(** The last block's transactions are read by no test of the loop. *)
Lemma first_defect_last_transactions i previous rest block transactions' :
  first_defect i previous (rest ++ [set_transactions block transactions'])
  = first_defect i previous (rest ++ [block]).
Proof.
  revert i previous. induction rest as [|b rest IH]; intros i previous; simpl.
  - by rewrite !String.eqb_refl.
  - by rewrite IH.
Qed.

Lemma init_well_linked fuel now self :
  init fuel now = Py.Done self -> well_linked self.
Proof.
  unfold init. destruct (genesis_block fuel now) as [genesis| |]; simpl; try discriminate.
  intros [= <-]. by exists genesis, [].
Qed.

Lemma add_block_at_well_linked difficulty fuel now elapsed transactions self self' out :
  well_linked self ->
  add_block_at difficulty fuel now elapsed transactions self = Py.Done (self', out) ->
  well_linked self'.
Proof.
  intros Hwl. unfold add_block_at.
  destruct (are_transactions_valid self transactions); simpl.
  2:{ by intros [= <- _]. }
  destruct Hwl as (first & rest & Hb & Hd).
  assert (Hne : blocks self <> []) by (by rewrite Hb).
  destruct (nonempty_snoc _ Hne) as (front & last_block & Hfl).
  rewrite Hfl at 1. rewrite getitem_minus_one. simpl.
  destruct (proof_of_work fuel _ difficulty) as [[nonce sealed]| |] eqn:Hpow;
    simpl; try discriminate.
  intros [= <- _].
  apply proof_of_work_sound in Hpow as (-> & _).
  exists first, (rest ++ [set_proof (set_proof (new_block now transactions (hash last_block))
                                      nonce) nonce]).
  simpl. split; [by rewrite Hb|].
  apply pow_first_defect_snoc; [done|]. simpl. f_equal.
  rewrite Hb in Hfl. destruct rest as [|r rest'] using rev_ind.
  - simpl. destruct front as [|? [|? ?]]; simpl in Hfl; congruence.
  - rewrite last_last. change (first :: rest' ++ [r]) with ((first :: rest') ++ [r]) in Hfl.
    apply app_inj_tail in Hfl. by destruct Hfl.
Qed.

Lemma pow_add_blocks_well_linked calls self self' out :
  well_linked self ->
  add_blocks calls self = Py.Done (self', out) ->
  well_linked self'.
Proof.
  revert self out. induction calls as [|c calls IH]; intros self out Hwl; simpl.
  - by intros [= <- _].
  - destruct (add_block_at _ _ _ _ _ self) as [[s1 o1]| |] eqn:H1; simpl; try discriminate.
    destruct (add_blocks calls s1) as [[s2 o2]| |] eqn:H2; simpl; try discriminate.
    intros [= <- _]. eapply IH; [|exact H2].
    eapply add_block_at_well_linked; [exact Hwl|exact H1].
Qed.

Lemma pow_well_linked_valid self : well_linked self -> is_chain_valid self = true.
Proof.
  intros (first & rest & Hb & Hd). unfold is_chain_valid, defect. by rewrite Hb, Hd.
Qed.

Lemma tamper_last_defect self front last_block f :
  blocks self = front ++ [last_block] ->
  defect (tamper (List.length front) f self) = defect self.
Proof.
  intros Hb. unfold defect, tamper. simpl. rewrite Hb.
  replace (alter (fun block => set_transactions block (f (transactions block)))
             (List.length front) (front ++ [last_block]))
    with (front ++ [set_transactions last_block (f (transactions last_block))]).
  2:{ clear Hb. induction front as [|b front IH]; simpl; [done|]. by rewrite IH. }
  destruct front as [|first rest]; simpl; [done|].
  apply first_defect_last_transactions.
Qed.

End WithDigest.

Lemma pow_committed_balances_replay chain :
  committed_balances chain = List.fold_left Ledger.transfer (all_transactions chain) ∅.
Proof.
  unfold committed_balances. generalize (∅ : gmap string Z).
  induction chain as [|b chain IH]; intros balances; [done|].
  unfold all_transactions in *. simpl. by rewrite IH, fold_left_app.
Qed.

Lemma pow_get_committed chain a :
  Ledger.get (committed_balances chain) a
  = received a (all_transactions chain) - sent a (all_transactions chain).
Proof.
  rewrite pow_committed_balances_replay, get_replay.
  unfold Ledger.get. rewrite lookup_empty. simpl. lia.
Qed.

Lemma pow_get_calculate_balances self pending a :
  Ledger.get (calculate_balances self (Some pending)) a =
  Ledger.get (calculate_balances self None) a + received a pending - sent a pending.
Proof.
  unfold calculate_balances. destruct pending as [|t rest].
  - simpl. lia.
  - by rewrite get_replay.
Qed.

End CryptographicProofFacts.


(** * The properties of the specification *)

(** ** Rejected batches leave the chain alone *)

(** C7. When the solvency check rejects a batch, [add_block] of
    [sufficient_balance.py] returns after printing "Invalid transactions"
    and the chain object is the one it was called on: no block is appended,
    the length and every block are unchanged. *)
Theorem add_block_rejected_no_mutation
    (sha256_hexdigest : string -> string) (now : Z)
    (transactions : list Transaction) (self : SufficientBalance.Blockchain) :
  SufficientBalance.are_transactions_valid self transactions = false ->
  exists self',
    SufficientBalance.add_block sha256_hexdigest now transactions self
      = Py.Done (self', ["Invalid transactions"]) /\
    self' = self /\
    List.length (SufficientBalance.blocks self') = List.length (SufficientBalance.blocks self) /\
    SufficientBalance.blocks self' = SufficientBalance.blocks self.
Proof.
  intros Hrej. exists self. split; [|done].
  by apply SufficientBalanceFacts.add_block_rejected.
Qed.

(** The scenario of the specification: Dave, who holds nothing, pays Eve 10
    on the fresh chain. *)
Lemma add_block_rejected_no_mutation_witness :
  SufficientBalance.are_transactions_valid sb_start [mkTransaction "Dave" "Eve" 10] = false /\
  exists self',
    SufficientBalance.add_block Py.sha256_hexdigest 1700000001
      [mkTransaction "Dave" "Eve" 10] sb_start
      = Py.Done (self', ["Invalid transactions"]) /\
    self' = sb_start /\
    List.length (SufficientBalance.blocks self') = List.length (SufficientBalance.blocks sb_start) /\
    SufficientBalance.blocks self' = SufficientBalance.blocks sb_start.
Proof.
  split; [vm_compute; reflexivity|].
  apply (add_block_rejected_no_mutation Py.sha256_hexdigest 1700000001
           [mkTransaction "Dave" "Eve" 10] sb_start).
  vm_compute; reflexivity.
Defined.

(** ** Link integrity *)

(** C5. In [sufficient_balance.py] every script of [add_block] calls on a
    fresh chain runs to its end, and [is_chain_valid] then returns [True].
    In [with_cryptographic_proof.py], whatever difficulty each call passes to
    the proof-of-work search, once the constructor and the calls have
    returned [is_chain_valid] returns [True]. *)
Theorem is_chain_valid_after_add_blocks (sha256_hexdigest : string -> string) :
  (forall (now : Z) (calls : list (Z * list Transaction)),
     exists self out,
       SufficientBalance.add_blocks sha256_hexdigest calls (SufficientBalance.init now)
         = Py.Done (self, out) /\
       SufficientBalance.is_chain_valid sha256_hexdigest self = true) /\
  (forall (fuel : nat) (now : string) (calls : list CryptographicProof.Call)
          (start self : CryptographicProof.Blockchain) (out : list string),
     CryptographicProof.init sha256_hexdigest fuel now = Py.Done start ->
     CryptographicProof.add_blocks sha256_hexdigest calls start = Py.Done (self, out) ->
     CryptographicProof.is_chain_valid sha256_hexdigest self = true).
Proof.
  split.
  - intros now calls.
    destruct (SufficientBalanceFacts.add_blocks_well_linked sha256_hexdigest calls
                (SufficientBalance.init now)
                (SufficientBalanceFacts.well_linked_init sha256_hexdigest now))
      as (self & out & Hrun & Hwl).
    exists self, out. split; [done|].
    by apply SufficientBalanceFacts.well_linked_valid.
  - intros fuel now calls start self out Hinit Hrun.
    apply CryptographicProofFacts.pow_well_linked_valid.
    eapply CryptographicProofFacts.pow_add_blocks_well_linked; [|exact Hrun].
    eapply CryptographicProofFacts.init_well_linked. exact Hinit.
Qed.

Lemma is_chain_valid_after_add_blocks_witness :
  CryptographicProof.init Py.sha256_hexdigest 40 "1700000000.929" = Py.Done pow_start /\
  CryptographicProof.add_blocks Py.sha256_hexdigest pow_calls pow_start
    = Py.Done (pow_chain,
               ["Proof of work solved in 251.8 seconds";
                "Proof of work solved in 97.3 seconds"]) /\
  CryptographicProof.is_chain_valid Py.sha256_hexdigest pow_chain = true.
Proof.
  assert (Hinit : CryptographicProof.init Py.sha256_hexdigest 40 "1700000000.929"
                  = Py.Done pow_start) by (vm_compute; reflexivity).
  assert (Hrun : CryptographicProof.add_blocks Py.sha256_hexdigest pow_calls pow_start
                 = Py.Done (pow_chain,
                            ["Proof of work solved in 251.8 seconds";
                             "Proof of work solved in 97.3 seconds"]))
    by (vm_compute; reflexivity).
  split; [exact Hinit|]. split; [exact Hrun|].
  exact (proj2 (is_chain_valid_after_add_blocks Py.sha256_hexdigest)
           40%nat "1700000000.929" pow_calls pow_start pow_chain _ Hinit Hrun).
Defined.

(** ** The balances *)

Lemma check_senders_spec (balances : gmap string Z) (transactions : list Transaction) :
  Ledger.check_senders balances transactions = true <->
  Forall (fun t => from_address t = "System" \/
                   amount t <= Ledger.get balances (from_address t)) transactions.
Proof.
  induction transactions as [|t rest IH]; simpl.
  - split; [constructor|reflexivity].
  - destruct (String.eqb_spec (from_address t) "System") as [Hs|Hs].
    + rewrite IH. split.
      * intros H. constructor; [by left|done].
      * by inversion 1.
    + destruct (Z.ltb_spec (Ledger.get balances (from_address t)) (amount t)) as [Hlt|Hge].
      * split; [discriminate|]. inversion 1 as [|? ? [?|?] ?]; [congruence|lia].
      * rewrite IH. split.
        -- intros H. constructor; [by right|done].
        -- by inversion 1.
Qed.

Lemma sent_nonnegative (a : string) (transactions : list Transaction) :
  Forall (fun t => 0 <= amount t) transactions -> 0 <= sent a transactions.
Proof.
  induction 1 as [|t rest Ht _ IH]; simpl; [lia|].
  destruct (String.eqb (from_address t) a); lia.
Qed.

Lemma received_none (a : string) (transactions : list Transaction) :
  Forall (fun t => to_address t <> a) transactions -> received a transactions = 0.
Proof.
  induction 1 as [|t rest Ht _ IH]; simpl; [lia|].
  destruct (String.eqb_spec (to_address t) a); [congruence|lia].
Qed.

(** C8. The run of [sufficient_balance.py]: the fresh chain, the block that
    mints 100 to Alice, Bob and Charlie from 'System', block 1 and block 2,
    whatever the clock reads. All three calls append, the balances are
    50, 125, 125 after block 1 and 55, 130, 115 after block 2, and
    [is_chain_valid] returns [True]. *)
Theorem demo_balances_and_validity
    (sha256_hexdigest : string -> string) (t0 t1 t2 t3 : Z) :
  exists funded after1 after2,
    SufficientBalance.add_block sha256_hexdigest t1 demo_mint (SufficientBalance.init t0)
      = Py.Done (funded, []) /\
    SufficientBalance.add_block sha256_hexdigest t2 demo_block1 funded
      = Py.Done (after1, []) /\
    SufficientBalance.calculate_balances after1 None !! "Alice" = Some 50 /\
    SufficientBalance.calculate_balances after1 None !! "Bob" = Some 125 /\
    SufficientBalance.calculate_balances after1 None !! "Charlie" = Some 125 /\
    SufficientBalance.add_block sha256_hexdigest t3 demo_block2 after1
      = Py.Done (after2, []) /\
    SufficientBalance.calculate_balances after2 None !! "Alice" = Some 55 /\
    SufficientBalance.calculate_balances after2 None !! "Bob" = Some 130 /\
    SufficientBalance.calculate_balances after2 None !! "Charlie" = Some 115 /\
    SufficientBalance.is_chain_valid sha256_hexdigest after2 = true.
Proof.
  eexists _, _, _.
  split; [vm_compute; reflexivity|].
  split; [vm_compute; reflexivity|].
  split; [vm_compute; reflexivity|].
  split; [vm_compute; reflexivity|].
  split; [vm_compute; reflexivity|].
  split; [vm_compute; reflexivity|].
  split; [vm_compute; reflexivity|].
  split; [vm_compute; reflexivity|].
  split; [vm_compute; reflexivity|].
  apply SufficientBalanceFacts.well_linked_valid.
  eexists _, _. split; [reflexivity|].
  cbn [SufficientBalance.first_defect SufficientBalance.hash SufficientBalance.index
       SufficientBalance.previous_hash SufficientBalance.timestamp
       SufficientBalance.transactions].
  rewrite !String.eqb_refl. reflexivity.
Qed.

(** The same scenario in [with_cryptographic_proof.py], where the
    constructor's block does the minting: the balances after block 2 and the
    verdict of [is_chain_valid] on the script's chain. *)
Example pow_demo_balances_and_validity :
  CryptographicProof.calculate_balances pow_chain None !! "Alice" = Some 55 /\
  CryptographicProof.calculate_balances pow_chain None !! "Bob" = Some 130 /\
  CryptographicProof.calculate_balances pow_chain None !! "Charlie" = Some 115 /\
  CryptographicProof.is_chain_valid Py.sha256_hexdigest pow_chain = true.
Proof. repeat split; vm_compute; reflexivity. Qed.

(** C10, as the code has it. For every chain [add_block] of
    [sufficient_balance.py] builds, the balances computed over the committed
    blocks, with no pending batch, sum to zero, because every committed
    transaction debits its sender by what it credits its receiver; so the
    balance of 'System' is what was paid to it minus the total of the
    amounts it sent, the amount ever minted, and it is minus that total when
    no committed transaction pays to 'System'. *)
Theorem committed_balances_sum_to_zero
    (sha256_hexdigest : string -> string) (now : Z)
    (calls : list (Z * list Transaction))
    (self : SufficientBalance.Blockchain) (out : list string) :
  SufficientBalance.add_blocks sha256_hexdigest calls (SufficientBalance.init now)
    = Py.Done (self, out) ->
  Ledger.total (SufficientBalance.calculate_balances self None) = 0 /\
  Ledger.get (SufficientBalance.calculate_balances self None) "System"
  = received "System" (SufficientBalance.all_transactions (SufficientBalance.blocks self))
    - sent "System" (SufficientBalance.all_transactions (SufficientBalance.blocks self)) /\
  (Forall (fun t => to_address t <> "System")
     (SufficientBalance.all_transactions (SufficientBalance.blocks self)) ->
   Ledger.get (SufficientBalance.calculate_balances self None) "System"
   = - sent "System" (SufficientBalance.all_transactions (SufficientBalance.blocks self))).
Proof.
  intros _. unfold SufficientBalance.calculate_balances. split; [|split].
  - rewrite SufficientBalanceFacts.committed_balances_replay, total_replay.
    apply total_empty.
  - apply SufficientBalanceFacts.get_committed.
  - intros Hto. rewrite SufficientBalanceFacts.get_committed.
    rewrite (received_none _ _ Hto). lia.
Qed.

(** The script's run, then Alice paying 10 to 'System': the balances sum to
    zero and 'System' holds 10 - 300. *)
Lemma committed_balances_sum_to_zero_witness :
  exists self,
    SufficientBalance.add_blocks Py.sha256_hexdigest
      [(1700000001, demo_mint); (1700000002, [mkTransaction "Alice" "System" 10])]
      (SufficientBalance.init 1700000000)
    = Py.Done (self, []) /\
    Ledger.total (SufficientBalance.calculate_balances self None) = 0 /\
    Ledger.get (SufficientBalance.calculate_balances self None) "System" = 10 - 300.
Proof.
  eexists.
  match goal with
  | |- ?run /\ _ => assert (Hself : run) by (vm_compute; reflexivity)
  end.
  split; [exact Hself|].
  destruct (committed_balances_sum_to_zero Py.sha256_hexdigest 1700000000 _ _ _ Hself)
    as (Hsum & Hsystem & _).
  split; [exact Hsum|].
  etransitivity; [exact Hsystem|vm_compute; reflexivity].
Defined.

(** C10 fails as stated in its last clause: on the chain [add_block] builds
    from the minting block and then Alice paying 10 to 'System' (accepted,
    Alice holds 100), 300 were minted and the balance of 'System' is -290. *)
Lemma sentinel_balance_not_minus_minted :
  exists self,
    SufficientBalance.add_blocks Py.sha256_hexdigest
      [(1700000001, demo_mint); (1700000002, [mkTransaction "Alice" "System" 10])]
      (SufficientBalance.init 1700000000)
    = Py.Done (self, []) /\
    Ledger.total (SufficientBalance.calculate_balances self None) = 0 /\
    sent "System" (SufficientBalance.all_transactions (SufficientBalance.blocks self)) = 300 /\
    Ledger.get (SufficientBalance.calculate_balances self None) "System" = -290 /\
    Ledger.get (SufficientBalance.calculate_balances self None) "System"
    <> - sent "System" (SufficientBalance.all_transactions (SufficientBalance.blocks self)).
Proof.
  eexists.
  split; [vm_compute; reflexivity|].
  split; [vm_compute; reflexivity|].
  split; [vm_compute; reflexivity|].
  split; [vm_compute; reflexivity|].
  vm_compute. discriminate.
Qed.

(** C3, as the code has it. After a batch the solvency check accepts, a
    sender other than 'System' holds what it held before, plus what it
    receives in the batch, minus what it sends in it. So its balance is at
    most what it was before exactly when it receives in the batch no more
    than it sends; and with amounts that are not negative it is never more
    than its balance before plus what it receives in the batch. *)
Theorem accepted_batch_sender_not_increased_iff
    (self : SufficientBalance.Blockchain) (batch : list Transaction) (a : string) :
  SufficientBalance.are_transactions_valid self batch = true ->
  a <> "System" ->
  In a (List.map from_address batch) ->
  Ledger.get (SufficientBalance.calculate_balances self (Some batch)) a
  = Ledger.get (SufficientBalance.calculate_balances self None) a
    + received a batch - sent a batch /\
  (Ledger.get (SufficientBalance.calculate_balances self (Some batch)) a
   <= Ledger.get (SufficientBalance.calculate_balances self None) a
   <-> received a batch <= sent a batch) /\
  (Forall (fun t => 0 <= amount t) batch ->
   Ledger.get (SufficientBalance.calculate_balances self (Some batch)) a
   <= Ledger.get (SufficientBalance.calculate_balances self None) a + received a batch).
Proof.
  intros _ Hns _.
  assert (Hafter :
    Ledger.get (SufficientBalance.calculate_balances self (Some batch)) a
    = Ledger.get (SufficientBalance.calculate_balances self None) a
      + received a batch - sent a batch).
  { rewrite SufficientBalanceFacts.get_calculate_balances. unfold pending_sent.
    destruct (String.eqb_spec a "System") as [?|_]; [congruence|done]. }
  split; [exact Hafter|]. rewrite Hafter. split.
  - lia.
  - intros Hpos. pose proof (sent_nonnegative a batch Hpos). lia.
Qed.

(** Alice sends 50 and is paid back 10 in the same batch: accepted, and she
    goes from 100 to 60. *)
Lemma accepted_batch_sender_not_increased_iff_witness :
  SufficientBalance.are_transactions_valid sb_funded
    [mkTransaction "Alice" "Bob" 50; mkTransaction "Bob" "Alice" 10] = true /\
  "Alice" <> "System" /\
  In "Alice" (List.map from_address
                [mkTransaction "Alice" "Bob" 50; mkTransaction "Bob" "Alice" 10]) /\
  received "Alice" [mkTransaction "Alice" "Bob" 50; mkTransaction "Bob" "Alice" 10]
  <= sent "Alice" [mkTransaction "Alice" "Bob" 50; mkTransaction "Bob" "Alice" 10] /\
  Ledger.get (SufficientBalance.calculate_balances sb_funded None) "Alice" = 100 /\
  Ledger.get (SufficientBalance.calculate_balances sb_funded
                (Some [mkTransaction "Alice" "Bob" 50; mkTransaction "Bob" "Alice" 10]))
    "Alice" = 60 /\
  Ledger.get (SufficientBalance.calculate_balances sb_funded
                (Some [mkTransaction "Alice" "Bob" 50; mkTransaction "Bob" "Alice" 10]))
    "Alice"
  <= Ledger.get (SufficientBalance.calculate_balances sb_funded None) "Alice".
Proof.
  assert (H1 : SufficientBalance.are_transactions_valid sb_funded
                 [mkTransaction "Alice" "Bob" 50; mkTransaction "Bob" "Alice" 10] = true)
    by (vm_compute; reflexivity).
  assert (H2 : "Alice" <> "System") by discriminate.
  assert (H3 : In "Alice" (List.map from_address
                 [mkTransaction "Alice" "Bob" 50; mkTransaction "Bob" "Alice" 10]))
    by (simpl; auto).
  assert (H4 : received "Alice"
                 [mkTransaction "Alice" "Bob" 50; mkTransaction "Bob" "Alice" 10]
               <= sent "Alice"
                    [mkTransaction "Alice" "Bob" 50; mkTransaction "Bob" "Alice" 10])
    by (vm_compute; discriminate).
  split; [exact H1|]. split; [exact H2|]. split; [exact H3|]. split; [exact H4|].
  split; [vm_compute; reflexivity|]. split; [vm_compute; reflexivity|].
  exact (proj2 (proj1 (proj2 (accepted_batch_sender_not_increased_iff sb_funded
           [mkTransaction "Alice" "Bob" 50; mkTransaction "Bob" "Alice" 10] "Alice"
           H1 H2 H3))) H4).
Defined.

(** C3 fails as stated: in block 1 of the script, accepted on the funded
    chain, Bob is a sender other than 'System' and goes from 100 to 125. *)
Lemma accepted_batch_sender_increased :
  SufficientBalance.add_block Py.sha256_hexdigest 1700000001 demo_mint sb_start
    = Py.Done (sb_funded, []) /\
  SufficientBalance.are_transactions_valid sb_funded demo_block1 = true /\
  "Bob" <> "System" /\
  In "Bob" (List.map from_address demo_block1) /\
  Ledger.get (SufficientBalance.calculate_balances sb_funded None) "Bob" = 100 /\
  Ledger.get (SufficientBalance.calculate_balances sb_funded (Some demo_block1)) "Bob" = 125 /\
  ~ (Ledger.get (SufficientBalance.calculate_balances sb_funded (Some demo_block1)) "Bob"
     <= Ledger.get (SufficientBalance.calculate_balances sb_funded None) "Bob").
Proof.
  split; [vm_compute; reflexivity|].
  split; [vm_compute; reflexivity|].
  split; [discriminate|].
  split; [simpl; auto|].
  split; [vm_compute; reflexivity|].
  split; [vm_compute; reflexivity|].
  vm_compute. intros H. apply H. reflexivity.
Qed.

(** C4, as the code has it. Over the committed blocks every transaction
    debits its sender, 'System' like any other, so the balance of 'System' is
    what it received minus what it sent. Only the pending batch of
    [sufficient_balance.py] credits without debiting when the sender is
    'System'; the pending batch of [with_cryptographic_proof.py] debits there
    too. *)
Theorem sentinel_debited_in_committed_blocks
    (self : SufficientBalance.Blockchain) (chain : CryptographicProof.Blockchain)
    (pending : list Transaction) :
  Ledger.get (SufficientBalance.calculate_balances self None) "System"
  = received "System" (SufficientBalance.all_transactions (SufficientBalance.blocks self))
    - sent "System" (SufficientBalance.all_transactions (SufficientBalance.blocks self)) /\
  Ledger.get (SufficientBalance.calculate_balances self (Some pending)) "System"
  = Ledger.get (SufficientBalance.calculate_balances self None) "System"
    + received "System" pending /\
  Ledger.get (CryptographicProof.calculate_balances chain None) "System"
  = received "System" (CryptographicProof.all_transactions (CryptographicProof.blocks chain))
    - sent "System" (CryptographicProof.all_transactions (CryptographicProof.blocks chain)) /\
  Ledger.get (CryptographicProof.calculate_balances chain (Some pending)) "System"
  = Ledger.get (CryptographicProof.calculate_balances chain None) "System"
    + received "System" pending - sent "System" pending.
Proof.
  split; [apply SufficientBalanceFacts.get_committed|].
  split.
  { rewrite SufficientBalanceFacts.get_calculate_balances. unfold pending_sent. simpl. lia. }
  split; [apply CryptographicProofFacts.pow_get_committed|].
  apply CryptographicProofFacts.pow_get_calculate_balances.
Qed.

(** C4 fails as stated: once the minting block of the script is committed,
    the balance of 'System' over the committed blocks is -300, in both
    scripts. *)
Lemma sentinel_negative_after_minting :
  SufficientBalance.add_block Py.sha256_hexdigest 1700000001 demo_mint sb_start
    = Py.Done (sb_funded, []) /\
  SufficientBalance.calculate_balances sb_funded None !! "System" = Some (-300) /\
  CryptographicProof.init Py.sha256_hexdigest 40 "1700000000.929" = Py.Done pow_start /\
  CryptographicProof.calculate_balances pow_start None !! "System" = Some (-300).
Proof.
  split; [vm_compute; reflexivity|].
  split; [vm_compute; reflexivity|].
  split; [vm_compute; reflexivity|].
  vm_compute; reflexivity.
Qed.

(** ** The solvency check *)

Lemma sent_permutation (a : string) (batch batch' : list Transaction) :
  Permutation batch batch' -> sent a batch = sent a batch'.
Proof.
  induction 1 as [|t l l' _ IH|t t' l|l l' l'' _ IH1 _ IH2]; simpl; lia.
Qed.

Lemma received_permutation (a : string) (batch batch' : list Transaction) :
  Permutation batch batch' -> received a batch = received a batch'.
Proof.
  induction 1 as [|t l l' _ IH|t t' l|l l' l'' _ IH1 _ IH2]; simpl; lia.
Qed.


(** Hence the order of the batch plays no part in the decision. *)
Lemma solvency_order_independent
    (self : SufficientBalance.Blockchain) (batch batch' : list Transaction) :
  Permutation batch batch' ->
  SufficientBalance.are_transactions_valid self batch
  = SufficientBalance.are_transactions_valid self batch'.
Proof.
  intros Hperm.
  assert (Hiff : forall l l', Permutation l l' ->
            SufficientBalance.are_transactions_valid self l = true ->
            SufficientBalance.are_transactions_valid self l' = true).
  { intros l l' Hp. unfold SufficientBalance.are_transactions_valid.
    rewrite !check_senders_spec. intros Hall.
    rewrite <- Hp. eapply Forall_impl; [exact Hall|]. intros t [Hs|Hle]; [by left|right].
    rewrite !SufficientBalanceFacts.get_calculate_balances in *. unfold pending_sent in *.
    rewrite <- (received_permutation _ _ _ Hp), <- (sent_permutation _ _ _ Hp). exact Hle. }
  destruct (SufficientBalance.are_transactions_valid self batch) eqn:Hb.
  - symmetry. by apply (Hiff batch batch').
  - destruct (SufficientBalance.are_transactions_valid self batch') eqn:Hb'; [|done].
    rewrite (Hiff batch' batch) in Hb; [done|by symmetry|done].
Qed.


(** ** The proof-of-work search *)

(** C6. [proof_of_work] counts from 0 in steps of 1. When it returns, the
    nonce is the smallest one at which the first [difficulty] characters of
    the digest are all '0', it is installed on the block, and the test holds;
    it does return, with that nonce, on every budget beyond a nonce that
    passes the test. At difficulty 0 the test holds whatever the nonce. *)
Theorem proof_of_work_least_nonce
    (sha256_hexdigest : string -> string) (block : CryptographicProof.Block)
    (difficulty : Z) :
  (forall (fuel : nat) (nonce : Z) (block' : CryptographicProof.Block),
     CryptographicProof.proof_of_work sha256_hexdigest fuel block difficulty
       = Py.Done (nonce, block') ->
     block' = CryptographicProof.set_proof block nonce /\
     CryptographicProof.proof block' = nonce /\
     CryptographicProof.is_valid sha256_hexdigest block' difficulty = true /\
     0 <= nonce /\
     (forall m, 0 <= m < nonce ->
        CryptographicProof.is_valid sha256_hexdigest
          (CryptographicProof.set_proof block m) difficulty = false) /\
     (0 <= difficulty ->
      forall i : nat, Z.of_nat i < difficulty ->
        String.get i (CryptographicProof.hash sha256_hexdigest block') = Some "0"%char)) /\
  (forall n : Z,
     0 <= n ->
     CryptographicProof.is_valid sha256_hexdigest
       (CryptographicProof.set_proof block n) difficulty = true ->
     exists nonce,
       0 <= nonce <= n /\
       forall fuel : nat, n < Z.of_nat fuel ->
         CryptographicProof.proof_of_work sha256_hexdigest fuel block difficulty
           = Py.Done (nonce, CryptographicProof.set_proof block nonce)) /\
  (forall n : Z,
     CryptographicProof.is_valid sha256_hexdigest
       (CryptographicProof.set_proof block n) 0 = true).
Proof.
  split; [|split].
  - intros fuel nonce block' Hrun.
    apply CryptographicProofFacts.proof_of_work_sound in Hrun
      as (Hblock & Hvalid & Hrange & Hleast).
    split; [done|]. split; [by rewrite Hblock|]. split; [done|].
    split; [lia|]. split; [done|].
    intros Hd. by apply CryptographicProofFacts.is_valid_leading_zeros.
  - intros n Hn Hvalid.
    destruct (CryptographicProofFacts.proof_of_work_complete sha256_hexdigest
                (S (Z.to_nat n)) block difficulty n) as (nonce & Hrun & Hle);
      [lia|done|].
    pose proof (CryptographicProofFacts.proof_of_work_sound _ _ _ _ _ _ Hrun)
      as (_ & Hv0 & Hr0 & Hl0).
    exists nonce. split; [lia|]. intros fuel Hfuel.
    destruct (CryptographicProofFacts.proof_of_work_complete sha256_hexdigest
                fuel block difficulty n) as (nonce' & Hrun' & Hle'); [lia|done|].
    pose proof (CryptographicProofFacts.proof_of_work_sound _ _ _ _ _ _ Hrun')
      as (_ & Hv1 & Hr1 & Hl1).
    destruct (Z.lt_trichotomy nonce nonce') as [Hlt|[Heq|Hgt]].
    + rewrite (Hl1 nonce) in Hv0 by lia. discriminate.
    + by rewrite Heq.
    + rewrite (Hl0 nonce') in Hv1 by lia. discriminate.
  - intros n. apply CryptographicProofFacts.is_valid_zero.
Qed.

(** The constructor's search at difficulty 4: it returns 17. *)
Lemma proof_of_work_least_nonce_witness :
  CryptographicProof.proof_of_work Py.sha256_hexdigest 40 pow_candidate 4
    = Py.Done (17, CryptographicProof.set_proof pow_candidate 17) /\
  CryptographicProof.is_valid Py.sha256_hexdigest
    (CryptographicProof.set_proof pow_candidate 17) 4 = true /\
  (forall m, 0 <= m < 17 ->
     CryptographicProof.is_valid Py.sha256_hexdigest
       (CryptographicProof.set_proof pow_candidate m) 4 = false) /\
  (forall i : nat, Z.of_nat i < 4 ->
     String.get i (CryptographicProof.hash Py.sha256_hexdigest
                     (CryptographicProof.set_proof pow_candidate 17)) = Some "0"%char).
Proof.
  assert (Hrun : CryptographicProof.proof_of_work Py.sha256_hexdigest 40 pow_candidate 4
                 = Py.Done (17, CryptographicProof.set_proof pow_candidate 17))
    by (vm_compute; reflexivity).
  destruct (proj1 (proof_of_work_least_nonce Py.sha256_hexdigest pow_candidate 4)
              40%nat 17 _ Hrun) as (_ & _ & Hvalid & _ & Hleast & Hzeros).
  split; [exact Hrun|]. split; [exact Hvalid|]. split; [exact Hleast|].
  apply Hzeros. lia.
Defined.

(** ** The digest *)

(** The two test vectors of the standard that fit a line. *)
Example sha256_of_abc :
  Py.sha256_hexdigest "abc"
  = "ba7816bf8f01cfea414140de5dae2223b00361a396177a9cb410ff61f20015ad".
Proof. vm_compute. reflexivity. Qed.

Example sha256_of_empty :
  Py.sha256_hexdigest EmptyString
  = "e3b0c44298fc1c149afbf4c8996fb92427ae41e4649b934ca495991b7852b855".
Proof. vm_compute. reflexivity. Qed.

Lemma hex_digit_is_hex (x : Z) : is_hex_char (SHA256.hex_digit (Z.land x 15)) = true.
Proof.
  change 15 with (Z.ones 4). rewrite Z.land_ones by lia.
  pose proof (Z.mod_pos_bound x (2 ^ 4) ltac:(lia)) as Hb.
  set (v := x mod 2 ^ 4) in *.
  assert (Hv : v = 0 \/ v = 1 \/ v = 2 \/ v = 3 \/ v = 4 \/ v = 5 \/ v = 6 \/ v = 7 \/
               v = 8 \/ v = 9 \/ v = 10 \/ v = 11 \/ v = 12 \/ v = 13 \/ v = 14 \/ v = 15)
    by lia.
  repeat (destruct Hv as [->|Hv]; [reflexivity|]). subst v. rewrite Hv. reflexivity.
Qed.

Lemma hex_of_length (digits : nat) (x : Z) (tail : string) :
  String.length (SHA256.hex_of digits x tail) = (digits + String.length tail)%nat.
Proof.
  revert x tail. induction digits as [|digits IH]; intros x tail; simpl; [done|].
  rewrite IH. simpl. lia.
Qed.

Lemma hex_of_is_hex (digits : nat) (x : Z) (tail : string) :
  is_hex_string tail = true -> is_hex_string (SHA256.hex_of digits x tail) = true.
Proof.
  revert x tail. induction digits as [|digits IH]; intros x tail Htail; simpl; [done|].
  apply IH. simpl. by rewrite hex_digit_is_hex, Htail.
Qed.

Lemma hexdigest_format (bytes : list Z) :
  String.length (SHA256.hexdigest bytes) = 64%nat /\
  is_hex_string (SHA256.hexdigest bytes) = true.
Proof.
  unfold SHA256.hexdigest. generalize (SHA256.digest_state bytes). intros st.
  unfold SHA256.hex_of_state. split.
  - rewrite !hex_of_length. reflexivity.
  - repeat apply hex_of_is_hex. reflexivity.
Qed.

Lemma take_length (n : nat) (s : string) :
  (String.length (Py.take n s) <= String.length s)%nat.
Proof.
  revert s. induction n as [|n IH]; intros [|c s]; simpl; try lia.
  specialize (IH s). lia.
Qed.

Lemma repeat_zero_length (n : nat) : String.length (Py.repeat_str "0" n) = n.
Proof.
  induction n as [|n IH]; [done|].
  change (Py.repeat_str "0" (S n)) with (String "0"%char (Py.repeat_str "0" n)).
  simpl. by rewrite IH.
Qed.

(** The search is not total: a SHA-256 digest has 64 characters, so beyond
    difficulty 64 the test fails whatever the nonce and no budget is
    enough. *)
Lemma search_beyond_digest_length (fuel : nat) (block : CryptographicProof.Block)
    (difficulty : Z) :
  64 < difficulty ->
  CryptographicProof.search Py.sha256_hexdigest fuel block difficulty = Py.OutOfFuel.
Proof.
  intros Hd. revert block. induction fuel as [|fuel IH]; intros block; [reflexivity|].
  cbn [CryptographicProof.search].
  assert (Hinvalid : CryptographicProof.is_valid Py.sha256_hexdigest block difficulty = false).
  { unfold CryptographicProof.is_valid, CryptographicProof.hash, Py.sha256_hexdigest.
    destruct (hexdigest_format (Py.encode_utf8 (CryptographicProof.dumps_block block)))
      as [Hlen _].
    revert Hlen. generalize (SHA256.hexdigest
                               (Py.encode_utf8 (CryptographicProof.dumps_block block))).
    intros digest Hlen. apply String.eqb_neq. intros Heq.
    apply (f_equal String.length) in Heq. revert Heq.
    unfold Py.slice_to, Py.str_mul.
    destruct (Z.leb_spec 0 difficulty) as [_|?]; [|lia].
    rewrite repeat_zero_length.
    pose proof (take_length (Z.to_nat difficulty) digest). lia. }
  rewrite Hinvalid. apply IH.
Qed.

(** C9. The digest of a block is a function of its four fields: two blocks
    of [with_cryptographic_proof.py] with the same predecessor digest,
    timestamp, proof and transactions have the same digest, and the call
    leaves the block as it was; [calculate_hash] of [sufficient_balance.py]
    is likewise a function of its four arguments. With SHA-256 for the
    digest function the result is a text of 64 lower-case hexadecimal
    digits. *)
Theorem digest_deterministic (sha256_hexdigest : string -> string) :
  (forall b1 b2 : CryptographicProof.Block,
     CryptographicProof.previous_hash b1 = CryptographicProof.previous_hash b2 ->
     CryptographicProof.timestamp b1 = CryptographicProof.timestamp b2 ->
     CryptographicProof.proof b1 = CryptographicProof.proof b2 ->
     CryptographicProof.transactions b1 = CryptographicProof.transactions b2 ->
     fst (CryptographicProof.call_hash sha256_hexdigest b1)
     = fst (CryptographicProof.call_hash sha256_hexdigest b2) /\
     snd (CryptographicProof.call_hash sha256_hexdigest b1) = b1) /\
  (forall (index index' : Z) (previous_hash previous_hash' : string)
          (timestamp timestamp' : Z) (transactions transactions' : list Transaction),
     index = index' -> previous_hash = previous_hash' -> timestamp = timestamp' ->
     transactions = transactions' ->
     SufficientBalance.calculate_hash sha256_hexdigest index previous_hash timestamp
       transactions
     = SufficientBalance.calculate_hash sha256_hexdigest index' previous_hash' timestamp'
         transactions') /\
  (forall b : CryptographicProof.Block,
     String.length (CryptographicProof.hash Py.sha256_hexdigest b) = 64%nat /\
     is_hex_string (CryptographicProof.hash Py.sha256_hexdigest b) = true).
Proof.
  split; [|split].
  - intros [ts1 txs1 ph1 pr1] [ts2 txs2 ph2 pr2]; simpl.
    intros -> -> -> ->. done.
  - by intros * -> -> -> ->.
  - intros b. apply hexdigest_format.
Qed.

Lemma digest_deterministic_witness :
  CryptographicProof.hash Py.sha256_hexdigest
    (CryptographicProof.set_proof (CryptographicProof.set_proof pow_candidate 3) 17)
  = CryptographicProof.hash Py.sha256_hexdigest
      (CryptographicProof.mkBlock "1700000000.929" CryptographicProof.genesis_transactions
         "0" 17).
Proof.
  exact (proj1 (proj1 (digest_deterministic Py.sha256_hexdigest)
     (CryptographicProof.set_proof (CryptographicProof.set_proof pow_candidate 3) 17)
     (CryptographicProof.mkBlock "1700000000.929" CryptographicProof.genesis_transactions
        "0" 17)
     eq_refl eq_refl eq_refl eq_refl)).
Defined.

(** ** Tampering *)

(** C1, at the input where the code breaks it. In
    [with_cryptographic_proof.py] the loop of [is_chain_valid] compares the
    digest of each block with itself and the recorded link with the digest of
    the predecessor, so nothing it reads depends on the transactions of the
    last block: on every chain the constructor and [add_block] build, whatever
    is done to the transactions of the last block, [is_chain_valid] still
    returns [True]. *)
Theorem tampered_last_block_passes
    (sha256_hexdigest : string -> string) (fuel : nat) (now : string)
    (calls : list CryptographicProof.Call)
    (start self : CryptographicProof.Blockchain) (out : list string)
    (front : list CryptographicProof.Block) (last_block : CryptographicProof.Block)
    (f : list Transaction -> list Transaction) :
  CryptographicProof.init sha256_hexdigest fuel now = Py.Done start ->
  CryptographicProof.add_blocks sha256_hexdigest calls start = Py.Done (self, out) ->
  CryptographicProof.blocks self = front ++ [last_block] ->
  CryptographicProof.is_chain_valid sha256_hexdigest
    (CryptographicProof.tamper (List.length front) f self) = true.
Proof.
  intros Hinit Hrun Hblocks. unfold CryptographicProof.is_chain_valid.
  rewrite (CryptographicProofFacts.tamper_last_defect sha256_hexdigest self front
             last_block f Hblocks).
  apply CryptographicProofFacts.pow_well_linked_valid.
  eapply CryptographicProofFacts.pow_add_blocks_well_linked; [|exact Hrun].
  eapply CryptographicProofFacts.init_well_linked. exact Hinit.
Qed.

(** The script itself: after [blockchain.blocks[2].transactions[0].amount =
    1000] on the chain of three blocks, [is_chain_valid] returns [True]. *)
Lemma tampered_last_block_passes_witness :
  CryptographicProof.init Py.sha256_hexdigest 40 "1700000000.929" = Py.Done pow_start /\
  CryptographicProof.add_blocks Py.sha256_hexdigest pow_calls pow_start
    = Py.Done (pow_chain,
               ["Proof of work solved in 251.8 seconds";
                "Proof of work solved in 97.3 seconds"]) /\
  CryptographicProof.blocks pow_chain = pow_front ++ [pow_last] /\
  CryptographicProof.transactions pow_last = demo_block2 /\
  List.map CryptographicProof.transactions
    (CryptographicProof.blocks (CryptographicProof.tamper 2 (set_amount 0 1000) pow_chain))
  = [CryptographicProof.genesis_transactions; demo_block1;
     [mkTransaction "Charlie" "Alice" 1000; mkTransaction "Alice" "Bob" 5]] /\
  CryptographicProof.is_chain_valid Py.sha256_hexdigest
    (CryptographicProof.tamper 2 (set_amount 0 1000) pow_chain) = true.
Proof.
  assert (Hinit : CryptographicProof.init Py.sha256_hexdigest 40 "1700000000.929"
                  = Py.Done pow_start) by (vm_compute; reflexivity).
  assert (Hrun : CryptographicProof.add_blocks Py.sha256_hexdigest pow_calls pow_start
                 = Py.Done (pow_chain,
                            ["Proof of work solved in 251.8 seconds";
                             "Proof of work solved in 97.3 seconds"]))
    by (vm_compute; reflexivity).
  assert (Hsplit : CryptographicProof.blocks pow_chain = pow_front ++ [pow_last])
    by reflexivity.
  split; [exact Hinit|]. split; [exact Hrun|]. split; [exact Hsplit|].
  split; [reflexivity|]. split; [reflexivity|].
  exact (tampered_last_block_passes Py.sha256_hexdigest 40 "1700000000.929" pow_calls
           pow_start pow_chain _ pow_front pow_last (set_amount 0 1000)
           Hinit Hrun Hsplit).
Defined.

(** The same statement of the script run on [sufficient_balance.py] is
    caught, at position 2. *)
Example stored_digest_detects_tampering :
  SufficientBalance.defect Py.sha256_hexdigest
    (SufficientBalance.tamper 2 (set_amount 0 1000) sb_after_block2) = Some 2%nat.
Proof. vm_compute. reflexivity. Qed.

(** In [with_cryptographic_proof.py] a tampered inner block is noticed only
    when the loop reaches its successor: block 1 of the script's chain,
    tampered, is reported at position 2. *)
Example tampered_inner_block_reported_late :
  CryptographicProof.defect Py.sha256_hexdigest
    (CryptographicProof.tamper 1 (set_amount 0 1000) pow_chain) = Some 2%nat.
Proof. vm_compute. reflexivity. Qed.

(** * Further properties of the scripts *)

(** ** [sufficient_balance.py]: what [add_block] does to the chain *)

Lemma getitem_last_inv {A : Type} (l : list A) (x : A) :
  Py.getitem l (Z.of_nat (List.length l) - 1) = Py.Done x ->
  exists front, l = front ++ [x].
Proof.
  destruct l as [|y l'] using rev_ind.
  - discriminate.
  - rewrite getitem_last_index. intros [= ->]. by exists l'.
Qed.

Lemma getitem_minus_one_inv {A : Type} (l : list A) (x : A) :
  Py.getitem l (-1) = Py.Done x -> exists front, l = front ++ [x].
Proof.
  destruct l as [|y l'] using rev_ind.
  - discriminate.
  - rewrite getitem_minus_one. intros [= ->]. by exists l'.
Qed.

Lemma sb_add_block_cases (sha256_hexdigest : string -> string) (now : Z)
    (transactions : list Transaction) (self self' : SufficientBalance.Blockchain)
    (out : list string) :
  SufficientBalance.add_block sha256_hexdigest now transactions self = Py.Done (self', out) ->
  (SufficientBalance.are_transactions_valid self transactions = false /\
   self' = self /\ out = ["Invalid transactions"]) \/
  (SufficientBalance.are_transactions_valid self transactions = true /\
   out = [] /\
   exists front last_block,
     SufficientBalance.blocks self = front ++ [last_block] /\
     self' = SufficientBalance.mkBlockchain (SufficientBalance.genesis_block self)
               (SufficientBalance.blocks self ++
                [SufficientBalance.mkBlock
                   (Z.of_nat (List.length (SufficientBalance.blocks self)))
                   (SufficientBalance.hash last_block) now transactions
                   (SufficientBalance.calculate_hash sha256_hexdigest
                      (Z.of_nat (List.length (SufficientBalance.blocks self)))
                      (SufficientBalance.hash last_block) now transactions)])).
Proof.
  unfold SufficientBalance.add_block.
  destruct (SufficientBalance.are_transactions_valid self transactions); simpl.
  2:{ intros [= <- <-]. by left. }
  destruct (Py.getitem _ _) as [previous| |] eqn:Hget; simpl; try discriminate.
  intros [= <- <-]. right. split; [done|]. split; [done|].
  apply getitem_last_inv in Hget as [front Hfront].
  by exists front, previous.
Qed.

Lemma sb_add_blocks_extends (sha256_hexdigest : string -> string)
    (calls : list (Z * list Transaction))
    (self self' : SufficientBalance.Blockchain) (out : list string) :
  SufficientBalance.add_blocks sha256_hexdigest calls self = Py.Done (self', out) ->
  SufficientBalance.genesis_block self' = SufficientBalance.genesis_block self /\
  exists appended,
    SufficientBalance.blocks self' = SufficientBalance.blocks self ++ appended /\
    (List.length appended <= List.length calls)%nat.
Proof.
  revert self out. induction calls as [|[now transactions] calls IH]; intros self out; simpl.
  - intros [= <- _]. split; [done|]. exists []. by rewrite app_nil_r.
  - destruct (SufficientBalance.add_block _ _ _ self) as [[s1 o1]| |] eqn:H1;
      simpl; try discriminate.
    destruct (SufficientBalance.add_blocks _ calls s1) as [[s2 o2]| |] eqn:H2;
      simpl; try discriminate.
    intros [= <- _]. destruct (IH _ _ H2) as (Hg & more & Hmore & Hlen).
    apply sb_add_block_cases in H1
      as [(_ & -> & _)|(_ & _ & front & last_block & _ & ->)].
    + split; [done|]. exists more. split; [done|lia].
    + simpl in *. split; [done|].
      eexists (_ :: more). rewrite Hmore, <- app_assoc. split; [reflexivity|simpl; lia].
Qed.

(** X1. A script of [add_block] calls never removes, reorders or rewrites a
    block: the blocks it started from are the first blocks of the chain it
    ends with, in the same order, the [genesis_block] attribute is the same,
    and at most one block per call was added. *)
Theorem sb_add_blocks_append_only (sha256_hexdigest : string -> string)
    (calls : list (Z * list Transaction))
    (self self' : SufficientBalance.Blockchain) (out : list string) :
  SufficientBalance.add_blocks sha256_hexdigest calls self = Py.Done (self', out) ->
  SufficientBalance.genesis_block self' = SufficientBalance.genesis_block self /\
  exists appended,
    SufficientBalance.blocks self' = SufficientBalance.blocks self ++ appended /\
    (List.length appended <= List.length calls)%nat.
Proof. apply sb_add_blocks_extends. Qed.

Lemma sb_add_blocks_append_only_witness :
  SufficientBalance.add_blocks Py.sha256_hexdigest
    [(1700000002, demo_block1); (1700000003, [mkTransaction "Dave" "Eve" 10])] sb_funded
    = Py.Done (sb_after_block1, ["Invalid transactions"]) /\
  SufficientBalance.genesis_block sb_after_block1 = SufficientBalance.genesis_block sb_funded /\
  exists appended,
    SufficientBalance.blocks sb_after_block1 = SufficientBalance.blocks sb_funded ++ appended /\
    (List.length appended <= 2)%nat.
Proof.
  assert (Hrun : SufficientBalance.add_blocks Py.sha256_hexdigest
            [(1700000002, demo_block1); (1700000003, [mkTransaction "Dave" "Eve" 10])]
            sb_funded
          = Py.Done (sb_after_block1, ["Invalid transactions"])) by (vm_compute; reflexivity).
  split; [exact Hrun|].
  exact (sb_add_blocks_append_only Py.sha256_hexdigest _ _ _ _ Hrun).
Defined.

(** X2. On every chain a script of [add_block] calls builds from a fresh
    one, the first block is the [genesis_block] attribute, which is the block
    the constructor made, and the [index] field of every block is its
    position in [blocks]. *)
Theorem sb_block_positions (sha256_hexdigest : string -> string) (now0 : Z)
    (calls : list (Z * list Transaction))
    (self : SufficientBalance.Blockchain) (out : list string) :
  SufficientBalance.add_blocks sha256_hexdigest calls (SufficientBalance.init now0)
    = Py.Done (self, out) ->
  SufficientBalance.genesis_block self = SufficientBalance.create_genesis_block now0 /\
  SufficientBalance.blocks self !! 0%nat = Some (SufficientBalance.genesis_block self) /\
  forall (i : nat) (b : SufficientBalance.Block),
    SufficientBalance.blocks self !! i = Some b -> SufficientBalance.index b = Z.of_nat i.
Proof.
  intros Hrun.
  assert (Hgen : forall calls self self' out,
    SufficientBalance.add_blocks sha256_hexdigest calls self = Py.Done (self', out) ->
    (forall (i : nat) (b : SufficientBalance.Block),
       SufficientBalance.blocks self !! i = Some b -> SufficientBalance.index b = Z.of_nat i) ->
    forall (i : nat) (b : SufficientBalance.Block),
      SufficientBalance.blocks self' !! i = Some b -> SufficientBalance.index b = Z.of_nat i).
  { clear. induction calls as [|[now transactions] calls IH]; intros self self' out; simpl.
    - by intros [= <- _].
    - destruct (SufficientBalance.add_block _ _ _ self) as [[s1 o1]| |] eqn:H1;
        simpl; try discriminate.
      destruct (SufficientBalance.add_blocks _ calls s1) as [[s2 o2]| |] eqn:H2;
        simpl; try discriminate.
      intros [= <- _] Hinv. apply (IH _ _ _ H2).
      apply sb_add_block_cases in H1
        as [(_ & -> & _)|(_ & _ & front & last_block & _ & ->)]; [done|].
      simpl. intros i b Hi.
      destruct (decide (i < List.length (SufficientBalance.blocks self))%nat) as [Hlt|Hge].
      + rewrite lookup_app_l in Hi by done. by apply Hinv.
      + rewrite lookup_app_r in Hi by lia.
        destruct (i - List.length (SufficientBalance.blocks self))%nat as [|k] eqn:Hk;
          simpl in Hi; [|done].
        injection Hi as <-. simpl. f_equal. lia. }
  destruct (sb_add_blocks_extends _ _ _ _ _ Hrun) as (Hg & more & Hmore & _).
  split; [exact Hg|]. split.
  - rewrite Hmore, Hg. reflexivity.
  - apply (Hgen _ _ _ _ Hrun). intros [|i] b; simpl; [|done]. by intros [= <-].
Qed.

Lemma sb_block_positions_witness :
  SufficientBalance.add_blocks Py.sha256_hexdigest
    [(1700000001, demo_mint); (1700000002, demo_block1); (1700000003, demo_block2)]
    (SufficientBalance.init 1700000000)
    = Py.Done (sb_after_block2, []) /\
  forall (i : nat) (b : SufficientBalance.Block),
    SufficientBalance.blocks sb_after_block2 !! i = Some b ->
    SufficientBalance.index b = Z.of_nat i.
Proof.
  assert (Hrun : SufficientBalance.add_blocks Py.sha256_hexdigest
            [(1700000001, demo_mint); (1700000002, demo_block1); (1700000003, demo_block2)]
            (SufficientBalance.init 1700000000)
          = Py.Done (sb_after_block2, [])) by (vm_compute; reflexivity).
  split; [exact Hrun|].
  exact (proj2 (proj2 (sb_block_positions Py.sha256_hexdigest _ _ _ _ Hrun))).
Defined.

Lemma sb_built_nonempty (sha256_hexdigest : string -> string) (now0 : Z)
    (calls : list (Z * list Transaction))
    (self : SufficientBalance.Blockchain) (out : list string) :
  SufficientBalance.add_blocks sha256_hexdigest calls (SufficientBalance.init now0)
    = Py.Done (self, out) ->
  exists front last_block, SufficientBalance.blocks self = front ++ [last_block].
Proof.
  intros Hrun.
  destruct (SufficientBalanceFacts.add_blocks_well_linked sha256_hexdigest calls
              (SufficientBalance.init now0)
              (SufficientBalanceFacts.well_linked_init sha256_hexdigest now0))
    as (self' & out' & Hrun' & Hwl).
  rewrite Hrun in Hrun'. injection Hrun' as <- <-.
  by apply (SufficientBalanceFacts.well_linked_nonempty sha256_hexdigest).
Qed.

(** X3. On a chain built from a fresh one, [add_block] always returns, and
    does one of two things. Either the batch fails the solvency check, the
    chain is left as it was and "Invalid transactions" is printed; or
    nothing is printed and exactly one block is appended, holding the batch,
    the time of the call, the former length as its index, the stored digest
    of the former last block as its link, and the digest of these fields. *)
Theorem sb_add_block_outcomes (sha256_hexdigest : string -> string) (now0 : Z)
    (calls : list (Z * list Transaction))
    (self : SufficientBalance.Blockchain) (out : list string)
    (now : Z) (batch : list Transaction) :
  SufficientBalance.add_blocks sha256_hexdigest calls (SufficientBalance.init now0)
    = Py.Done (self, out) ->
  exists self' out',
    SufficientBalance.add_block sha256_hexdigest now batch self = Py.Done (self', out') /\
    ((SufficientBalance.are_transactions_valid self batch = false /\
      self' = self /\ out' = ["Invalid transactions"]) \/
     (SufficientBalance.are_transactions_valid self batch = true /\ out' = [] /\
      exists front last_block b,
        SufficientBalance.blocks self = front ++ [last_block] /\
        SufficientBalance.blocks self' = SufficientBalance.blocks self ++ [b] /\
        SufficientBalance.transactions b = batch /\
        SufficientBalance.timestamp b = now /\
        SufficientBalance.index b = Z.of_nat (List.length (SufficientBalance.blocks self)) /\
        SufficientBalance.previous_hash b = SufficientBalance.hash last_block /\
        SufficientBalance.hash b
        = SufficientBalance.calculate_hash sha256_hexdigest (SufficientBalance.index b)
            (SufficientBalance.previous_hash b) (SufficientBalance.timestamp b)
            (SufficientBalance.transactions b))).
Proof.
  intros Hrun. destruct (sb_built_nonempty _ _ _ _ _ Hrun) as (front & last_block & Hb).
  destruct (SufficientBalance.are_transactions_valid self batch) eqn:Hv.
  - eexists _, _. split.
    + by apply (SufficientBalanceFacts.add_block_accepted _ _ _ _ front last_block).
    + right. split; [done|]. split; [done|].
      eexists front, last_block, _. split; [done|]. simpl. done.
  - eexists _, _. split.
    + by apply SufficientBalanceFacts.add_block_rejected.
    + left. done.
Qed.

Lemma sb_add_block_outcomes_witness :
  SufficientBalance.add_blocks Py.sha256_hexdigest [(1700000001, demo_mint)]
    (SufficientBalance.init 1700000000) = Py.Done (sb_funded, []) /\
  exists self' out',
    SufficientBalance.add_block Py.sha256_hexdigest 1700000002 demo_block1 sb_funded
      = Py.Done (self', out') /\
    ((SufficientBalance.are_transactions_valid sb_funded demo_block1 = false /\
      self' = sb_funded /\ out' = ["Invalid transactions"]) \/
     (SufficientBalance.are_transactions_valid sb_funded demo_block1 = true /\ out' = [] /\
      exists front last_block b,
        SufficientBalance.blocks sb_funded = front ++ [last_block] /\
        SufficientBalance.blocks self' = SufficientBalance.blocks sb_funded ++ [b] /\
        SufficientBalance.transactions b = demo_block1 /\
        SufficientBalance.timestamp b = 1700000002 /\
        SufficientBalance.index b
        = Z.of_nat (List.length (SufficientBalance.blocks sb_funded)) /\
        SufficientBalance.previous_hash b = SufficientBalance.hash last_block /\
        SufficientBalance.hash b
        = SufficientBalance.calculate_hash Py.sha256_hexdigest (SufficientBalance.index b)
            (SufficientBalance.previous_hash b) (SufficientBalance.timestamp b)
            (SufficientBalance.transactions b))).
Proof.
  assert (Hrun : SufficientBalance.add_blocks Py.sha256_hexdigest [(1700000001, demo_mint)]
            (SufficientBalance.init 1700000000) = Py.Done (sb_funded, []))
    by (vm_compute; reflexivity).
  split; [exact Hrun|].
  exact (sb_add_block_outcomes Py.sha256_hexdigest _ _ _ _ 1700000002 demo_block1 Hrun).
Defined.

(** ** The balances, continued *)

Lemma sent_app (a : string) (l1 l2 : list Transaction) :
  sent a (l1 ++ l2) = sent a l1 + sent a l2.
Proof. induction l1 as [|t l1 IH]; simpl; lia. Qed.

Lemma received_app (a : string) (l1 l2 : list Transaction) :
  received a (l1 ++ l2) = received a l1 + received a l2.
Proof. induction l1 as [|t l1 IH]; simpl; lia. Qed.

Lemma sent_not_sender (a : string) (batch : list Transaction) :
  ~ In a (List.map from_address batch) -> sent a batch = 0.
Proof.
  induction batch as [|t rest IH]; simpl; [done|]. intros Hnot.
  destruct (String.eqb_spec (from_address t) a) as [Heq|_]; [tauto|].
  rewrite IH; [lia|tauto].
Qed.

Lemma received_nonnegative (a : string) (batch : list Transaction) :
  amounts_nonnegative batch -> 0 <= received a batch.
Proof.
  induction 1 as [|t rest Ht _ IH]; simpl; [lia|].
  destruct (String.eqb (to_address t) a); lia.
Qed.

Lemma sb_all_transactions_snoc (chain : list SufficientBalance.Block)
    (b : SufficientBalance.Block) :
  SufficientBalance.all_transactions (chain ++ [b])
  = SufficientBalance.all_transactions chain ++ SufficientBalance.transactions b.
Proof.
  unfold SufficientBalance.all_transactions.
  rewrite map_app, concat_app. simpl. by rewrite app_nil_r.
Qed.

Lemma pow_all_transactions_snoc (chain : list CryptographicProof.Block)
    (b : CryptographicProof.Block) :
  CryptographicProof.all_transactions (chain ++ [b])
  = CryptographicProof.all_transactions chain ++ CryptographicProof.transactions b.
Proof.
  unfold CryptographicProof.all_transactions.
  rewrite map_app, concat_app. simpl. by rewrite app_nil_r.
Qed.

(** A sender the check looked at holds at least one of its amounts. *)
Lemma checked_sender_nonnegative (balances : gmap string Z) (batch : list Transaction)
    (a : string) :
  Ledger.check_senders balances batch = true ->
  amounts_nonnegative batch ->
  a <> "System" ->
  In a (List.map from_address batch) ->
  0 <= Ledger.get balances a.
Proof.
  rewrite check_senders_spec. intros Hall Hpos Hns Hin.
  apply in_map_iff in Hin as (t & <- & Ht).
  rewrite List.Forall_forall in Hall. unfold amounts_nonnegative in Hpos.
  rewrite List.Forall_forall in Hpos.
  specialize (Hall t Ht). specialize (Hpos t Ht). simpl in *.
  destruct Hall as [?|?]; [congruence|lia].
Qed.

Lemma sb_commit_balance (sha256_hexdigest : string -> string) (now : Z)
    (batch : list Transaction) (self self' : SufficientBalance.Blockchain)
    (out : list string) (a : string) :
  SufficientBalance.are_transactions_valid self batch = true ->
  SufficientBalance.add_block sha256_hexdigest now batch self = Py.Done (self', out) ->
  Ledger.get (SufficientBalance.calculate_balances self' None) a
  = Ledger.get (SufficientBalance.calculate_balances self (Some batch)) a
    - (if String.eqb a "System" then sent "System" batch else 0).
Proof.
  intros Hv Hadd.
  apply sb_add_block_cases in Hadd
    as [(Hv' & _)|(_ & _ & front & last_block & _ & ->)]; [congruence|].
  rewrite SufficientBalanceFacts.get_calculate_balances.
  unfold SufficientBalance.calculate_balances. simpl.
  rewrite !SufficientBalanceFacts.get_committed, sb_all_transactions_snoc. simpl.
  rewrite sent_app, received_app. unfold pending_sent.
  destruct (String.eqb_spec a "System") as [->|_]; lia.
Qed.

(** X4. What the pending view of [sufficient_balance.py] promises, the
    commit delivers: after [add_block] has appended an accepted batch, the
    committed balance of every address is the balance
    [calculate_balances(batch)] showed before the call, except that of
    'System', which is lower by what 'System' sends in the batch. *)
Theorem sb_preview_matches_commit (sha256_hexdigest : string -> string) (now : Z)
    (batch : list Transaction) (self self' : SufficientBalance.Blockchain)
    (out : list string) (a : string) :
  SufficientBalance.are_transactions_valid self batch = true ->
  SufficientBalance.add_block sha256_hexdigest now batch self = Py.Done (self', out) ->
  Ledger.get (SufficientBalance.calculate_balances self' None) a
  = Ledger.get (SufficientBalance.calculate_balances self (Some batch)) a
    - (if String.eqb a "System" then sent "System" batch else 0).
Proof. apply sb_commit_balance. Qed.

Lemma sb_preview_matches_commit_witness :
  SufficientBalance.are_transactions_valid sb_start demo_mint = true /\
  SufficientBalance.add_block Py.sha256_hexdigest 1700000001 demo_mint sb_start
    = Py.Done (sb_funded, []) /\
  Ledger.get (SufficientBalance.calculate_balances sb_funded None) "System"
  = Ledger.get (SufficientBalance.calculate_balances sb_start (Some demo_mint)) "System"
    - (if String.eqb "System" "System" then sent "System" demo_mint else 0).
Proof.
  assert (Hv : SufficientBalance.are_transactions_valid sb_start demo_mint = true)
    by (vm_compute; reflexivity).
  assert (Hadd : SufficientBalance.add_block Py.sha256_hexdigest 1700000001 demo_mint sb_start
                 = Py.Done (sb_funded, [])) by (vm_compute; reflexivity).
  split; [exact Hv|]. split; [exact Hadd|].
  exact (sb_preview_matches_commit Py.sha256_hexdigest _ _ _ _ _ "System" Hv Hadd).
Defined.

Lemma sb_add_blocks_nonnegative (sha256_hexdigest : string -> string)
    (calls : list (Z * list Transaction)) :
  forall (self self' : SufficientBalance.Blockchain) (out : list string),
    SufficientBalance.add_blocks sha256_hexdigest calls self = Py.Done (self', out) ->
    Forall (fun call => amounts_nonnegative (snd call)) calls ->
    (forall a, a <> "System" ->
       0 <= Ledger.get (SufficientBalance.calculate_balances self None) a) ->
    forall a, a <> "System" ->
      0 <= Ledger.get (SufficientBalance.calculate_balances self' None) a.
Proof.
  induction calls as [|[now batch] calls IH]; intros self self' out; simpl.
  - by intros [= <- _].
  - destruct (SufficientBalance.add_block _ _ _ self) as [[s1 o1]| |] eqn:H1;
      simpl; try discriminate.
    destruct (SufficientBalance.add_blocks _ calls s1) as [[s2 o2]| |] eqn:H2;
      simpl; try discriminate.
    intros [= <- _] Hpos Hinv. inversion Hpos as [|? ? Hbatch Hrest]; subst.
    apply (IH _ _ _ H2 Hrest). intros a Ha.
    destruct (SufficientBalance.are_transactions_valid self batch) eqn:Hv.
    2:{ apply sb_add_block_cases in H1 as [(_ & -> & _)|(Hv' & _)]; [by apply Hinv|congruence]. }
    rewrite (sb_commit_balance _ _ _ _ _ _ a Hv H1).
    destruct (String.eqb_spec a "System") as [?|_]; [congruence|]. rewrite Z.sub_0_r.
    destruct (in_dec string_dec a (List.map from_address batch)) as [Hin|Hnot].
    + by apply (checked_sender_nonnegative _ batch).
    + rewrite SufficientBalanceFacts.get_calculate_balances. unfold pending_sent.
      destruct (String.eqb_spec a "System") as [?|_]; [congruence|].
      rewrite (sent_not_sender _ _ Hnot).
      simpl in Hbatch. pose proof (received_nonnegative a batch Hbatch).
      specialize (Hinv a Ha). unfold SufficientBalance.calculate_balances in *. lia.
Qed.

(** X5. No overdraft in [sufficient_balance.py]: on every chain a script
    of [add_block] calls builds from a fresh one, with amounts that are not
    negative, the committed balance of every address other than 'System' is
    at least 0. *)
Theorem sb_no_overdraft (sha256_hexdigest : string -> string) (now0 : Z)
    (calls : list (Z * list Transaction))
    (self : SufficientBalance.Blockchain) (out : list string) (a : string) :
  SufficientBalance.add_blocks sha256_hexdigest calls (SufficientBalance.init now0)
    = Py.Done (self, out) ->
  Forall (fun call => amounts_nonnegative (snd call)) calls ->
  a <> "System" ->
  0 <= Ledger.get (SufficientBalance.calculate_balances self None) a.
Proof.
  intros Hrun Hpos Ha.
  apply (sb_add_blocks_nonnegative _ _ _ _ _ Hrun Hpos); [|done].
  intros b _. vm_compute. discriminate.
Qed.

Lemma sb_no_overdraft_witness :
  SufficientBalance.add_blocks Py.sha256_hexdigest
    [(1700000001, demo_mint); (1700000002, demo_block1); (1700000003, demo_block2)]
    (SufficientBalance.init 1700000000)
    = Py.Done (sb_after_block2, []) /\
  Forall (fun call => amounts_nonnegative (snd call))
    [(1700000001, demo_mint); (1700000002, demo_block1); (1700000003, demo_block2)] /\
  "Charlie" <> "System" /\
  0 <= Ledger.get (SufficientBalance.calculate_balances sb_after_block2 None) "Charlie".
Proof.
  assert (Hrun : SufficientBalance.add_blocks Py.sha256_hexdigest
            [(1700000001, demo_mint); (1700000002, demo_block1); (1700000003, demo_block2)]
            (SufficientBalance.init 1700000000)
          = Py.Done (sb_after_block2, [])) by (vm_compute; reflexivity).
  assert (Hpos : Forall (fun call => amounts_nonnegative (snd call))
            [(1700000001, demo_mint); (1700000002, demo_block1); (1700000003, demo_block2)])
    by (repeat constructor; simpl; lia).
  assert (Ha : "Charlie" <> "System") by discriminate.
  split; [exact Hrun|]. split; [exact Hpos|]. split; [exact Ha|].
  exact (sb_no_overdraft Py.sha256_hexdigest _ _ _ _ "Charlie" Hrun Hpos Ha).
Defined.

(** X6. As the docstring of [are_transactions_valid] has it, transactions
    from 'System' are never a reason to reject: a batch whose senders are all
    'System' (the empty batch too) is accepted by the check of either script,
    on every chain and whatever the amounts. *)
Theorem system_batches_always_accepted
    (self : SufficientBalance.Blockchain) (chain : CryptographicProof.Blockchain)
    (batch : list Transaction) :
  Forall (fun t => from_address t = "System") batch ->
  SufficientBalance.are_transactions_valid self batch = true /\
  CryptographicProof.are_transactions_valid chain batch = true.
Proof.
  intros Hsys.
  unfold SufficientBalance.are_transactions_valid,
    CryptographicProof.are_transactions_valid.
  rewrite !check_senders_spec.
  split; (eapply Forall_impl; [exact Hsys|]); intros t Ht; by left.
Qed.

Lemma system_batches_always_accepted_witness :
  Forall (fun t => from_address t = "System")
    [mkTransaction "System" "Alice" 1000000; mkTransaction "System" "System" (-5)] /\
  SufficientBalance.are_transactions_valid sb_after_block2
    [mkTransaction "System" "Alice" 1000000; mkTransaction "System" "System" (-5)] = true /\
  CryptographicProof.are_transactions_valid pow_chain
    [mkTransaction "System" "Alice" 1000000; mkTransaction "System" "System" (-5)] = true.
Proof.
  assert (Hsys : Forall (fun t => from_address t = "System")
            [mkTransaction "System" "Alice" 1000000; mkTransaction "System" "System" (-5)])
    by (repeat constructor).
  split; [exact Hsys|].
  exact (system_batches_always_accepted sb_after_block2 pow_chain _ Hsys).
Defined.

(** X7. The check reads neither the sign of an amount nor the balance of
    the receiver. In [sufficient_balance.py] a transaction with a negative
    amount, from a sender other than 'System' whose committed balance is not
    negative, is accepted as a batch of its own, and it moves the money the
    other way: the sender gains what the receiver loses. *)
Theorem sb_negative_amount_takes_from_receiver
    (self : SufficientBalance.Blockchain) (a b : string) (v : Z) :
  a <> "System" -> a <> b -> 0 < v ->
  0 <= Ledger.get (SufficientBalance.calculate_balances self None) a ->
  SufficientBalance.are_transactions_valid self [mkTransaction a b (- v)] = true /\
  Ledger.get (SufficientBalance.calculate_balances self (Some [mkTransaction a b (- v)])) a
  = Ledger.get (SufficientBalance.calculate_balances self None) a + v /\
  Ledger.get (SufficientBalance.calculate_balances self (Some [mkTransaction a b (- v)])) b
  = Ledger.get (SufficientBalance.calculate_balances self None) b - v.
Proof.
  intros Ha Hab Hv Hpre.
  assert (Hafter : forall c,
    Ledger.get (SufficientBalance.calculate_balances self (Some [mkTransaction a b (- v)])) c
    = Ledger.get (SufficientBalance.calculate_balances self None) c
      + (if String.eqb b c then - v else 0) - (if String.eqb a c then - v else 0)).
  { intros c. rewrite SufficientBalanceFacts.get_calculate_balances. unfold pending_sent.
    simpl. destruct (String.eqb_spec c "System") as [->|_]; [|lia].
    destruct (String.eqb_spec a "System"); [congruence|lia]. }
  split; [|split].
  - unfold SufficientBalance.are_transactions_valid. rewrite check_senders_spec.
    constructor; [|constructor]. right. simpl. rewrite Hafter.
    rewrite String.eqb_refl. destruct (String.eqb_spec b a); [congruence|lia].
  - rewrite Hafter, String.eqb_refl. destruct (String.eqb_spec b a); [congruence|lia].
  - rewrite Hafter, String.eqb_refl. destruct (String.eqb_spec a b); [congruence|lia].
Qed.

Lemma sb_negative_amount_takes_from_receiver_witness :
  "Dave" <> "System" /\ "Dave" <> "Alice" /\ 0 < 500 /\
  0 <= Ledger.get (SufficientBalance.calculate_balances sb_funded None) "Dave" /\
  SufficientBalance.are_transactions_valid sb_funded [mkTransaction "Dave" "Alice" (- 500)]
  = true /\
  Ledger.get (SufficientBalance.calculate_balances sb_funded
                (Some [mkTransaction "Dave" "Alice" (- 500)])) "Dave"
  = Ledger.get (SufficientBalance.calculate_balances sb_funded None) "Dave" + 500 /\
  Ledger.get (SufficientBalance.calculate_balances sb_funded
                (Some [mkTransaction "Dave" "Alice" (- 500)])) "Alice"
  = Ledger.get (SufficientBalance.calculate_balances sb_funded None) "Alice" - 500.
Proof.
  assert (H1 : "Dave" <> "System") by discriminate.
  assert (H2 : "Dave" <> "Alice") by discriminate.
  assert (H3 : 0 < 500) by lia.
  assert (H4 : 0 <= Ledger.get (SufficientBalance.calculate_balances sb_funded None) "Dave")
    by (vm_compute; discriminate).
  repeat (split; [assumption|]).
  exact (sb_negative_amount_takes_from_receiver sb_funded "Dave" "Alice" 500 H1 H2 H3 H4).
Defined.

Lemma not_mentioned (a : string) (transactions : list Transaction) :
  mentioned a transactions = false ->
  sent a transactions = 0 /\ received a transactions = 0.
Proof.
  induction transactions as [|t rest IH]; simpl; [done|].
  destruct (String.eqb (from_address t) a), (String.eqb (to_address t) a);
    simpl; try discriminate.
  intros Hrest. destruct (IH Hrest). lia.
Qed.

Lemma lookup_ensure (balances : gmap string Z) (k a : string) :
  Ledger.ensure k balances !! a
  = if String.eqb k a then Some (Ledger.get balances a) else balances !! a.
Proof.
  unfold Ledger.ensure, Ledger.get.
  destruct (String.eqb_spec k a) as [->|Hne].
  - destruct (balances !! a) eqn:Hk; [by rewrite Hk|]. by rewrite lookup_insert_eq.
  - destruct (balances !! k); [done|]. by rewrite lookup_insert_ne.
Qed.

Lemma lookup_iadd (balances : gmap string Z) (k a : string) (v : Z) :
  Ledger.iadd k v balances !! a
  = if String.eqb k a then Some (Ledger.get balances k + v) else balances !! a.
Proof.
  unfold Ledger.iadd. destruct (String.eqb_spec k a) as [->|Hne].
  - by rewrite lookup_insert_eq.
  - by rewrite lookup_insert_ne.
Qed.

Lemma lookup_transfer (balances : gmap string Z) (t : Transaction) (a : string) :
  Ledger.transfer balances t !! a
  = if String.eqb (from_address t) a || String.eqb (to_address t) a
    then Some (Ledger.get (Ledger.transfer balances t) a)
    else balances !! a.
Proof.
  destruct (String.eqb (from_address t) a || String.eqb (to_address t) a) eqn:Hm.
  - unfold Ledger.get at 1.
    assert (Hsome : is_Some (Ledger.transfer balances t !! a)).
    { unfold Ledger.transfer. rewrite !lookup_iadd, !lookup_ensure.
      destruct (String.eqb (to_address t) a); [by eexists|].
      destruct (String.eqb (from_address t) a); [by eexists|]. discriminate. }
    destruct Hsome as [x Hx]. by rewrite Hx.
  - apply orb_false_iff in Hm as [Hf Ht].
    unfold Ledger.transfer. rewrite !lookup_iadd, !lookup_ensure. by rewrite Hf, Ht.
Qed.

Lemma lookup_replay (transactions : list Transaction) (balances : gmap string Z)
    (a : string) :
  List.fold_left Ledger.transfer transactions balances !! a
  = if mentioned a transactions
    then Some (Ledger.get balances a + received a transactions - sent a transactions)
    else balances !! a.
Proof.
  revert balances. induction transactions as [|t rest IH]; intros balances; [done|].
  simpl. rewrite IH, get_transfer, lookup_transfer, get_transfer.
  destruct (mentioned a rest) eqn:Hrest.
  - rewrite orb_true_r. f_equal. lia.
  - rewrite orb_false_r. destruct (not_mentioned _ _ Hrest) as [-> ->].
    destruct (String.eqb (from_address t) a || String.eqb (to_address t) a); [|done].
    f_equal. lia.
Qed.

Lemma lookup_committed_balances
    (self : SufficientBalance.Blockchain) (chain : CryptographicProof.Blockchain)
    (a : string) :
  SufficientBalance.calculate_balances self None !! a
  = (if mentioned a (SufficientBalance.all_transactions (SufficientBalance.blocks self))
     then Some (received a (SufficientBalance.all_transactions (SufficientBalance.blocks self))
                - sent a (SufficientBalance.all_transactions (SufficientBalance.blocks self)))
     else None) /\
  CryptographicProof.calculate_balances chain None !! a
  = (if mentioned a (CryptographicProof.all_transactions (CryptographicProof.blocks chain))
     then Some (received a (CryptographicProof.all_transactions
                              (CryptographicProof.blocks chain))
                - sent a (CryptographicProof.all_transactions
                            (CryptographicProof.blocks chain)))
     else None).
Proof.
  unfold SufficientBalance.calculate_balances, CryptographicProof.calculate_balances.
  rewrite SufficientBalanceFacts.committed_balances_replay,
    CryptographicProofFacts.pow_committed_balances_replay, !lookup_replay.
  unfold Ledger.get. rewrite !lookup_empty. done.
Qed.

(** X8. The dictionary [calculate_balances()] returns has exactly the
    addresses some committed transaction names as sender or receiver, each
    with what it received minus what it sent; any other address is missing
    from it (and reads as 0 through [get]). In both scripts. *)
Theorem balances_keys_and_values
    (self : SufficientBalance.Blockchain) (chain : CryptographicProof.Blockchain)
    (a : string) :
  SufficientBalance.calculate_balances self None !! a
  = (if mentioned a (SufficientBalance.all_transactions (SufficientBalance.blocks self))
     then Some (received a (SufficientBalance.all_transactions (SufficientBalance.blocks self))
                - sent a (SufficientBalance.all_transactions (SufficientBalance.blocks self)))
     else None) /\
  CryptographicProof.calculate_balances chain None !! a
  = (if mentioned a (CryptographicProof.all_transactions (CryptographicProof.blocks chain))
     then Some (received a (CryptographicProof.all_transactions
                              (CryptographicProof.blocks chain))
                - sent a (CryptographicProof.all_transactions
                            (CryptographicProof.blocks chain)))
     else None).
Proof. apply lookup_committed_balances. Qed.

(** X9. [add_block] reads the last block before it appends: on a chain
    object whose list of blocks has been emptied, an accepted batch makes it
    raise [IndexError], in either script, and in
    [with_cryptographic_proof.py] before any proof-of-work is attempted. *)
Theorem add_block_on_emptied_chain_raises (sha256_hexdigest : string -> string)
    (self : SufficientBalance.Blockchain) (chain : CryptographicProof.Blockchain)
    (now : Z) (difficulty : Z) (fuel : nat) (now' elapsed : string)
    (batch : list Transaction) :
  SufficientBalance.blocks self = [] ->
  CryptographicProof.blocks chain = [] ->
  SufficientBalance.are_transactions_valid self batch = true ->
  CryptographicProof.are_transactions_valid chain batch = true ->
  SufficientBalance.add_block sha256_hexdigest now batch self = Py.Raised "IndexError" /\
  CryptographicProof.add_block_at sha256_hexdigest difficulty fuel now' elapsed batch chain
  = Py.Raised "IndexError".
Proof.
  intros Hs Hc Hv Hv'.
  unfold SufficientBalance.add_block, CryptographicProof.add_block_at.
  rewrite Hv, Hv', Hs, Hc. done.
Qed.

Lemma add_block_on_emptied_chain_raises_witness :
  SufficientBalance.add_block Py.sha256_hexdigest 1700000001 demo_mint
    (SufficientBalance.mkBlockchain (SufficientBalance.create_genesis_block 1700000000) [])
  = Py.Raised "IndexError" /\
  CryptographicProof.add_block_at Py.sha256_hexdigest 7 0 "1700000001.5" "0.1" demo_mint
    (CryptographicProof.mkBlockchain [])
  = Py.Raised "IndexError".
Proof.
  exact (add_block_on_emptied_chain_raises Py.sha256_hexdigest
           (SufficientBalance.mkBlockchain
              (SufficientBalance.create_genesis_block 1700000000) [])
           (CryptographicProof.mkBlockchain []) 1700000001 7 0%nat "1700000001.5" "0.1"
           demo_mint eq_refl eq_refl eq_refl eq_refl).
Defined.

(** ** [sufficient_balance.py]: what [is_chain_valid] sees *)

Lemma sb_first_defect_none_iff (sha256_hexdigest : string -> string)
    (rest : list SufficientBalance.Block) :
  forall (i : nat) (previous : SufficientBalance.Block),
    SufficientBalance.first_defect sha256_hexdigest i previous rest = None <->
    forall (k : nat) (p c : SufficientBalance.Block),
      (previous :: rest) !! k = Some p ->
      (previous :: rest) !! S k = Some c ->
      SufficientBalance.hash c
      = SufficientBalance.calculate_hash sha256_hexdigest (SufficientBalance.index c)
          (SufficientBalance.previous_hash c) (SufficientBalance.timestamp c)
          (SufficientBalance.transactions c) /\
      SufficientBalance.previous_hash c = SufficientBalance.hash p.
Proof.
  induction rest as [|b rest IH]; intros i previous.
  - split; [|done]. intros _ [|k] p c; simpl; intros; discriminate.
  - simpl.
    destruct (String.eqb_spec (SufficientBalance.hash b)
                (SufficientBalance.calculate_hash sha256_hexdigest
                   (SufficientBalance.index b) (SufficientBalance.previous_hash b)
                   (SufficientBalance.timestamp b) (SufficientBalance.transactions b)))
      as [Hh|Hh]; simpl.
    2:{ split; [discriminate|]. intros Hall.
        destruct (Hall 0%nat previous b eq_refl eq_refl) as [? _]. congruence. }
    destruct (String.eqb_spec (SufficientBalance.previous_hash b)
                (SufficientBalance.hash previous)) as [Hp|Hp]; simpl.
    2:{ split; [discriminate|]. intros Hall.
        destruct (Hall 0%nat previous b eq_refl eq_refl) as [_ ?]. congruence. }
    rewrite IH. split.
    + intros Hall [|k] p c Hk Hk'.
      * simpl in Hk, Hk'. injection Hk as <-. injection Hk' as <-. done.
      * apply (Hall k p c); done.
    + intros Hall k p c Hk Hk'. apply (Hall (S k) p c); done.
Qed.

(** X10. [is_chain_valid] of [sufficient_balance.py] returns [True] exactly
    when every block after the first stores the digest of its own four
    fields and records the stored digest of the block before it. Nothing
    about the first block but its stored digest is read. *)
Theorem sb_is_chain_valid_iff (sha256_hexdigest : string -> string)
    (self : SufficientBalance.Blockchain) :
  SufficientBalance.is_chain_valid sha256_hexdigest self = true <->
  forall (k : nat) (p c : SufficientBalance.Block),
    SufficientBalance.blocks self !! k = Some p ->
    SufficientBalance.blocks self !! S k = Some c ->
    SufficientBalance.hash c
    = SufficientBalance.calculate_hash sha256_hexdigest (SufficientBalance.index c)
        (SufficientBalance.previous_hash c) (SufficientBalance.timestamp c)
        (SufficientBalance.transactions c) /\
    SufficientBalance.previous_hash c = SufficientBalance.hash p.
Proof.
  unfold SufficientBalance.is_chain_valid, SufficientBalance.defect.
  destruct (SufficientBalance.blocks self) as [|first rest].
  - split; [|done]. intros _ k p c; discriminate.
  - rewrite <- (sb_first_defect_none_iff sha256_hexdigest rest 1 first).
    destruct (SufficientBalance.first_defect _ _ _ _); split; done.
Qed.

(** X11. The loop of [is_chain_valid] starts at position 1 and reads only
    the stored digest of the block before: whatever is done to the
    transactions of the first block of a chain of [sufficient_balance.py],
    the verdict and the position reported are the same as before. *)
Theorem sb_first_block_never_checked (sha256_hexdigest : string -> string)
    (self : SufficientBalance.Blockchain) (f : list Transaction -> list Transaction) :
  SufficientBalance.defect sha256_hexdigest (SufficientBalance.tamper 0 f self)
  = SufficientBalance.defect sha256_hexdigest self /\
  SufficientBalance.is_chain_valid sha256_hexdigest (SufficientBalance.tamper 0 f self)
  = SufficientBalance.is_chain_valid sha256_hexdigest self.
Proof.
  assert (Hd : SufficientBalance.defect sha256_hexdigest (SufficientBalance.tamper 0 f self)
               = SufficientBalance.defect sha256_hexdigest self).
  { unfold SufficientBalance.defect, SufficientBalance.tamper. simpl.
    destruct (SufficientBalance.blocks self) as [|first rest]; [done|]. simpl.
    destruct rest as [|b rest]; done. }
  split; [exact Hd|]. unfold SufficientBalance.is_chain_valid. by rewrite Hd.
Qed.

(** X12. In [sufficient_balance.py] a change to the transactions of a block
    after the first, on a chain built by [add_block], is reported at that
    block's own position as soon as the digest of the new content differs
    from the stored one: [is_chain_valid] returns [False] there. *)
Theorem sb_tampering_reported_in_place (sha256_hexdigest : string -> string) (now0 : Z)
    (calls : list (Z * list Transaction))
    (self : SufficientBalance.Blockchain) (out : list string)
    (k : nat) (b : SufficientBalance.Block) (f : list Transaction -> list Transaction) :
  SufficientBalance.add_blocks sha256_hexdigest calls (SufficientBalance.init now0)
    = Py.Done (self, out) ->
  SufficientBalance.blocks self !! S k = Some b ->
  SufficientBalance.calculate_hash sha256_hexdigest (SufficientBalance.index b)
    (SufficientBalance.previous_hash b) (SufficientBalance.timestamp b)
    (f (SufficientBalance.transactions b)) <> SufficientBalance.hash b ->
  SufficientBalance.defect sha256_hexdigest (SufficientBalance.tamper (S k) f self)
  = Some (S k) /\
  SufficientBalance.is_chain_valid sha256_hexdigest (SufficientBalance.tamper (S k) f self)
  = false.
Proof.
  intros Hrun Hk Hne.
  destruct (SufficientBalanceFacts.add_blocks_well_linked sha256_hexdigest calls
              (SufficientBalance.init now0)
              (SufficientBalanceFacts.well_linked_init sha256_hexdigest now0))
    as (self' & out' & Hrun' & Hwl).
  rewrite Hrun in Hrun'. injection Hrun' as <- <-.
  pose proof (SufficientBalanceFacts.tamper_detected_at_index sha256_hexdigest f self k b
                Hwl Hk Hne) as Hd.
  split; [exact Hd|]. unfold SufficientBalance.is_chain_valid. by rewrite Hd.
Qed.

(** The script's own tampering, [blockchain.blocks[2].transactions[0].amount
    = 1000]. *)
Lemma sb_tampering_reported_in_place_witness :
  SufficientBalance.add_blocks Py.sha256_hexdigest
    [(1700000001, demo_mint); (1700000002, demo_block1); (1700000003, demo_block2)]
    (SufficientBalance.init 1700000000)
    = Py.Done (sb_after_block2, []) /\
  SufficientBalance.defect Py.sha256_hexdigest
    (SufficientBalance.tamper 2 (set_amount 0 1000) sb_after_block2) = Some 2%nat /\
  SufficientBalance.is_chain_valid Py.sha256_hexdigest
    (SufficientBalance.tamper 2 (set_amount 0 1000) sb_after_block2) = false.
Proof.
  assert (Hrun : SufficientBalance.add_blocks Py.sha256_hexdigest
            [(1700000001, demo_mint); (1700000002, demo_block1); (1700000003, demo_block2)]
            (SufficientBalance.init 1700000000)
          = Py.Done (sb_after_block2, [])) by (vm_compute; reflexivity).
  split; [exact Hrun|].
  refine (sb_tampering_reported_in_place Py.sha256_hexdigest _ _ _ _ 1%nat
            (SufficientBalance.mkBlock 2
               "00a6dc7a884177b9ced9a68f5538ce63508697c4e30b3beb02e8878e2a911999"
               1700000002 demo_block1
               "a52b8e0041ec3e5c64433ab7716215434e171220e7e33426bb255a2e31dc13d4")
            (set_amount 0 1000) Hrun _ _).
  - vm_compute. reflexivity.
  - vm_compute. discriminate.
Defined.

Lemma sb_first_defect_replace_last (sha256_hexdigest : string -> string)
    (rest : list SufficientBalance.Block) (b b' : SufficientBalance.Block) :
  forall (i : nat) (previous : SufficientBalance.Block),
    SufficientBalance.first_defect sha256_hexdigest i previous (rest ++ [b]) = None ->
    SufficientBalance.hash b'
    = SufficientBalance.calculate_hash sha256_hexdigest (SufficientBalance.index b')
        (SufficientBalance.previous_hash b') (SufficientBalance.timestamp b')
        (SufficientBalance.transactions b') ->
    SufficientBalance.previous_hash b' = SufficientBalance.previous_hash b ->
    SufficientBalance.first_defect sha256_hexdigest i previous (rest ++ [b']) = None.
Proof.
  induction rest as [|r rest IH]; intros i previous; simpl.
  - intros Hd Hh Hp. rewrite <- Hh, String.eqb_refl. simpl.
    destruct (negb (String.eqb (SufficientBalance.hash b) _)); [discriminate|].
    destruct (String.eqb_spec (SufficientBalance.previous_hash b)
                (SufficientBalance.hash previous)) as [Heq|]; [|discriminate].
    by rewrite Hp, Heq, String.eqb_refl.
  - intros Hd Hh Hp.
    destruct (negb _); [discriminate|]. destruct (negb _); [discriminate|].
    by apply IH.
Qed.

(** X13. The stored digest protects a block only through the link its
    successor records, and the last block has no successor: on a chain built
    by [add_block], rewriting the last block consistently (other
    transactions, and the stored digest recomputed from the block's fields)
    leaves [is_chain_valid] returning [True]. *)
Theorem sb_rewritten_last_block_passes (sha256_hexdigest : string -> string) (now0 : Z)
    (calls : list (Z * list Transaction))
    (self : SufficientBalance.Blockchain) (out : list string)
    (front : list SufficientBalance.Block) (last_block : SufficientBalance.Block)
    (transactions' : list Transaction) :
  SufficientBalance.add_blocks sha256_hexdigest calls (SufficientBalance.init now0)
    = Py.Done (self, out) ->
  SufficientBalance.blocks self = front ++ [last_block] ->
  SufficientBalance.is_chain_valid sha256_hexdigest
    (SufficientBalance.mkBlockchain (SufficientBalance.genesis_block self)
       (front ++ [rewrite_block sha256_hexdigest last_block transactions'])) = true.
Proof.
  intros Hrun Hb.
  destruct (SufficientBalanceFacts.add_blocks_well_linked sha256_hexdigest calls
              (SufficientBalance.init now0)
              (SufficientBalanceFacts.well_linked_init sha256_hexdigest now0))
    as (self' & out' & Hrun' & Hwl).
  rewrite Hrun in Hrun'. injection Hrun' as <- <-.
  destruct Hwl as (first & rest & Hfr & Hd). rewrite Hb in Hfr.
  unfold SufficientBalance.is_chain_valid, SufficientBalance.defect. simpl.
  destruct front as [|first' front'].
  - done.
  - simpl in Hfr. injection Hfr as -> <-. simpl.
    by rewrite (sb_first_defect_replace_last sha256_hexdigest front' last_block
                  (rewrite_block sha256_hexdigest last_block transactions') 1 first Hd).
Qed.

Lemma sb_rewritten_last_block_passes_witness :
  SufficientBalance.add_blocks Py.sha256_hexdigest
    [(1700000001, demo_mint); (1700000002, demo_block1)]
    (SufficientBalance.init 1700000000)
    = Py.Done (sb_after_block1, []) /\
  SufficientBalance.blocks sb_after_block1
  = SufficientBalance.blocks sb_funded
    ++ [SufficientBalance.mkBlock 2
          "00a6dc7a884177b9ced9a68f5538ce63508697c4e30b3beb02e8878e2a911999"
          1700000002 demo_block1
          "a52b8e0041ec3e5c64433ab7716215434e171220e7e33426bb255a2e31dc13d4"] /\
  SufficientBalance.is_chain_valid Py.sha256_hexdigest
    (SufficientBalance.mkBlockchain (SufficientBalance.genesis_block sb_after_block1)
       (SufficientBalance.blocks sb_funded
        ++ [rewrite_block Py.sha256_hexdigest
              (SufficientBalance.mkBlock 2
                 "00a6dc7a884177b9ced9a68f5538ce63508697c4e30b3beb02e8878e2a911999"
                 1700000002 demo_block1
                 "a52b8e0041ec3e5c64433ab7716215434e171220e7e33426bb255a2e31dc13d4")
              [mkTransaction "Alice" "Mallory" 100]])) = true.
Proof.
  assert (Hrun : SufficientBalance.add_blocks Py.sha256_hexdigest
            [(1700000001, demo_mint); (1700000002, demo_block1)]
            (SufficientBalance.init 1700000000)
          = Py.Done (sb_after_block1, [])) by (vm_compute; reflexivity).
  assert (Hb : SufficientBalance.blocks sb_after_block1
          = SufficientBalance.blocks sb_funded
            ++ [SufficientBalance.mkBlock 2
                  "00a6dc7a884177b9ced9a68f5538ce63508697c4e30b3beb02e8878e2a911999"
                  1700000002 demo_block1
                  "a52b8e0041ec3e5c64433ab7716215434e171220e7e33426bb255a2e31dc13d4"])
    by reflexivity.
  split; [exact Hrun|]. split; [exact Hb|].
  exact (sb_rewritten_last_block_passes Py.sha256_hexdigest _ _ _ _ _ _
           [mkTransaction "Alice" "Mallory" 100] Hrun Hb).
Defined.

Lemma string_app_assoc (s1 s2 s3 : string) : (s1 +:+ s2) +:+ s3 = s1 +:+ (s2 +:+ s3).
Proof.
  induction s1 as [|c s1 IH]; [reflexivity|].
  change (String c ((s1 +:+ s2) +:+ s3) = String c (s1 +:+ s2 +:+ s3)). by rewrite IH.
Qed.

(** X14. [calculate_hash] joins the texts of its fields with nothing
    between them, so fields are not told apart: when the decimal text of a
    timestamp is some text followed by the decimal text of another, moving
    that text to the end of the predecessor digest gives the same input and
    so, whatever the digest function, the same digest. *)
Theorem calculate_hash_fields_run_together (sha256_hexdigest : string -> string)
    (index : Z) (previous_hash moved : string) (timestamp timestamp' : Z)
    (transactions : list Transaction) :
  Py.str_int timestamp = moved +:+ Py.str_int timestamp' ->
  SufficientBalance.calculate_hash sha256_hexdigest index (previous_hash +:+ moved)
    timestamp' transactions
  = SufficientBalance.calculate_hash sha256_hexdigest index previous_hash
      timestamp transactions.
Proof.
  intros Hts. unfold SufficientBalance.calculate_hash. f_equal.
  rewrite Hts. by rewrite !string_app_assoc.
Qed.

Lemma calculate_hash_fields_run_together_witness :
  Py.str_int 1700000000 = "1" +:+ Py.str_int 700000000 /\
  SufficientBalance.calculate_hash Py.sha256_hexdigest 2 ("a52b8e" +:+ "1") 700000000
    demo_block1
  = SufficientBalance.calculate_hash Py.sha256_hexdigest 2 "a52b8e" 1700000000 demo_block1.
Proof.
  assert (Hts : Py.str_int 1700000000 = "1" +:+ Py.str_int 700000000)
    by (vm_compute; reflexivity).
  split; [exact Hts|].
  exact (calculate_hash_fields_run_together Py.sha256_hexdigest 2 "a52b8e" "1"
           1700000000 700000000 demo_block1 Hts).
Defined.

(** ** [with_cryptographic_proof.py]: the search, continued *)

Lemma search_not_raised (sha256_hexdigest : string -> string) (fuel : nat)
    (block : CryptographicProof.Block) (difficulty : Z) (exn : string) :
  CryptographicProof.search sha256_hexdigest fuel block difficulty <> Py.Raised exn.
Proof.
  revert block. induction fuel as [|fuel IH]; intros block; simpl; [discriminate|].
  destruct (negb _); [apply IH|discriminate].
Qed.

Lemma search_all_invalid (sha256_hexdigest : string -> string) (fuel : nat)
    (difficulty : Z) :
  (forall b, CryptographicProof.is_valid sha256_hexdigest b difficulty = false) ->
  forall block,
    CryptographicProof.search sha256_hexdigest fuel block difficulty = Py.OutOfFuel.
Proof.
  intros Hall. induction fuel as [|fuel IH]; intros block; simpl; [done|].
  rewrite Hall. simpl. apply IH.
Qed.

Lemma take_length_min (n : nat) (s : string) :
  String.length (Py.take n s) = Nat.min n (String.length s).
Proof.
  revert s. induction n as [|n IH]; intros [|c s]; simpl; try done.
  by rewrite IH.
Qed.

Lemma is_valid_lower (sha256_hexdigest : string -> string)
    (block : CryptographicProof.Block) (difficulty difficulty' : Z) :
  0 <= difficulty' <= difficulty ->
  CryptographicProof.is_valid sha256_hexdigest block difficulty = true ->
  CryptographicProof.is_valid sha256_hexdigest block difficulty' = true.
Proof.
  intros Hd Hvalid.
  pose proof (proj1 (CryptographicProofFacts.is_valid_leading_zeros sha256_hexdigest
                       block difficulty ltac:(lia)) Hvalid) as Hzeros.
  apply (CryptographicProofFacts.is_valid_leading_zeros sha256_hexdigest); [lia|].
  intros i Hi. apply Hzeros. lia.
Qed.

(** X15. A block that passes the proof-of-work test at some difficulty
    passes it at every lower difficulty down to 0. *)
Theorem is_valid_at_lower_difficulty (sha256_hexdigest : string -> string)
    (block : CryptographicProof.Block) (difficulty difficulty' : Z) :
  0 <= difficulty' <= difficulty ->
  CryptographicProof.is_valid sha256_hexdigest block difficulty = true ->
  CryptographicProof.is_valid sha256_hexdigest block difficulty' = true.
Proof. apply is_valid_lower. Qed.

Lemma is_valid_at_lower_difficulty_witness :
  0 <= 2 <= 4 /\
  CryptographicProof.is_valid Py.sha256_hexdigest
    (CryptographicProof.set_proof pow_candidate 17) 4 = true /\
  CryptographicProof.is_valid Py.sha256_hexdigest
    (CryptographicProof.set_proof pow_candidate 17) 2 = true.
Proof.
  assert (Hd : 0 <= 2 <= 4) by lia.
  assert (Hv : CryptographicProof.is_valid Py.sha256_hexdigest
                 (CryptographicProof.set_proof pow_candidate 17) 4 = true)
    by (vm_compute; reflexivity).
  split; [exact Hd|]. split; [exact Hv|].
  exact (is_valid_at_lower_difficulty Py.sha256_hexdigest _ 4 2 Hd Hv).
Defined.

Lemma sha256_digest_length (block : CryptographicProof.Block) :
  String.length (CryptographicProof.hash Py.sha256_hexdigest block) = 64%nat.
Proof. apply hexdigest_format. Qed.

(** X16. With SHA-256 the digest has 64 characters, and [proof_of_work]
    compares a slice of it with [difficulty] zeros: for a difficulty above
    64, or a negative one above -64, the two never have the same length, the
    test fails whatever the nonce and the search does not return on any
    budget of iterations. *)
Theorem proof_of_work_never_returns (fuel : nat) (block : CryptographicProof.Block)
    (difficulty : Z) :
  64 < difficulty \/ -64 < difficulty < 0 ->
  CryptographicProof.proof_of_work Py.sha256_hexdigest fuel block difficulty = Py.OutOfFuel.
Proof.
  intros Hd. unfold CryptographicProof.proof_of_work.
  apply search_all_invalid. intros b.
  unfold CryptographicProof.is_valid.
  pose proof (sha256_digest_length b) as Hlen. revert Hlen.
  generalize (CryptographicProof.hash Py.sha256_hexdigest b). intros digest Hlen.
  apply String.eqb_neq. intros Heq. apply (f_equal String.length) in Heq. revert Heq.
  unfold Py.slice_to, Py.str_mul. rewrite repeat_zero_length.
  destruct (Z.leb_spec 0 difficulty) as [?|?]; rewrite take_length_min, Hlen; lia.
Qed.

Lemma proof_of_work_never_returns_witness :
  (64 < 65 \/ -64 < 65 < 0) /\
  CryptographicProof.proof_of_work Py.sha256_hexdigest 1000 pow_candidate 65
  = Py.OutOfFuel /\
  (64 < -1 \/ -64 < -1 < 0) /\
  CryptographicProof.proof_of_work Py.sha256_hexdigest 1000 pow_candidate (-1)
  = Py.OutOfFuel.
Proof.
  assert (H1 : 64 < 65 \/ -64 < 65 < 0) by lia.
  assert (H2 : 64 < -1 \/ -64 < -1 < 0) by lia.
  split; [exact H1|]. split; [exact (proof_of_work_never_returns _ _ _ H1)|].
  split; [exact H2|]. exact (proof_of_work_never_returns _ _ _ H2).
Defined.

(** X17. At the other end of the slice, a difficulty of -64 or below leaves
    nothing of a SHA-256 digest to compare with no zeros: the test holds at
    once and [proof_of_work] returns the nonce 0, installed on the block,
    without any search. *)
Theorem proof_of_work_returns_zero_at_once (fuel : nat)
    (block : CryptographicProof.Block) (difficulty : Z) :
  difficulty <= -64 ->
  CryptographicProof.proof_of_work Py.sha256_hexdigest (S fuel) block difficulty
  = Py.Done (0, CryptographicProof.set_proof block 0).
Proof.
  intros Hd. unfold CryptographicProof.proof_of_work.
  cbn [CryptographicProof.search].
  assert (Hvalid : CryptographicProof.is_valid Py.sha256_hexdigest
                     (CryptographicProof.set_proof block 0) difficulty = true).
  { unfold CryptographicProof.is_valid.
    pose proof (sha256_digest_length (CryptographicProof.set_proof block 0)) as Hlen.
    revert Hlen. generalize (CryptographicProof.hash Py.sha256_hexdigest
                               (CryptographicProof.set_proof block 0)).
    intros digest Hlen. unfold Py.slice_to, Py.str_mul.
    destruct (Z.leb_spec 0 difficulty) as [?|_]; [lia|]. rewrite Hlen.
    replace (Z.to_nat (Z.of_nat 64 + difficulty)) with O by lia.
    replace (Z.to_nat difficulty) with O by lia. by destruct digest. }
  rewrite Hvalid. reflexivity.
Qed.

Lemma proof_of_work_returns_zero_at_once_witness :
  -64 <= -64 /\
  CryptographicProof.proof_of_work Py.sha256_hexdigest 1 pow_candidate (-64)
  = Py.Done (0, CryptographicProof.set_proof pow_candidate 0).
Proof.
  assert (Hd : -64 <= -64) by lia.
  split; [exact Hd|].
  exact (proof_of_work_returns_zero_at_once 0 pow_candidate (-64) Hd).
Defined.

(** ** [with_cryptographic_proof.py]: what [add_block] does to the chain *)

Lemma pow_add_block_cases (sha256_hexdigest : string -> string) (difficulty : Z)
    (fuel : nat) (now elapsed : string) (batch : list Transaction)
    (self self' : CryptographicProof.Blockchain) (out : list string) :
  CryptographicProof.add_block_at sha256_hexdigest difficulty fuel now elapsed batch self
  = Py.Done (self', out) ->
  (CryptographicProof.are_transactions_valid self batch = false /\
   self' = self /\ out = ["Invalid transactions"]) \/
  (CryptographicProof.are_transactions_valid self batch = true /\
   out = ["Proof of work solved in " +:+ elapsed +:+ " seconds"] /\
   exists front last_block nonce,
     CryptographicProof.blocks self = front ++ [last_block] /\
     self' = CryptographicProof.mkBlockchain
               (CryptographicProof.blocks self ++
                [CryptographicProof.mkBlock now batch
                   (CryptographicProof.hash sha256_hexdigest last_block) nonce]) /\
     CryptographicProof.is_valid sha256_hexdigest
       (CryptographicProof.mkBlock now batch
          (CryptographicProof.hash sha256_hexdigest last_block) nonce) difficulty = true /\
     0 <= nonce < Z.of_nat fuel /\
     forall m, 0 <= m < nonce ->
       CryptographicProof.is_valid sha256_hexdigest
         (CryptographicProof.mkBlock now batch
            (CryptographicProof.hash sha256_hexdigest last_block) m) difficulty = false).
Proof.
  unfold CryptographicProof.add_block_at.
  destruct (CryptographicProof.are_transactions_valid self batch); simpl.
  2:{ intros [= <- <-]. by left. }
  destruct (Py.getitem _ _) as [last_block| |] eqn:Hget; simpl; try discriminate.
  destruct (CryptographicProof.proof_of_work _ _ _ _) as [[nonce sealed]| |] eqn:Hpow;
    simpl; try discriminate.
  intros [= <- <-]. right. split; [done|]. split; [done|].
  apply getitem_minus_one_inv in Hget as [front Hfront].
  apply CryptographicProofFacts.proof_of_work_sound in Hpow as (-> & Hv & Hrange & Hleast).
  exists front, last_block, nonce. repeat split; try done; lia.
Qed.

Lemma pow_commit_balances (sha256_hexdigest : string -> string) (difficulty : Z)
    (fuel : nat) (now elapsed : string) (batch : list Transaction)
    (self self' : CryptographicProof.Blockchain) (out : list string) :
  CryptographicProof.are_transactions_valid self batch = true ->
  CryptographicProof.add_block_at sha256_hexdigest difficulty fuel now elapsed batch self
  = Py.Done (self', out) ->
  CryptographicProof.calculate_balances self' None
  = CryptographicProof.calculate_balances self (Some batch).
Proof.
  intros Hv Hadd.
  apply pow_add_block_cases in Hadd
    as [(Hv' & _)|(_ & _ & front & last_block & nonce & _ & -> & _)]; [congruence|].
  unfold CryptographicProof.calculate_balances, CryptographicProof.committed_balances.
  simpl. rewrite fold_left_app. simpl. by destruct batch.
Qed.

(** X18. In [with_cryptographic_proof.py] the pending view is the
    post-commit view: once [add_block] has appended an accepted batch, the
    dictionary [calculate_balances()] returns is the very dictionary
    [calculate_balances(batch)] returned before the call, 'System' included,
    whatever the difficulty. *)
Theorem pow_preview_equals_commit (sha256_hexdigest : string -> string) (difficulty : Z)
    (fuel : nat) (now elapsed : string) (batch : list Transaction)
    (self self' : CryptographicProof.Blockchain) (out : list string) :
  CryptographicProof.are_transactions_valid self batch = true ->
  CryptographicProof.add_block_at sha256_hexdigest difficulty fuel now elapsed batch self
  = Py.Done (self', out) ->
  CryptographicProof.calculate_balances self' None
  = CryptographicProof.calculate_balances self (Some batch).
Proof. apply pow_commit_balances. Qed.

Lemma pow_preview_equals_commit_witness :
  CryptographicProof.are_transactions_valid pow_start demo_block1 = true /\
  CryptographicProof.add_block_at Py.sha256_hexdigest 1 40 "1700000052.5" "0.002"
    demo_block1 pow_start
  = Py.Done
      (CryptographicProof.mkBlockchain
         (CryptographicProof.blocks pow_start
          ++ [CryptographicProof.mkBlock "1700000052.5" demo_block1
                "00008aa016671b79a8ea6c0d75c6c60363f06a69bc426bd39a0b2e8d33fc9280" 1]),
       ["Proof of work solved in 0.002 seconds"]) /\
  CryptographicProof.calculate_balances
    (CryptographicProof.mkBlockchain
       (CryptographicProof.blocks pow_start
        ++ [CryptographicProof.mkBlock "1700000052.5" demo_block1
              "00008aa016671b79a8ea6c0d75c6c60363f06a69bc426bd39a0b2e8d33fc9280" 1])) None
  = CryptographicProof.calculate_balances pow_start (Some demo_block1).
Proof.
  assert (Hv : CryptographicProof.are_transactions_valid pow_start demo_block1 = true)
    by (vm_compute; reflexivity).
  assert (Hadd : CryptographicProof.add_block_at Py.sha256_hexdigest 1 40 "1700000052.5"
                   "0.002" demo_block1 pow_start
          = Py.Done
              (CryptographicProof.mkBlockchain
                 (CryptographicProof.blocks pow_start
                  ++ [CryptographicProof.mkBlock "1700000052.5" demo_block1
                        "00008aa016671b79a8ea6c0d75c6c60363f06a69bc426bd39a0b2e8d33fc9280"
                        1]),
               ["Proof of work solved in 0.002 seconds"])) by (vm_compute; reflexivity).
  split; [exact Hv|]. split; [exact Hadd|].
  exact (pow_preview_equals_commit Py.sha256_hexdigest 1 40 "1700000052.5" "0.002"
           demo_block1 pow_start _ _ Hv Hadd).
Defined.

Lemma init_shape (sha256_hexdigest : string -> string) (fuel : nat) (now : string)
    (self : CryptographicProof.Blockchain) :
  CryptographicProof.init sha256_hexdigest fuel now = Py.Done self ->
  exists nonce,
    self = CryptographicProof.mkBlockchain
             [CryptographicProof.mkBlock now CryptographicProof.genesis_transactions "0"
                nonce] /\
    CryptographicProof.is_valid sha256_hexdigest
      (CryptographicProof.mkBlock now CryptographicProof.genesis_transactions "0" nonce) 4
    = true /\
    0 <= nonce < Z.of_nat fuel /\
    forall m, 0 <= m < nonce ->
      CryptographicProof.is_valid sha256_hexdigest
        (CryptographicProof.mkBlock now CryptographicProof.genesis_transactions "0" m) 4
      = false.
Proof.
  unfold CryptographicProof.init, CryptographicProof.genesis_block.
  destruct (CryptographicProof.proof_of_work _ _ _ _) as [[nonce sealed]| |] eqn:Hpow;
    simpl; try discriminate.
  intros [= <-].
  apply CryptographicProofFacts.proof_of_work_sound in Hpow as (-> & Hv & Hrange & Hleast).
  exists nonce. repeat split; try done; lia.
Qed.

Lemma pow_init_balances (sha256_hexdigest : string -> string) (fuel : nat) (now : string)
    (self : CryptographicProof.Blockchain) :
  CryptographicProof.init sha256_hexdigest fuel now = Py.Done self ->
  (exists nonce,
     CryptographicProof.blocks self
     = [CryptographicProof.mkBlock now CryptographicProof.genesis_transactions "0" nonce] /\
     CryptographicProof.is_valid sha256_hexdigest
       (CryptographicProof.mkBlock now CryptographicProof.genesis_transactions "0" nonce) 4
     = true /\
     0 <= nonce /\
     forall m, 0 <= m < nonce ->
       CryptographicProof.is_valid sha256_hexdigest
         (CryptographicProof.mkBlock now CryptographicProof.genesis_transactions "0" m) 4
       = false) /\
  forall a,
    CryptographicProof.calculate_balances self None !! a
    = if String.eqb a "System" then Some (-300)
      else if String.eqb a "Alice" || String.eqb a "Bob" || String.eqb a "Charlie"
           then Some 100 else None.
Proof.
  intros Hinit. apply init_shape in Hinit as (nonce & -> & Hv & Hrange & Hleast).
  split.
  - exists nonce. repeat split; try done; lia.
  - intros a.
    rewrite (proj2 (lookup_committed_balances
                      (SufficientBalance.mkBlockchain
                         (SufficientBalance.create_genesis_block 0) []) _ a)).
    cbn [CryptographicProof.blocks CryptographicProof.all_transactions List.map
         List.concat CryptographicProof.transactions CryptographicProof.genesis_transactions
         app mentioned sent received from_address to_address amount].
    rewrite (String.eqb_sym "System" a), (String.eqb_sym "Alice" a),
      (String.eqb_sym "Bob" a), (String.eqb_sym "Charlie" a).
    destruct (String.eqb_spec a "System") as [->|_]; [reflexivity|].
    destruct (String.eqb_spec a "Alice") as [->|_]; [reflexivity|].
    destruct (String.eqb_spec a "Bob") as [->|_]; [reflexivity|].
    destruct (String.eqb_spec a "Charlie") as [->|_]; reflexivity.
Qed.

(** X19. When the constructor of [with_cryptographic_proof.py] returns, the
    chain is one block: the three mints of 100 from 'System', the link "0",
    the time the constructor read, and the smallest nonce at which the
    digest starts with four zeros. Its balances are 100 for Alice, Bob and
    Charlie and -300 for 'System', and no other address is in the
    dictionary. *)
Theorem pow_init_result (sha256_hexdigest : string -> string) (fuel : nat) (now : string)
    (self : CryptographicProof.Blockchain) :
  CryptographicProof.init sha256_hexdigest fuel now = Py.Done self ->
  (exists nonce,
     CryptographicProof.blocks self
     = [CryptographicProof.mkBlock now CryptographicProof.genesis_transactions "0" nonce] /\
     CryptographicProof.is_valid sha256_hexdigest
       (CryptographicProof.mkBlock now CryptographicProof.genesis_transactions "0" nonce) 4
     = true /\
     0 <= nonce /\
     forall m, 0 <= m < nonce ->
       CryptographicProof.is_valid sha256_hexdigest
         (CryptographicProof.mkBlock now CryptographicProof.genesis_transactions "0" m) 4
       = false) /\
  forall a,
    CryptographicProof.calculate_balances self None !! a
    = if String.eqb a "System" then Some (-300)
      else if String.eqb a "Alice" || String.eqb a "Bob" || String.eqb a "Charlie"
           then Some 100 else None.
Proof. apply pow_init_balances. Qed.

Lemma pow_init_result_witness :
  CryptographicProof.init Py.sha256_hexdigest 40 "1700000000.929" = Py.Done pow_start /\
  CryptographicProof.blocks pow_start
  = [CryptographicProof.mkBlock "1700000000.929" CryptographicProof.genesis_transactions
       "0" 17] /\
  CryptographicProof.calculate_balances pow_start None !! "Bob" = Some 100.
Proof.
  assert (Hinit : CryptographicProof.init Py.sha256_hexdigest 40 "1700000000.929"
                  = Py.Done pow_start) by (vm_compute; reflexivity).
  split; [exact Hinit|]. split; [reflexivity|].
  exact (proj2 (pow_init_result Py.sha256_hexdigest 40 "1700000000.929" pow_start Hinit)
           "Bob").
Defined.

Lemma pow_add_blocks_nonnegative (sha256_hexdigest : string -> string)
    (calls : list CryptographicProof.Call) :
  forall (self self' : CryptographicProof.Blockchain) (out : list string),
    CryptographicProof.add_blocks sha256_hexdigest calls self = Py.Done (self', out) ->
    Forall (fun call => amounts_nonnegative (CryptographicProof.call_transactions call))
      calls ->
    (forall a, a <> "System" ->
       0 <= Ledger.get (CryptographicProof.calculate_balances self None) a) ->
    forall a, a <> "System" ->
      0 <= Ledger.get (CryptographicProof.calculate_balances self' None) a.
Proof.
  induction calls as [|call calls IH]; intros self self' out; simpl.
  - by intros [= <- _].
  - destruct (CryptographicProof.add_block_at _ _ _ _ _ _ self) as [[s1 o1]| |] eqn:H1;
      simpl; try discriminate.
    destruct (CryptographicProof.add_blocks _ calls s1) as [[s2 o2]| |] eqn:H2;
      simpl; try discriminate.
    intros [= <- _] Hpos Hinv. inversion Hpos as [|? ? Hbatch Hrest]; subst.
    apply (IH _ _ _ H2 Hrest). intros a Ha.
    destruct (CryptographicProof.are_transactions_valid self
                (CryptographicProof.call_transactions call)) eqn:Hv.
    2:{ apply pow_add_block_cases in H1 as [(_ & -> & _)|(Hv' & _)];
          [by apply Hinv|congruence]. }
    rewrite (pow_commit_balances _ _ _ _ _ _ _ _ _ Hv H1).
    destruct (in_dec string_dec a
                (List.map from_address (CryptographicProof.call_transactions call)))
      as [Hin|Hnot].
    + by apply (checked_sender_nonnegative _ (CryptographicProof.call_transactions call)).
    + rewrite CryptographicProofFacts.pow_get_calculate_balances.
      rewrite (sent_not_sender _ _ Hnot).
      pose proof (received_nonnegative a _ Hbatch). specialize (Hinv a Ha).
      unfold CryptographicProof.calculate_balances in *. lia.
Qed.

(** X20. No overdraft in [with_cryptographic_proof.py]: on every chain the
    constructor and [add_block] build, at whatever difficulties, with amounts
    that are not negative, the committed balance of every address other than
    'System' is at least 0. *)
Theorem pow_no_overdraft (sha256_hexdigest : string -> string) (fuel : nat) (now : string)
    (calls : list CryptographicProof.Call)
    (start self : CryptographicProof.Blockchain) (out : list string) (a : string) :
  CryptographicProof.init sha256_hexdigest fuel now = Py.Done start ->
  CryptographicProof.add_blocks sha256_hexdigest calls start = Py.Done (self, out) ->
  Forall (fun call => amounts_nonnegative (CryptographicProof.call_transactions call))
    calls ->
  a <> "System" ->
  0 <= Ledger.get (CryptographicProof.calculate_balances self None) a.
Proof.
  intros Hinit Hrun Hpos Ha.
  apply (pow_add_blocks_nonnegative _ _ _ _ _ Hrun Hpos); [|done].
  intros b Hb. unfold Ledger.get.
  rewrite (proj2 (pow_init_balances _ _ _ _ Hinit) b).
  destruct (String.eqb_spec b "System") as [?|_]; [congruence|].
  destruct (String.eqb b "Alice" || String.eqb b "Bob" || String.eqb b "Charlie"); simpl; lia.
Qed.

Lemma pow_no_overdraft_witness :
  CryptographicProof.init Py.sha256_hexdigest 40 "1700000000.929" = Py.Done pow_start /\
  CryptographicProof.add_blocks Py.sha256_hexdigest
    [CryptographicProof.mkCall 1 40 "1700000052.5" "0.002" demo_block1] pow_start
  = Py.Done
      (CryptographicProof.mkBlockchain
         (CryptographicProof.blocks pow_start
          ++ [CryptographicProof.mkBlock "1700000052.5" demo_block1
                "00008aa016671b79a8ea6c0d75c6c60363f06a69bc426bd39a0b2e8d33fc9280" 1]),
       ["Proof of work solved in 0.002 seconds"]) /\
  0 <= Ledger.get
         (CryptographicProof.calculate_balances
            (CryptographicProof.mkBlockchain
               (CryptographicProof.blocks pow_start
                ++ [CryptographicProof.mkBlock "1700000052.5" demo_block1
                      "00008aa016671b79a8ea6c0d75c6c60363f06a69bc426bd39a0b2e8d33fc9280"
                      1])) None) "Alice".
Proof.
  assert (Hinit : CryptographicProof.init Py.sha256_hexdigest 40 "1700000000.929"
                  = Py.Done pow_start) by (vm_compute; reflexivity).
  assert (Hrun : CryptographicProof.add_blocks Py.sha256_hexdigest
            [CryptographicProof.mkCall 1 40 "1700000052.5" "0.002" demo_block1] pow_start
          = Py.Done
              (CryptographicProof.mkBlockchain
                 (CryptographicProof.blocks pow_start
                  ++ [CryptographicProof.mkBlock "1700000052.5" demo_block1
                        "00008aa016671b79a8ea6c0d75c6c60363f06a69bc426bd39a0b2e8d33fc9280"
                        1]),
               ["Proof of work solved in 0.002 seconds"])) by (vm_compute; reflexivity).
  assert (Hpos : Forall (fun call => amounts_nonnegative
                                       (CryptographicProof.call_transactions call))
            [CryptographicProof.mkCall 1 40 "1700000052.5" "0.002" demo_block1])
    by (repeat constructor; simpl; lia).
  assert (Ha : "Alice" <> "System") by discriminate.
  split; [exact Hinit|]. split; [exact Hrun|].
  exact (pow_no_overdraft Py.sha256_hexdigest 40 "1700000000.929" _ pow_start _ _ "Alice"
           Hinit Hrun Hpos Ha).
Defined.

Lemma pow_first_defect_none_iff (sha256_hexdigest : string -> string)
    (rest : list CryptographicProof.Block) :
  forall (i : nat) (previous : CryptographicProof.Block),
    CryptographicProof.first_defect sha256_hexdigest i previous rest = None <->
    forall (k : nat) (p c : CryptographicProof.Block),
      (previous :: rest) !! k = Some p ->
      (previous :: rest) !! S k = Some c ->
      CryptographicProof.previous_hash c = CryptographicProof.hash sha256_hexdigest p.
Proof.
  induction rest as [|b rest IH]; intros i previous.
  - split; [|done]. intros _ [|k] p c; simpl; intros; discriminate.
  - simpl. rewrite String.eqb_refl. simpl.
    destruct (String.eqb_spec (CryptographicProof.previous_hash b)
                (CryptographicProof.hash sha256_hexdigest previous)) as [Hp|Hp]; simpl.
    2:{ split; [discriminate|]. intros Hall.
        pose proof (Hall 0%nat previous b eq_refl eq_refl). congruence. }
    rewrite IH. split.
    + intros Hall [|k] p c Hk Hk'.
      * simpl in Hk, Hk'. injection Hk as <-. injection Hk' as <-. done.
      * apply (Hall k p c); done.
    + intros Hall k p c Hk Hk'. apply (Hall (S k) p c); done.
Qed.

(** X21. [is_chain_valid] of [with_cryptographic_proof.py] returns [True]
    exactly when every block after the first records the digest of the block
    before it. It reads nothing else: the comparison of a digest with itself
    never fails, the proof of work is not tested, and no field of the last
    block but its link matters. *)
Theorem pow_is_chain_valid_iff (sha256_hexdigest : string -> string)
    (self : CryptographicProof.Blockchain) :
  CryptographicProof.is_chain_valid sha256_hexdigest self = true <->
  forall (k : nat) (p c : CryptographicProof.Block),
    CryptographicProof.blocks self !! k = Some p ->
    CryptographicProof.blocks self !! S k = Some c ->
    CryptographicProof.previous_hash c = CryptographicProof.hash sha256_hexdigest p.
Proof.
  unfold CryptographicProof.is_chain_valid, CryptographicProof.defect.
  destruct (CryptographicProof.blocks self) as [|first rest].
  - split; [|done]. intros _ k p c; discriminate.
  - rewrite <- (pow_first_defect_none_iff sha256_hexdigest rest 1 first).
    destruct (CryptographicProof.first_defect _ _ _ _); split; done.
Qed.

(** X22. Every block of a chain of [with_cryptographic_proof.py] carries
    its proof of work, although [is_chain_valid] never asks for it: on a
    chain built by the constructor and by [add_block] calls at difficulty 4
    or more (the script passes 7), the digest of every block starts with
    four zeros. *)
Theorem pow_every_block_sealed (sha256_hexdigest : string -> string) (fuel : nat)
    (now : string) (calls : list CryptographicProof.Call)
    (start self : CryptographicProof.Blockchain) (out : list string)
    (b : CryptographicProof.Block) :
  CryptographicProof.init sha256_hexdigest fuel now = Py.Done start ->
  CryptographicProof.add_blocks sha256_hexdigest calls start = Py.Done (self, out) ->
  Forall (fun call => 4 <= CryptographicProof.call_difficulty call) calls ->
  In b (CryptographicProof.blocks self) ->
  CryptographicProof.is_valid sha256_hexdigest b 4 = true.
Proof.
  intros Hinit Hrun Hcalls.
  assert (Hgen : forall calls self self' out,
    CryptographicProof.add_blocks sha256_hexdigest calls self = Py.Done (self', out) ->
    Forall (fun call => 4 <= CryptographicProof.call_difficulty call) calls ->
    (forall b, In b (CryptographicProof.blocks self) ->
       CryptographicProof.is_valid sha256_hexdigest b 4 = true) ->
    forall b, In b (CryptographicProof.blocks self') ->
      CryptographicProof.is_valid sha256_hexdigest b 4 = true).
  { clear. induction calls as [|call calls IH]; intros self self' out; simpl.
    - by intros [= <- _].
    - destruct (CryptographicProof.add_block_at _ _ _ _ _ _ self) as [[s1 o1]| |] eqn:H1;
        simpl; try discriminate.
      destruct (CryptographicProof.add_blocks _ calls s1) as [[s2 o2]| |] eqn:H2;
        simpl; try discriminate.
      intros [= <- _] Hd Hinv. inversion Hd as [|? ? Hcall Hrest]; subst.
      apply (IH _ _ _ H2 Hrest).
      apply pow_add_block_cases in H1
        as [(_ & -> & _)|(_ & _ & front & last_block & nonce & _ & -> & Hv & _)]; [done|].
      simpl. intros b Hb. apply in_app_or in Hb as [Hb|[<-|[]]]; [by apply Hinv|].
      apply (is_valid_lower _ _ (CryptographicProof.call_difficulty call));
        [lia|done]. }
  apply (Hgen _ _ _ _ Hrun Hcalls).
  apply init_shape in Hinit as (nonce & -> & Hv & _). simpl.
  by intros b' [<-|[]].
Qed.

Lemma pow_every_block_sealed_witness :
  CryptographicProof.init Py.sha256_hexdigest 40 "1700000000.929" = Py.Done pow_start /\
  CryptographicProof.add_blocks Py.sha256_hexdigest pow_calls pow_start
    = Py.Done (pow_chain,
               ["Proof of work solved in 251.8 seconds";
                "Proof of work solved in 97.3 seconds"]) /\
  Forall (fun call => 4 <= CryptographicProof.call_difficulty call) pow_calls /\
  In pow_last (CryptographicProof.blocks pow_chain) /\
  CryptographicProof.is_valid Py.sha256_hexdigest pow_last 4 = true.
Proof.
  assert (Hinit : CryptographicProof.init Py.sha256_hexdigest 40 "1700000000.929"
                  = Py.Done pow_start) by (vm_compute; reflexivity).
  assert (Hrun : CryptographicProof.add_blocks Py.sha256_hexdigest pow_calls pow_start
                 = Py.Done (pow_chain,
                            ["Proof of work solved in 251.8 seconds";
                             "Proof of work solved in 97.3 seconds"]))
    by (vm_compute; reflexivity).
  assert (Hcalls : Forall (fun call => 4 <= CryptographicProof.call_difficulty call)
                     pow_calls) by (repeat constructor; simpl; lia).
  assert (Hin : In pow_last (CryptographicProof.blocks pow_chain))
    by (simpl; auto).
  split; [exact Hinit|]. split; [exact Hrun|]. split; [exact Hcalls|]. split; [exact Hin|].
  exact (pow_every_block_sealed Py.sha256_hexdigest 40 "1700000000.929" pow_calls pow_start
           pow_chain _ pow_last Hinit Hrun Hcalls Hin).
Defined.

Lemma pow_built_nonempty (sha256_hexdigest : string -> string) (fuel : nat) (now : string)
    (calls : list CryptographicProof.Call)
    (start self : CryptographicProof.Blockchain) (out : list string) :
  CryptographicProof.init sha256_hexdigest fuel now = Py.Done start ->
  CryptographicProof.add_blocks sha256_hexdigest calls start = Py.Done (self, out) ->
  CryptographicProof.well_linked sha256_hexdigest self /\
  exists front last_block, CryptographicProof.blocks self = front ++ [last_block].
Proof.
  intros Hinit Hrun.
  assert (Hwl : CryptographicProof.well_linked sha256_hexdigest self).
  { eapply CryptographicProofFacts.pow_add_blocks_well_linked; [|exact Hrun].
    eapply CryptographicProofFacts.init_well_linked. exact Hinit. }
  split; [exact Hwl|]. destruct Hwl as (first & rest & Hb & _).
  apply nonempty_snoc. by rewrite Hb.
Qed.

(** X23. On a chain built by the constructor and [add_block],
    [add_block] never raises. A batch that fails the solvency check leaves
    the chain as it was and prints "Invalid transactions". An accepted batch
    is appended in one block linked to the digest of the former last block
    and sealed with the smallest nonce that passes the test at the call's
    difficulty; the call is still searching when its budget of iterations is
    spent only if no nonce below the budget passes the test. *)
Theorem pow_add_block_outcomes (sha256_hexdigest : string -> string) (fuel0 : nat)
    (now0 : string) (calls : list CryptographicProof.Call)
    (start self : CryptographicProof.Blockchain) (out : list string)
    (difficulty : Z) (fuel : nat) (now elapsed : string) (batch : list Transaction) :
  CryptographicProof.init sha256_hexdigest fuel0 now0 = Py.Done start ->
  CryptographicProof.add_blocks sha256_hexdigest calls start = Py.Done (self, out) ->
  (CryptographicProof.are_transactions_valid self batch = false /\
   CryptographicProof.add_block_at sha256_hexdigest difficulty fuel now elapsed batch self
   = Py.Done (self, ["Invalid transactions"])) \/
  (CryptographicProof.are_transactions_valid self batch = true /\
   exists front last_block,
     CryptographicProof.blocks self = front ++ [last_block] /\
     ((exists nonce,
         CryptographicProof.add_block_at sha256_hexdigest difficulty fuel now elapsed
           batch self
         = Py.Done
             (CryptographicProof.mkBlockchain
                (CryptographicProof.blocks self ++
                 [CryptographicProof.mkBlock now batch
                    (CryptographicProof.hash sha256_hexdigest last_block) nonce]),
              ["Proof of work solved in " +:+ elapsed +:+ " seconds"]) /\
         CryptographicProof.is_valid sha256_hexdigest
           (CryptographicProof.mkBlock now batch
              (CryptographicProof.hash sha256_hexdigest last_block) nonce) difficulty
         = true /\
         0 <= nonce /\
         forall m, 0 <= m < nonce ->
           CryptographicProof.is_valid sha256_hexdigest
             (CryptographicProof.mkBlock now batch
                (CryptographicProof.hash sha256_hexdigest last_block) m) difficulty
           = false) \/
      (CryptographicProof.add_block_at sha256_hexdigest difficulty fuel now elapsed
         batch self = Py.OutOfFuel /\
       forall m, 0 <= m < Z.of_nat fuel ->
         CryptographicProof.is_valid sha256_hexdigest
           (CryptographicProof.mkBlock now batch
              (CryptographicProof.hash sha256_hexdigest last_block) m) difficulty
         = false))).
Proof.
  intros Hinit Hrun.
  destruct (pow_built_nonempty _ _ _ _ _ _ _ Hinit Hrun) as (_ & front & last_block & Hb).
  destruct (CryptographicProof.are_transactions_valid self batch) eqn:Hv.
  2:{ left. split; [done|]. unfold CryptographicProof.add_block_at. by rewrite Hv. }
  right. split; [done|]. exists front, last_block. split; [done|].
  assert (Hstep :
    CryptographicProof.add_block_at sha256_hexdigest difficulty fuel now elapsed batch self
    = match CryptographicProof.proof_of_work sha256_hexdigest fuel
              (CryptographicProof.new_block now batch
                 (CryptographicProof.hash sha256_hexdigest last_block)) difficulty with
      | Py.Done (nonce, sealed) =>
          Py.Done (CryptographicProof.mkBlockchain
                     (CryptographicProof.blocks self
                      ++ [CryptographicProof.set_proof sealed nonce]),
                   ["Proof of work solved in " +:+ elapsed +:+ " seconds"])
      | Py.Raised exn => Py.Raised exn
      | Py.OutOfFuel => Py.OutOfFuel
      end).
  { unfold CryptographicProof.add_block_at. rewrite Hv. simpl.
    rewrite Hb at 1. rewrite getitem_minus_one. simpl.
    by destruct (CryptographicProof.proof_of_work _ _ _ _) as [[? ?]| |]. }
  rewrite Hstep.
  destruct (CryptographicProof.proof_of_work sha256_hexdigest fuel
              (CryptographicProof.new_block now batch
                 (CryptographicProof.hash sha256_hexdigest last_block)) difficulty)
    as [[nonce sealed]|exn|] eqn:Hpow.
  - left.
    apply CryptographicProofFacts.proof_of_work_sound in Hpow as (-> & Hvalid & Hr & Hl).
    exists nonce. split; [reflexivity|]. split; [exact Hvalid|]. split; [lia|]. exact Hl.
  - exfalso. by apply search_not_raised in Hpow.
  - right. split; [done|]. intros m Hm.
    destruct (CryptographicProof.is_valid sha256_hexdigest
                (CryptographicProof.mkBlock now batch
                   (CryptographicProof.hash sha256_hexdigest last_block) m) difficulty)
      eqn:Hvalid; [|done].
    destruct (CryptographicProofFacts.proof_of_work_complete sha256_hexdigest fuel
                (CryptographicProof.new_block now batch
                   (CryptographicProof.hash sha256_hexdigest last_block)) difficulty m Hm
                Hvalid) as (nonce & Hdone & _).
    congruence.
Qed.

Lemma pow_add_block_outcomes_witness :
  CryptographicProof.init Py.sha256_hexdigest 40 "1700000000.929" = Py.Done pow_start /\
  CryptographicProof.add_blocks Py.sha256_hexdigest [] pow_start = Py.Done (pow_start, []) /\
  CryptographicProof.are_transactions_valid pow_start [mkTransaction "Dave" "Eve" 10]
  = false /\
  CryptographicProof.add_block_at Py.sha256_hexdigest 7 40 "1700000052.5" "0.002"
    [mkTransaction "Dave" "Eve" 10] pow_start
  = Py.Done (pow_start, ["Invalid transactions"]).
Proof.
  assert (Hinit : CryptographicProof.init Py.sha256_hexdigest 40 "1700000000.929"
                  = Py.Done pow_start) by (vm_compute; reflexivity).
  assert (Hrun : CryptographicProof.add_blocks Py.sha256_hexdigest [] pow_start
                 = Py.Done (pow_start, [])) by reflexivity.
  split; [exact Hinit|]. split; [exact Hrun|].
  destruct (pow_add_block_outcomes Py.sha256_hexdigest 40 "1700000000.929" [] pow_start
              pow_start [] 7 40 "1700000052.5" "0.002" [mkTransaction "Dave" "Eve" 10]
              Hinit Hrun) as [Hrejected|[Haccepted _]].
  - exact Hrejected.
  - vm_compute in Haccepted. discriminate Haccepted.
Defined.

Lemma pow_first_defect_alter (sha256_hexdigest : string -> string)
    (f : list Transaction -> list Transaction) (rest : list CryptographicProof.Block) :
  forall (i : nat) (previous : CryptographicProof.Block) (k : nat)
         (b c : CryptographicProof.Block),
    CryptographicProof.first_defect sha256_hexdigest i previous rest = None ->
    rest !! k = Some b ->
    rest !! S k = Some c ->
    CryptographicProof.hash sha256_hexdigest
      (CryptographicProof.set_transactions b (f (CryptographicProof.transactions b)))
    <> CryptographicProof.hash sha256_hexdigest b ->
    CryptographicProof.first_defect sha256_hexdigest i previous
      (alter (fun block => CryptographicProof.set_transactions block
                             (f (CryptographicProof.transactions block))) k rest)
    = Some (i + S k)%nat.
Proof.
  induction rest as [|r rest IH]; intros i previous k b c Hd Hk Hk' Hne; [done|].
  simpl in Hd. rewrite String.eqb_refl in Hd. simpl in Hd.
  destruct (String.eqb_spec (CryptographicProof.previous_hash r)
              (CryptographicProof.hash sha256_hexdigest previous)) as [Hlink|];
    [|discriminate]. simpl in Hd.
  destruct k as [|k].
  - simpl in Hk. injection Hk as ->. destruct rest as [|c' rest]; [discriminate|].
    simpl in Hk'. injection Hk' as ->.
    simpl in Hd. rewrite String.eqb_refl in Hd. simpl in Hd.
    destruct (String.eqb_spec (CryptographicProof.previous_hash c)
                (CryptographicProof.hash sha256_hexdigest b)) as [Hlink'|]; [|discriminate].
    change (alter _ 0%nat (b :: c :: rest))
      with (CryptographicProof.set_transactions b (f (CryptographicProof.transactions b))
            :: c :: rest).
    cbn [CryptographicProof.first_defect]. rewrite !String.eqb_refl.
    cbn [negb CryptographicProof.set_transactions CryptographicProof.previous_hash].
    rewrite Hlink, String.eqb_refl. cbn [negb]. rewrite Hlink'.
    destruct (String.eqb_spec (CryptographicProof.hash sha256_hexdigest b)
                (CryptographicProof.hash sha256_hexdigest
                   (CryptographicProof.set_transactions b
                      (f (CryptographicProof.transactions b))))) as [Heq|_];
      [congruence|].
    cbn [negb]. f_equal. lia.
  - change (alter ?g (S k) (r :: rest)) with (r :: alter g k rest).
    cbn [CryptographicProof.first_defect]. rewrite String.eqb_refl, Hlink, String.eqb_refl.
    cbn [negb].
    transitivity (Some (S i + S k)%nat); [|f_equal; lia].
    exact (IH (S i) r k b c Hd Hk Hk' Hne).
Qed.

(** X24. In [with_cryptographic_proof.py] a change to the transactions of
    a block that has a successor, on a chain built by the constructor and
    [add_block], is reported when the loop reaches the successor, as soon as
    the digest of the block has changed: [is_chain_valid] returns [False] at
    the position after the tampered block, never at the block itself. *)
Theorem pow_tampering_reported_at_successor (sha256_hexdigest : string -> string)
    (fuel : nat) (now : string) (calls : list CryptographicProof.Call)
    (start self : CryptographicProof.Blockchain) (out : list string)
    (k : nat) (b c : CryptographicProof.Block) (f : list Transaction -> list Transaction) :
  CryptographicProof.init sha256_hexdigest fuel now = Py.Done start ->
  CryptographicProof.add_blocks sha256_hexdigest calls start = Py.Done (self, out) ->
  CryptographicProof.blocks self !! k = Some b ->
  CryptographicProof.blocks self !! S k = Some c ->
  CryptographicProof.hash sha256_hexdigest
    (CryptographicProof.set_transactions b (f (CryptographicProof.transactions b)))
  <> CryptographicProof.hash sha256_hexdigest b ->
  CryptographicProof.defect sha256_hexdigest (CryptographicProof.tamper k f self)
  = Some (S k) /\
  CryptographicProof.is_chain_valid sha256_hexdigest (CryptographicProof.tamper k f self)
  = false.
Proof.
  intros Hinit Hrun Hk Hk' Hne.
  destruct (pow_built_nonempty _ _ _ _ _ _ _ Hinit Hrun) as ((first & rest & Hb & Hd) & _).
  assert (Hdefect : CryptographicProof.defect sha256_hexdigest
                      (CryptographicProof.tamper k f self) = Some (S k)).
  { unfold CryptographicProof.defect, CryptographicProof.tamper. simpl.
    rewrite Hb in Hk, Hk' |- *. destruct k as [|k].
    - simpl in Hk. injection Hk as ->. destruct rest as [|c' rest]; [discriminate|].
      simpl in Hk'. injection Hk' as ->.
      change (alter _ 0%nat (b :: c :: rest))
        with (CryptographicProof.set_transactions b (f (CryptographicProof.transactions b))
              :: c :: rest).
      simpl in Hd. rewrite String.eqb_refl in Hd. simpl in Hd.
      destruct (String.eqb_spec (CryptographicProof.previous_hash c)
                  (CryptographicProof.hash sha256_hexdigest b)) as [Hlink|]; [|discriminate].
      cbn [CryptographicProof.first_defect]. rewrite String.eqb_refl. cbn [negb].
      rewrite Hlink.
      destruct (String.eqb_spec (CryptographicProof.hash sha256_hexdigest b)
                  (CryptographicProof.hash sha256_hexdigest
                     (CryptographicProof.set_transactions b
                        (f (CryptographicProof.transactions b))))) as [Heq|_];
        [congruence|done].
    - change (alter ?g (S k) (first :: rest)) with (first :: alter g k rest).
      simpl in Hk, Hk'.
      exact (pow_first_defect_alter sha256_hexdigest f rest 1 first k b c Hd Hk Hk' Hne). }
  split; [exact Hdefect|]. unfold CryptographicProof.is_chain_valid. by rewrite Hdefect.
Qed.

Lemma pow_tampering_reported_at_successor_witness :
  CryptographicProof.init Py.sha256_hexdigest 40 "1700000000.929" = Py.Done pow_start /\
  CryptographicProof.add_blocks Py.sha256_hexdigest pow_calls pow_start
    = Py.Done (pow_chain,
               ["Proof of work solved in 251.8 seconds";
                "Proof of work solved in 97.3 seconds"]) /\
  CryptographicProof.defect Py.sha256_hexdigest
    (CryptographicProof.tamper 1 (set_amount 0 1000) pow_chain) = Some 2%nat /\
  CryptographicProof.is_chain_valid Py.sha256_hexdigest
    (CryptographicProof.tamper 1 (set_amount 0 1000) pow_chain) = false.
Proof.
  assert (Hinit : CryptographicProof.init Py.sha256_hexdigest 40 "1700000000.929"
                  = Py.Done pow_start) by (vm_compute; reflexivity).
  assert (Hrun : CryptographicProof.add_blocks Py.sha256_hexdigest pow_calls pow_start
                 = Py.Done (pow_chain,
                            ["Proof of work solved in 251.8 seconds";
                             "Proof of work solved in 97.3 seconds"]))
    by (vm_compute; reflexivity).
  split; [exact Hinit|]. split; [exact Hrun|].
  refine (pow_tampering_reported_at_successor Py.sha256_hexdigest 40 "1700000000.929"
            pow_calls pow_start pow_chain _ 1%nat
            (CryptographicProof.mkBlock "1700007925.6339998" demo_block1
               "00008aa016671b79a8ea6c0d75c6c60363f06a69bc426bd39a0b2e8d33fc9280" 32)
            pow_last (set_amount 0 1000) Hinit Hrun _ _ _).
  - reflexivity.
  - reflexivity.
  - vm_compute. discriminate.
Defined.

(** ** The two scripts side by side *)

(** X25. The special case for 'System' in the pending loop of
    [sufficient_balance.py] never changes a verdict: on chains that hold the
    same transactions, [are_transactions_valid] of the two scripts accepts
    the same batches. *)
Theorem scripts_accept_the_same_batches
    (self : SufficientBalance.Blockchain) (chain : CryptographicProof.Blockchain)
    (batch : list Transaction) :
  SufficientBalance.all_transactions (SufficientBalance.blocks self)
  = CryptographicProof.all_transactions (CryptographicProof.blocks chain) ->
  SufficientBalance.are_transactions_valid self batch
  = CryptographicProof.are_transactions_valid chain batch.
Proof.
  intros Hsame.
  assert (Hiff : SufficientBalance.are_transactions_valid self batch = true <->
                 CryptographicProof.are_transactions_valid chain batch = true).
  { unfold SufficientBalance.are_transactions_valid,
      CryptographicProof.are_transactions_valid.
    rewrite !check_senders_spec. apply Forall_iff. intros t.
    rewrite SufficientBalanceFacts.get_calculate_balances,
      CryptographicProofFacts.pow_get_calculate_balances.
    unfold SufficientBalance.calculate_balances, CryptographicProof.calculate_balances.
    rewrite SufficientBalanceFacts.get_committed, CryptographicProofFacts.pow_get_committed,
      Hsame.
    unfold pending_sent.
    destruct (String.eqb_spec (from_address t) "System") as [Hs|_]; [|done].
    split; intros _; by left. }
  destruct (SufficientBalance.are_transactions_valid self batch),
    (CryptographicProof.are_transactions_valid chain batch); try done.
  - symmetry. by apply Hiff.
  - by apply Hiff.
Qed.

Lemma scripts_accept_the_same_batches_witness :
  SufficientBalance.all_transactions (SufficientBalance.blocks sb_after_block2)
  = CryptographicProof.all_transactions (CryptographicProof.blocks pow_chain) /\
  SufficientBalance.are_transactions_valid sb_after_block2 spends_received
  = CryptographicProof.are_transactions_valid pow_chain spends_received.
Proof.
  assert (Hsame : SufficientBalance.all_transactions (SufficientBalance.blocks sb_after_block2)
                  = CryptographicProof.all_transactions (CryptographicProof.blocks pow_chain))
    by reflexivity.
  split; [exact Hsame|].
  exact (scripts_accept_the_same_batches sb_after_block2 pow_chain spends_received Hsame).
Defined.

Lemma total_credit (balances : gmap string Z) (t : Transaction) :
  Ledger.total (Ledger.credit balances t) = Ledger.total balances + amount t.
Proof. unfold Ledger.credit. by rewrite total_iadd, total_ensure. Qed.

Lemma total_pending (pending : list Transaction) (balances : gmap string Z) :
  Ledger.total (List.fold_left SufficientBalance.pending_step pending balances)
  = Ledger.total balances + sent "System" pending.
Proof.
  revert balances. induction pending as [|t rest IH]; intros balances; simpl; [lia|].
  rewrite IH. unfold SufficientBalance.pending_step.
  destruct (String.eqb (from_address t) "System").
  - rewrite total_credit. lia.
  - rewrite total_transfer. lia.
Qed.

(** X26. The pending view of [sufficient_balance.py] does not balance: the
    balances [calculate_balances(batch)] returns sum to what 'System' sends
    in the batch, where those of [with_cryptographic_proof.py] sum to 0, as
    the committed balances of both scripts do. *)
Theorem pending_balances_totals
    (self : SufficientBalance.Blockchain) (chain : CryptographicProof.Blockchain)
    (batch : list Transaction) :
  Ledger.total (SufficientBalance.calculate_balances self (Some batch))
  = sent "System" batch /\
  Ledger.total (CryptographicProof.calculate_balances chain (Some batch)) = 0 /\
  Ledger.total (CryptographicProof.calculate_balances chain None) = 0.
Proof.
  split; [|split].
  - rewrite SufficientBalanceFacts.calculate_balances_pending, total_pending.
    unfold SufficientBalance.calculate_balances.
    rewrite SufficientBalanceFacts.committed_balances_replay, total_replay, total_empty. lia.
  - unfold CryptographicProof.calculate_balances.
    rewrite CryptographicProofFacts.pow_committed_balances_replay.
    destruct batch; rewrite ?total_replay; apply total_empty.
  - unfold CryptographicProof.calculate_balances.
    rewrite CryptographicProofFacts.pow_committed_balances_replay, total_replay.
    apply total_empty.
Qed.

(** X27. In a run of [sufficient_balance.py] every rejected batch prints
    one line and every accepted batch adds one block: the chain built from a
    fresh one has one block, plus one per call, minus one per line printed,
    and nothing else is printed. *)
Theorem sb_length_counts_accepted (sha256_hexdigest : string -> string) (now0 : Z)
    (calls : list (Z * list Transaction))
    (self : SufficientBalance.Blockchain) (out : list string) :
  SufficientBalance.add_blocks sha256_hexdigest calls (SufficientBalance.init now0)
    = Py.Done (self, out) ->
  (List.length (SufficientBalance.blocks self) + List.length out
   = 1 + List.length calls)%nat /\
  Forall (fun line => line = "Invalid transactions") out.
Proof.
  assert (Hgen : forall calls self self' out,
    SufficientBalance.add_blocks sha256_hexdigest calls self = Py.Done (self', out) ->
    (List.length (SufficientBalance.blocks self') + List.length out
     = List.length (SufficientBalance.blocks self) + List.length calls)%nat /\
    Forall (fun line => line = "Invalid transactions") out).
  { clear. induction calls as [|[now batch] calls IH]; intros self self' out; simpl.
    - intros [= <- <-]. split; [simpl; lia|constructor].
    - destruct (SufficientBalance.add_block _ _ _ self) as [[s1 o1]| |] eqn:H1;
        simpl; try discriminate.
      destruct (SufficientBalance.add_blocks _ calls s1) as [[s2 o2]| |] eqn:H2;
        simpl; try discriminate.
      intros [= <- <-]. destruct (IH _ _ _ H2) as [Hlen Hlines].
      apply sb_add_block_cases in H1
        as [(_ & -> & ->)|(_ & -> & front & last_block & _ & ->)].
      + split; [simpl; lia|]. by constructor.
      + simpl in *. rewrite length_app in Hlen. simpl in Hlen. split; [lia|done]. }
  intros Hrun. destruct (Hgen _ _ _ _ Hrun) as [Hlen Hlines]. split; [|done].
  simpl in Hlen. lia.
Qed.

Lemma sb_length_counts_accepted_witness :
  SufficientBalance.add_blocks Py.sha256_hexdigest
    [(1700000001, demo_mint); (1700000002, [mkTransaction "Dave" "Eve" 10])]
    (SufficientBalance.init 1700000000)
  = Py.Done (sb_funded, ["Invalid transactions"]) /\
  (List.length (SufficientBalance.blocks sb_funded) + 1 = 1 + 2)%nat.
Proof.
  assert (Hrun : SufficientBalance.add_blocks Py.sha256_hexdigest
            [(1700000001, demo_mint); (1700000002, [mkTransaction "Dave" "Eve" 10])]
            (SufficientBalance.init 1700000000)
          = Py.Done (sb_funded, ["Invalid transactions"])) by (vm_compute; reflexivity).
  split; [exact Hrun|].
  exact (proj1 (sb_length_counts_accepted Py.sha256_hexdigest _ _ _ _ Hrun)).
Defined.
